(** * Verification of the KTP/NPWP intake bot

    A shallow embedding of the bot's core (field validators, document
    record, extraction pipeline, session handling and the persistence
    orchestrator) together with the properties stated in its
    specification.

    Conventions of the embedding.
    - A Python [str] is a Rocq [string]; every character stands for the
      code point of the same number (0..255).  The character classes
      below ([isspace], [isdigit], [isdecimal], [isalnum] ...) are the
      restrictions of Python's Unicode predicates to that range.
    - A [datetime] is an integer number of microseconds on the local
      time line; [datetime.now()] is an explicit argument [now].
    - A Python [dict] with string keys is a [gmap string _].
    - Calls to collaborators (recognition service, Sheets, Drive,
      Telegram) are answered by an explicit environment record, and the
      mutations they perform on the outside world are logged. *)

From Stdlib Require Import ZArith Lia Bool Ascii String List DecimalString PrimFloat.
From stdpp Require Import gmap strings list fin_maps.

Local Open Scope string_scope.

(** ** Python text primitives *)

Module Py.

Definition code (c : ascii) : nat := nat_of_ascii c.

Definition between (lo hi n : nat) : bool := Nat.leb lo n && Nat.leb n hi.

(** [str.isspace] (also the class [\s] of [re] and the set removed by
    [str.strip()]). *)
Definition isspace (c : ascii) : bool :=
  let n := code c in
  between 9 13 n || between 28 32 n || Nat.eqb n 133 || Nat.eqb n 160.

(** [str.isdecimal], the class [\d] of [re]. *)
Definition isdecimal (c : ascii) : bool := between 48 57 (code c).

(** [str.isdigit]: the decimal digits and the superscripts 1, 2, 3. *)
Definition isdigit (c : ascii) : bool :=
  let n := code c in
  isdecimal c || Nat.eqb n 178 || Nat.eqb n 179 || Nat.eqb n 185.

Definition isalpha (c : ascii) : bool :=
  let n := code c in
  between 65 90 n || between 97 122 n || Nat.eqb n 170 || Nat.eqb n 181
  || Nat.eqb n 186 || between 192 214 n || between 216 246 n
  || between 248 255 n.

(** [str.isnumeric]: digits and the vulgar fractions. *)
Definition isnumeric (c : ascii) : bool :=
  isdigit c || between 188 190 (code c).

(** The class [\w] of [re]: alphanumerics and the underscore. *)
Definition isword (c : ascii) : bool :=
  isalpha c || isnumeric c || Nat.eqb (code c) 95.

(** [str.lower] on one character. *)
Definition lower_char (c : ascii) : ascii :=
  let n := code c in
  if between 65 90 n || between 192 214 n || between 216 222 n
  then ascii_of_nat (n + 32) else c.

(** [str.upper] on one character.  The three letters whose upper case
    leaves the modelled range (181, 223, 255) are kept as they are. *)
Definition upper_char (c : ascii) : ascii :=
  let n := code c in
  if between 97 122 n || between 224 246 n || between 248 254 n
  then ascii_of_nat (n - 32) else c.

Fixpoint smap (f : ascii → ascii) (s : string) : string :=
  match s with
  | EmptyString => EmptyString
  | String c s' => String (f c) (smap f s')
  end.

Fixpoint sfilter (p : ascii → bool) (s : string) : string :=
  match s with
  | EmptyString => EmptyString
  | String c s' => if p c then String c (sfilter p s') else sfilter p s'
  end.

Fixpoint sforall (p : ascii → bool) (s : string) : bool :=
  match s with
  | EmptyString => true
  | String c s' => p c && sforall p s'
  end.

Definition lower (s : string) : string := smap lower_char s.
Definition upper (s : string) : string := smap upper_char s.

Definition len (s : string) : nat := String.length s.

Fixpoint lstrip (s : string) : string :=
  match s with
  | EmptyString => EmptyString
  | String c s' => if isspace c then lstrip s' else s
  end.

Fixpoint rstrip (s : string) : string :=
  match s with
  | EmptyString => EmptyString
  | String c s' =>
      match rstrip s' with
      | EmptyString => if isspace c then EmptyString else String c EmptyString
      | r => String c r
      end
  end.

(** [s.strip()] *)
Definition strip (s : string) : string := rstrip (lstrip s).

(** [s[a:b]] for [0 <= a <= b]. *)
Definition slice (a b : nat) (s : string) : string := substring a (b - a) s.

(** [s[a:]] *)
Fixpoint drop_chars (a : nat) (s : string) : string :=
  match a, s with
  | O, _ => s
  | S a', String _ s' => drop_chars a' s'
  | S _, EmptyString => EmptyString
  end.

(** [c * n] for a one-character string [c]. *)
Fixpoint repeat_char (c : ascii) (n : nat) : string :=
  match n with
  | O => EmptyString
  | S n' => String c (repeat_char c n')
  end.

(** [s.startswith(p)] *)
Definition startswith (p s : string) : bool := String.prefix p s.

(** [sub in s] *)
Fixpoint contains (sub s : string) : bool :=
  String.prefix sub s ||
  match s with
  | EmptyString => false
  | String _ s' => contains sub s'
  end.

(** [x in xs] for a list of strings. *)
Definition str_in (x : string) (xs : list string) : bool :=
  existsb (String.eqb x) xs.

(** [str(n)] for an [int]. *)
Definition str_of_Z (z : Z) : string := NilZero.string_of_int (Z.to_int z).
Definition str_of_nat (n : nat) : string := str_of_Z (Z.of_nat n).

(** [len(set(s))] *)
Definition distinct_chars (s : string) : nat :=
  List.length (nodup ascii_dec (list_ascii_of_string s)).

(** [int(s)]: surrounding white space, an optional sign, then decimal
    digits, single underscores allowed between digits.  [None] is
    [ValueError]. *)
Fixpoint int_digits (after_digit : bool) (acc : Z) (s : string) : option Z :=
  match s with
  | EmptyString => if after_digit then Some acc else None
  | String c s' =>
      if isdecimal c
      then int_digits true (10 * acc + Z.of_nat (code c - 48)) s'
      else if Nat.eqb (code c) 95 && after_digit
           then match s' with
                | String d _ => if isdecimal d then int_digits false acc s' else None
                | EmptyString => None
                end
           else None
  end.

Definition int (s : string) : option Z :=
  match strip s with
  | String "+" r => int_digits false 0 r
  | String "-" r => option_map Z.opp (int_digits false 0 r)
  | r => int_digits false 0 r
  end.

End Py.

(** ** Exceptions (core/exceptions.py) *)

(** The exception classes the modelled code raises.  [BotException]'s
    subclasses carry their message; [ai_service] is the keyword argument
    of [AIProcessingError].  [OtherError] stands for the built-in
    exceptions ([AttributeError], [KeyError], ...) by their text. *)
Inductive Exn : Type :=
  | AIProcessingError (message : string) (ai_service : option string)
  | RateLimitError (message : string)
  | AuthenticationError (message : string)
  | GoogleServiceError (message : string)
  | DuplicateDataError (message : string)
  | SessionExpiredError
  | OtherError (text : string).

(** [isinstance(e, BotException)] *)
Definition is_BotException (e : Exn) : bool :=
  match e with
  | OtherError _ => false
  | _ => true
  end.

Definition is_AIProcessingError (e : Exn) : bool :=
  match e with
  | AIProcessingError _ _ => true
  | _ => false
  end.

(** [str(e)], i.e. [BotException.__str__]: the error code in brackets,
    then the message. *)
Definition exn_str (e : Exn) : string :=
  match e with
  | AIProcessingError m _ => "[AI_ERROR] " +:+ m
  | RateLimitError m => "[RATE_LIMIT] " +:+ m
  | AuthenticationError m => "[AUTH_ERROR] " +:+ m
  | GoogleServiceError m => "[GOOGLE_ERROR] " +:+ m
  | DuplicateDataError m => "[DUPLICATE_ERROR] " +:+ m
  | SessionExpiredError =>
      "[SESSION_EXPIRED] Sesi sudah berakhir. Silakan mulai ulang dengan /start"
  | OtherError t => t
  end.

(** Results of code that may raise. *)
Inductive Res (A : Type) : Type :=
  | Ok (a : A)
  | Raise (e : Exn).
Arguments Ok {A} a.
Arguments Raise {A} e.

Global Instance Res_ret : MRet Res := λ A a, Ok a.
Global Instance Res_bind : MBind Res := λ A B k r,
  match r with
  | Ok a => k a
  | Raise e => Raise e
  end.

(** ** Configuration (config/settings.py, config/constants.py) *)

Record Settings : Type := {
  SESSION_TIMEOUT_MINUTES : Z;
  ACTIVE_AI_SERVICE : string;
  FOLDER_MAP : gmap string string;
  SHEET_NAME_MAP : gmap string string;
}.

Definition constants_FOLDER_MAP : gmap string string :=
  list_to_map [
    ("BJ", "1B8-vxVXYjcG5m7aqnqFHjuShphvfjMo4");
    ("BJM", "15rLbNaQ-_DvExm86HBlevGqcTLJYkT0v");
    ("SBY", "15pjmJNcr2bdxDKBwm6DZmGm4FebQfZ0W");
    ("SMD-BPN", "1-DJINheeXhZT-ugOCAI0v8VnQOT4Zqo3");
    ("SMG", "1-BbhmDkHanpCBgLyl46NeBXa-B_ByYBh") ].

Definition constants_SHEET_NAME_MAP : gmap string string :=
  list_to_map [
    ("BJ", "NPWPKTP BJ (NEW)");
    ("SMG", "NPWPKTP BBN SMG (NEW)");
    ("SBY", "NPWPKTP BBN SBY-BJM (NEW)");
    ("BJM", "NPWPKTP BBN SBY-BJM (NEW)");
    ("SMD-BPN", "NPWPKTP BBN SMD-BPP (NEW)") ].

(** The settings obtained with an empty environment (all defaults). *)
Definition default_settings : Settings := {|
  SESSION_TIMEOUT_MINUTES := 30;
  ACTIVE_AI_SERVICE := "openai";
  FOLDER_MAP := constants_FOLDER_MAP;
  SHEET_NAME_MAP := constants_SHEET_NAME_MAP;
|}.

(** [Settings.is_valid_branch] *)
Definition is_valid_branch (cfg : Settings) (branch : string) : bool :=
  bool_decide (is_Some (FOLDER_MAP cfg !! branch))
  && bool_decide (is_Some (SHEET_NAME_MAP cfg !! branch)).

(** ** Document record (models/document.py) *)

Definition datetime : Type := Z.
Bind Scope Z_scope with datetime.

Inductive DocumentType : Type := KTP | NPWP.
Inductive NPWPType : Type := PERSONAL | COMPANY.

Definition DocumentType_value (t : DocumentType) : string :=
  match t with KTP => "KTP" | NPWP => "NPWP" end.

Definition NPWPType_value (t : NPWPType) : string :=
  match t with PERSONAL => "personal" | COMPANY => "company" end.

(** [DocumentType(s)] and [NPWPType(s)]: lookup by value, [None] is
    [ValueError]. *)
Definition DocumentType_of_value (s : string) : option DocumentType :=
  if String.eqb s "KTP" then Some KTP
  else if String.eqb s "NPWP" then Some NPWP else None.

Definition NPWPType_of_value (s : string) : option NPWPType :=
  if String.eqb s "personal" then Some PERSONAL
  else if String.eqb s "company" then Some COMPANY else None.

Definition DocumentType_eqb (a b : DocumentType) : bool :=
  match a, b with KTP, KTP | NPWP, NPWP => true | _, _ => false end.

Definition NPWPType_eqb (a b : NPWPType) : bool :=
  match a, b with PERSONAL, PERSONAL | COMPANY, COMPANY => true | _, _ => false end.

Record DocumentData : Type := mkDocumentData {
  document_type : DocumentType;
  nama : string;
  alamat : option string;
  nik : option string;
  npwp_15 : option string;
  npwp_16 : option string;
  npwp_type : option NPWPType;
  confidence_score : option float;
  extraction_timestamp : datetime;
  ai_service_used : option string;
}.

(** Truth value of an [Optional[str]] ([if self.nik:]). *)
Definition truthy_ostr (o : option string) : bool :=
  match o with
  | Some (String _ _) => true
  | _ => false
  end.

(** [x or ""] for an [Optional[str]]. *)
Definition or_empty (o : option string) : string :=
  match o with
  | Some (String c s) => String c s
  | _ => ""
  end.

(** [DocumentData._clean_number]: [re.sub(r'\D', '', str(number_str))]. *)
Definition _clean_number (number_str : string) : string :=
  match number_str with
  | EmptyString => ""
  | _ => Py.sfilter Py.isdecimal number_str
  end.

Definition clean_if_truthy (f : string → string) (o : option string) : option string :=
  if truthy_ostr o then option_map f o else o.

(** [DocumentData.__post_init__] *)
Definition __post_init__ (self : DocumentData) : DocumentData := {|
  document_type := document_type self;
  nama := match nama self with EmptyString => "" | n => Py.strip n end;
  alamat := clean_if_truthy Py.strip (alamat self);
  nik := clean_if_truthy _clean_number (nik self);
  npwp_15 := clean_if_truthy _clean_number (npwp_15 self);
  npwp_16 := clean_if_truthy _clean_number (npwp_16 self);
  npwp_type := npwp_type self;
  confidence_score := confidence_score self;
  extraction_timestamp := extraction_timestamp self;
  ai_service_used := ai_service_used self;
|}.

(** The constructor [DocumentData(...)]: the generated [__init__] stores
    the arguments, then [__post_init__] runs.  [extraction_timestamp]
    defaults to [datetime.now()]. *)
Definition new_DocumentData (now : datetime)
    (document_type : DocumentType) (nama : string)
    (alamat nik npwp_15 npwp_16 : option string)
    (npwp_type : option NPWPType) (confidence_score : option float)
    (extraction_timestamp : option datetime)
    (ai_service_used : option string) : DocumentData :=
  __post_init__
    (mkDocumentData document_type nama alamat nik npwp_15 npwp_16 npwp_type
       confidence_score (default now extraction_timestamp) ai_service_used).

(** Property [id_tku]. *)
Definition id_tku (self : DocumentData) : string :=
  if DocumentType_eqb (document_type self) NPWP
     && match npwp_type self with Some COMPANY => true | _ => false end
     && truthy_ostr (npwp_15 self)
  then "0" +:+ or_empty (npwp_15 self) +:+ "000000"
  else "".

(** Property [primary_id]: [self.npwp_16 or self.nik] for an NPWP. *)
Definition primary_id (self : DocumentData) : option string :=
  match document_type self with
  | KTP => nik self
  | NPWP => if truthy_ostr (npwp_16 self) then npwp_16 self else nik self
  end.

(** [get_duplicate_check_values] *)
Definition get_duplicate_check_values (self : DocumentData) : list string :=
  (if truthy_ostr (npwp_15 self) then [or_empty (npwp_15 self)] else [])
  ++ (if truthy_ostr (primary_id self) then [or_empty (primary_id self)] else [])
  ++ (match id_tku self with EmptyString => [] | t => [t] end).

(** [to_sheet_row] *)
Definition to_sheet_row (self : DocumentData) (nama_toko : string) : list string :=
  let company :=
    DocumentType_eqb (document_type self) NPWP
    && match npwp_type self with Some COMPANY => true | _ => false end in
  let jenis_id_pembeli := if company then "TIN" else "" in
  let nomor_dokumen_pembeli := if company then "-" else "" in
  [ DocumentType_value (document_type self);
    nama_toko;
    "";
    jenis_id_pembeli;
    nomor_dokumen_pembeli;
    or_empty (npwp_15 self);
    or_empty (primary_id self);
    id_tku self;
    nama self;
    or_empty (alamat self) ].

(** Property [display_name]. *)
Definition display_name (self : DocumentData) : string :=
  match document_type self, npwp_type self with
  | NPWP, Some COMPANY => "NPWP Perusahaan"
  | NPWP, Some PERSONAL => "NPWP Orang Pribadi"
  | _, _ => DocumentType_value (document_type self)
  end.

(** Property [formatted_npwp_15]: [xx.xxx.xxx.x-xxx.xxx]. *)
Definition formatted_npwp_15 (self : DocumentData) : string :=
  if negb (truthy_ostr (npwp_15 self))
     || negb (Nat.eqb (Py.len (or_empty (npwp_15 self))) 15)
  then or_empty (npwp_15 self)
  else
    let npwp := or_empty (npwp_15 self) in
    Py.slice 0 2 npwp +:+ "." +:+ Py.slice 2 5 npwp +:+ "."
    +:+ Py.slice 5 8 npwp +:+ "." +:+ Py.slice 8 9 npwp +:+ "-"
    +:+ Py.slice 9 12 npwp +:+ "." +:+ Py.slice 12 15 npwp.

(** Property [formatted_primary_id]: [xxxx xxxx xxxx xxxx]. *)
Definition formatted_primary_id (self : DocumentData) : string :=
  let primary_id := primary_id self in
  if negb (truthy_ostr primary_id)
     || negb (Nat.eqb (Py.len (or_empty primary_id)) 16)
  then or_empty primary_id
  else
    let primary_id := or_empty primary_id in
    Py.slice 0 4 primary_id +:+ " " +:+ Py.slice 4 8 primary_id +:+ " "
    +:+ Py.slice 8 12 primary_id +:+ " " +:+ Py.slice 12 16 primary_id.

(** [validate_completeness] *)
Definition validate_completeness (self : DocumentData) : list string :=
  (if String.eqb (nama self) "" || String.eqb (Py.strip (nama self)) ""
   then ["Nama tidak boleh kosong"] else [])
  ++ match document_type self with
     | KTP =>
         if negb (truthy_ostr (nik self)) then ["NIK diperlukan untuk KTP"] else []
     | NPWP =>
         if negb (truthy_ostr (npwp_15 self))
         then ["NPWP 15 digit diperlukan untuk NPWP"] else []
     end.

(** *** Serialisation *)

(** A value of the dictionary built by [to_dict] (and of the session's
    [extracted_data]): [None], a [str] or a [float]. *)
Inductive DictVal : Type :=
  | DNone
  | DStr (s : string)
  | DFloat (f : float).

Definition DictVal_of_ostr (o : option string) : DictVal :=
  match o with
  | Some s => DStr s
  | None => DNone
  end.

Section Serialisation.

(** [datetime.isoformat] and [datetime.fromisoformat] belong to Python's
    library; they are parameters here.  [fromisoformat] answers [None]
    where Python raises [ValueError]. *)
Variable isoformat : datetime → string.
Variable fromisoformat : string → option datetime.

(** [DocumentData.to_dict] *)
Definition to_dict (self : DocumentData) : gmap string DictVal :=
  <["document_type" := DStr (DocumentType_value (document_type self))]>
  (<["nama" := DStr (nama self)]>
  (<["alamat" := DictVal_of_ostr (alamat self)]>
  (<["nik" := DictVal_of_ostr (nik self)]>
  (<["npwp_15" := DictVal_of_ostr (npwp_15 self)]>
  (<["npwp_16" := DictVal_of_ostr (npwp_16 self)]>
  (<["npwp_type" := DictVal_of_ostr (option_map NPWPType_value (npwp_type self))]>
  (<["id_tku" := DStr (id_tku self)]>
  (<["primary_id" := DictVal_of_ostr (primary_id self)]>
  (<["confidence_score" :=
       match confidence_score self with Some f => DFloat f | None => DNone end]>
  (<["extraction_timestamp" := DStr (isoformat (extraction_timestamp self))]>
  (<["ai_service_used" := DictVal_of_ostr (ai_service_used self)]>
   ∅))))))))))).

(** [data.get(key)] read at the type [Optional[str]].  A [float] under
    such a key would be stored as it is by the source; the typed record
    has no place for it and the model stops with a [TypeError]. *)
Definition get_ostr (data : gmap string DictVal) (key : string) : Res (option string) :=
  match data !! key with
  | None | Some DNone => Ok None
  | Some (DStr s) => Ok (Some s)
  | Some (DFloat _) => Raise (OtherError ("TypeError: " +:+ key))
  end.

Definition get_ofloat (data : gmap string DictVal) (key : string) : Res (option float) :=
  match data !! key with
  | None | Some DNone => Ok None
  | Some (DFloat f) => Ok (Some f)
  | Some (DStr _) => Raise (OtherError ("TypeError: " +:+ key))
  end.

(** [DocumentData.from_dict]; [now] is the clock read for the default
    time stamp. *)
Definition from_dict (now : datetime) (data : gmap string DictVal) : Res DocumentData :=
  doc_type ←
    match data !! "document_type" with
    | None => Raise (OtherError "KeyError: 'document_type'")
    | Some (DStr s) =>
        match DocumentType_of_value s with
        | Some t => Ok t
        | None => Raise (OtherError ("ValueError: '" +:+ s +:+ "' is not a valid DocumentType"))
        end
    | Some _ => Raise (OtherError "ValueError: not a valid DocumentType")
    end;
  npwp_type ←
    match data !! "npwp_type" with
    | None | Some DNone | Some (DStr EmptyString) => Ok None
    | Some (DStr s) =>
        match NPWPType_of_value s with
        | Some t => Ok (Some t)
        | None => Raise (OtherError ("ValueError: '" +:+ s +:+ "' is not a valid NPWPType"))
        end
    | Some (DFloat _) => Raise (OtherError "ValueError: not a valid NPWPType")
    end;
  let timestamp :=
    match data !! "extraction_timestamp" with
    | Some (DStr s) => default now (fromisoformat s)
    | _ => now
    end in
  nama ←
    match data !! "nama" with
    | None => Raise (OtherError "KeyError: 'nama'")
    | Some (DStr s) => Ok s
    | Some _ => Raise (OtherError "TypeError: nama")
    end;
  alamat ← get_ostr data "alamat";
  nik ← get_ostr data "nik";
  npwp_15 ← get_ostr data "npwp_15";
  npwp_16 ← get_ostr data "npwp_16";
  confidence_score ← get_ofloat data "confidence_score";
  ai_service_used ← get_ostr data "ai_service_used";
  Ok (new_DocumentData now doc_type nama alamat nik npwp_15 npwp_16 npwp_type
        confidence_score (Some timestamp) ai_service_used).

End Serialisation.

(** ** Field validators (core/validators.py) *)

Module DocumentValidator.

(** A validator answers [(is_valid, error_message)]. *)
Definition Verdict : Type := (bool * option string)%type.

Definition valid : Verdict := (true, None).
Definition invalid (msg : string) : Verdict := (false, Some msg).

(** [_is_valid_province_code] *)
Definition valid_codes : list string :=
  [ "11"; "12"; "13"; "14"; "15"; "16"; "17"; "18"; "19";
    "21"; "22"; "23"; "24"; "25"; "26";
    "31"; "32"; "33"; "34"; "35"; "36";
    "51"; "52"; "53";
    "61"; "62"; "63"; "64"; "65";
    "71"; "72"; "73"; "74"; "75"; "76";
    "81"; "82";
    "91"; "92"; "93"; "94" ].

Definition _is_valid_province_code (code : string) : bool :=
  Py.str_in code valid_codes.

(** [_is_valid_nik_date]; [current_year] is [datetime.now().year].  A
    [ValueError] of [int] answers [False]. *)
Definition _is_valid_nik_date (current_year : Z) (date_str : string) : bool :=
  if negb (Nat.eqb (Py.len date_str) 6) then false
  else
    match Py.int (Py.slice 0 2 date_str),
          Py.int (Py.slice 2 4 date_str),
          Py.int (Py.slice 4 6 date_str) with
    | Some day, Some month, Some year =>
        let day := if (40 <? day)%Z then (day - 40)%Z else day in
        if negb ((1 <=? day)%Z && (day <=? 31)%Z) then false
        else if negb ((1 <=? month)%Z && (month <=? 12)%Z) then false
        else
          let full_year :=
            if (50 <? year)%Z then (1900 + year)%Z else (2000 + year)%Z in
          if (current_year <? full_year)%Z || (full_year <? 1900)%Z then false
          else true
    | _, _, _ => false
    end.

(** [re.match(r"^\d{n}$", s)]: [n] decimal digits, then the end of the
    string or one final newline. *)
Definition match_n_digits (n : nat) (s : string) : bool :=
  Py.sforall Py.isdecimal (Py.slice 0 n s)
  && Nat.eqb (Py.len (Py.slice 0 n s)) n
  && (String.eqb (Py.drop_chars n s) ""
      || String.eqb (Py.drop_chars n s) (String (ascii_of_nat 10) "")).

(** [validate_nik] *)
Definition validate_nik (current_year : Z) (nik : string) : Verdict :=
  match nik with
  | EmptyString => invalid "NIK tidak boleh kosong"
  | _ =>
    let clean_nik := Py.sfilter Py.isdecimal nik in
    if negb (Nat.eqb (Py.len clean_nik) 16) then
      invalid ("NIK harus 16 digit, ditemukan "
               +:+ Py.str_of_nat (Py.len clean_nik) +:+ " digit")
    else if negb (match_n_digits 16 clean_nik) then
      invalid "NIK harus berisi 16 digit angka"
    else if String.eqb clean_nik (Py.repeat_char "0" 16) then
      invalid "NIK tidak valid (semua angka nol)"
    else if String.eqb clean_nik (Py.repeat_char "1" 16) then
      invalid "NIK tidak valid (semua angka sama)"
    else
      let province_code := Py.slice 0 2 clean_nik in
      if negb (_is_valid_province_code province_code) then
        invalid ("Kode provinsi tidak valid: " +:+ province_code)
      else
        let date_part := Py.slice 6 12 clean_nik in
        if negb (_is_valid_nik_date current_year date_part) then
          invalid "Format tanggal lahir dalam NIK tidak valid"
        else valid
  end.

(** The characters removed by [re.sub(r'[.\-\s]', '', ...)]. *)
Definition is_npwp_formatting (c : ascii) : bool :=
  Nat.eqb (Py.code c) 46 || Nat.eqb (Py.code c) 45 || Py.isspace c.

Definition validate_npwp (n : nat) (npwp : string) : Verdict :=
  match npwp with
  | EmptyString => invalid "NPWP tidak boleh kosong"
  | _ =>
    let clean_npwp := Py.sfilter (λ c, negb (is_npwp_formatting c)) npwp in
    if negb (Nat.eqb (Py.len clean_npwp) n) then
      invalid ("NPWP harus " +:+ Py.str_of_nat n +:+ " digit, ditemukan "
               +:+ Py.str_of_nat (Py.len clean_npwp) +:+ " digit")
    else if negb (match_n_digits n clean_npwp) then
      invalid ("NPWP harus berisi " +:+ Py.str_of_nat n +:+ " digit angka")
    else if String.eqb clean_npwp (Py.repeat_char "0" n) then
      invalid "NPWP tidak valid (semua angka nol)"
    else valid
  end.

(** [validate_npwp_15] and [validate_npwp_16] are the same text in the
    source up to the length. *)
Definition validate_npwp_15 : string → Verdict := validate_npwp 15.
Definition validate_npwp_16 : string → Verdict := validate_npwp 16.

Definition nama_denylist : list string :=
  [ "test"; "testing"; "admin"; "user"; "null"; "undefined" ].

(** [validate_nama] *)
Definition validate_nama (nama : string) : Verdict :=
  match Py.strip nama with
  | EmptyString => invalid "Nama tidak boleh kosong"
  | nama =>
    if (Py.len nama <? 2)%nat then
      invalid "Nama terlalu pendek (minimum 2 karakter)"
    else if (100 <? Py.len nama)%nat then
      invalid "Nama terlalu panjang (maksimum 100 karakter)"
    else if Py.sforall (λ c, Py.isdecimal c || negb (Py.isword c)) nama then
      invalid "Nama tidak valid (hanya berisi angka atau simbol)"
    else if Py.str_in (Py.lower nama) nama_denylist then
      invalid ("Nama '" +:+ nama +:+ "' tidak diperbolehkan")
    else if (Py.distinct_chars
               (Py.lower (Py.sfilter (λ c, negb (Ascii.eqb c " ")) nama))
             <? 2)%nat then
      invalid "Nama tidak valid (karakter berulang)"
    else valid
  end.

Definition required_components : list string :=
  [ "rt"; "rw"; "kel"; "kec"; "kab"; "kot"; "prov" ].

(** [validate_alamat] *)
Definition validate_alamat (alamat : string) : Verdict :=
  match Py.strip alamat with
  | EmptyString => invalid "Alamat tidak boleh kosong"
  | alamat =>
    if (Py.len alamat <? 10)%nat then
      invalid "Alamat terlalu pendek (minimum 10 karakter)"
    else if (500 <? Py.len alamat)%nat then
      invalid "Alamat terlalu panjang (maksimum 500 karakter)"
    else
      let alamat_lower := Py.lower alamat in
      let component_count :=
        List.length
          (List.filter (λ comp, Py.contains comp alamat_lower)
             required_components) in
      if (component_count <? 2)%nat then
        invalid "Alamat harus mencakup minimal RT/RW, Kelurahan, dan Kecamatan"
      else valid
  end.

(** [validate_document_data] on a dictionary whose values are [None] or
    a [str], as [_validate_extracted_data] builds it.  [data.get] reads
    a missing key as [None], and every validator answers "tidak boleh
    kosong" for [None] as for the empty string. *)
Definition validate_document_data (current_year : Z)
    (data : gmap string (option string)) (document_type : string)
    : list string :=
  if negb (Py.str_in document_type ["KTP"; "NPWP"]) then
    ["Tipe dokumen harus KTP atau NPWP"]
  else
    let get key := default None (data !! key) in
    let report (label : string) (verdict : Verdict) : list string :=
      if fst verdict then []
      else [label +:+ ": " +:+ default "None" (snd verdict)] in
    report "Nama" (validate_nama (or_empty (get "nama")))
    ++ (if truthy_ostr (get "alamat")
        then report "Alamat" (validate_alamat (or_empty (get "alamat")))
        else [])
    ++ (if String.eqb document_type "KTP" then
          report "NIK" (validate_nik current_year (or_empty (get "nik")))
        else
          report "NPWP 15" (validate_npwp_15 (or_empty (get "npwp_15")))
          ++ (if truthy_ostr (get "npwp_16")
              then report "NPWP 16" (validate_npwp_16 (or_empty (get "npwp_16")))
              else [])).

End DocumentValidator.

(** ** Extraction pipeline (services/ai_service.py) *)

(** A value of the decoded JSON answer of the recognition service:
    [None], a [bool], an [int] or a [str].  (Floats and nested
    containers, which the prompt never asks for, are not modelled.) *)
Inductive RawValue : Type :=
  | JNull
  | JBool (b : bool)
  | JInt (z : Z)
  | JStr (s : string).

(** [bool(v)] *)
Definition raw_truthy (v : RawValue) : bool :=
  match v with
  | JNull => false
  | JBool b => b
  | JInt z => negb (Z.eqb z 0)
  | JStr EmptyString => false
  | JStr _ => true
  end.

(** [str(v)] *)
Definition raw_str (v : RawValue) : string :=
  match v with
  | JNull => "None"
  | JBool true => "True"
  | JBool false => "False"
  | JInt z => Py.str_of_Z z
  | JStr s => s
  end.

(** [type(v).__name__] *)
Definition raw_type_name (v : RawValue) : string :=
  match v with
  | JNull => "NoneType"
  | JBool _ => "bool"
  | JInt _ => "int"
  | JStr _ => "str"
  end.

(** [''.join(filter(str.isdigit, str(number_str)))] *)
Definition digits_of (number_str : RawValue) : string :=
  Py.sfilter Py.isdigit (raw_str number_str).

(** [AIService._clean_and_validate_number]; a missing key
    ([raw_data.get] answering [None]) is [JNull]. *)
Definition _clean_and_validate_number (number_str : RawValue)
    (expected_length : nat) : option string :=
  if negb (raw_truthy number_str) then None
  else
    let cleaned := digits_of number_str in
    match cleaned with
    | EmptyString => None
    | _ =>
      if Nat.eqb expected_length 15 then
        if Nat.eqb (Py.len cleaned) 15 then Some cleaned
        else if Nat.eqb (Py.len cleaned) 16 && Py.startswith "0" cleaned
             then Some (Py.drop_chars 1 cleaned)
             else None
      else if Nat.eqb expected_length 16 then
        if Nat.eqb (Py.len cleaned) 16 then Some cleaned
        else if Nat.eqb (Py.len cleaned) 15 then Some ("0" +:+ cleaned)
        else None
      else
        if negb (Nat.eqb (Py.len cleaned) expected_length) then None
        else Some cleaned
    end.

(** The [AttributeError] of calling a [str] method on another value. *)
Definition attribute_error (v : RawValue) (method : string) : Exn :=
  OtherError ("'" +:+ raw_type_name v +:+ "' object has no attribute '"
              +:+ method +:+ "'").

(** What the [except] clause of [_parse_ai_response] does with an
    exception: an [AIProcessingError] passes, anything else is wrapped. *)
Definition wrap_parse_error {A} (r : Res A) : Res A :=
  match r with
  | Ok a => Ok a
  | Raise e =>
      if is_AIProcessingError e then Raise e
      else Raise (AIProcessingError ("Error parsing AI response: " +:+ exn_str e) None)
  end.

(** [AIService._parse_ai_response]; [now] stamps the new record. *)
Definition _parse_ai_response (now : datetime)
    (raw_data : gmap string RawValue) : Res DocumentData :=
  wrap_parse_error (
    match raw_data !! "document_type", raw_data !! "nama" with
    | None, _ => Raise (AIProcessingError "Missing document_type in AI response" None)
    | Some _, None => Raise (AIProcessingError "Missing nama in AI response" None)
    | Some dt, Some nm =>
      doc_type_str ←
        match dt with
        | JStr s => Ok (Py.strip (Py.upper s))
        | v => Raise (attribute_error v "upper")
        end;
      doc_type ←
        match DocumentType_of_value doc_type_str with
        | Some t => Ok t
        | None => Raise (AIProcessingError ("Invalid document type: " +:+ doc_type_str) None)
        end;
      let get key := default JNull (raw_data !! key) in
      let nik :=
        if DocumentType_eqb doc_type KTP
        then _clean_and_validate_number (get "nik") 16 else None in
      let npwp_15 :=
        if DocumentType_eqb doc_type NPWP
        then _clean_and_validate_number (get "npwp_15") 15 else None in
      let npwp_16 :=
        if DocumentType_eqb doc_type NPWP
        then _clean_and_validate_number (get "npwp_16") 16 else None in
      nama ←
        match nm with
        | JStr s => Ok (Py.strip s)
        | v => Raise (attribute_error v "strip")
        end;
      alamat ←
        (if raw_truthy (get "alamat") then
           match get "alamat" with
           | JStr s => Ok (Some (Py.strip s))
           | v => Raise (attribute_error v "strip")
           end
         else Ok None);
      match nama with
      | EmptyString => Raise (AIProcessingError "Empty nama in AI response" None)
      | _ =>
        Ok (new_DocumentData now doc_type nama alamat nik npwp_15 npwp_16
              None None None None)
      end
    end).

(** [AIService._validate_extracted_data].  Nothing in its [try] block
    raises on a typed record, so the [except] clause is not reached.
    [extract_document_data] only logs the answer. *)
Definition _validate_extracted_data (current_year : Z)
    (document_data : DocumentData) : list string :=
  let data_dict : gmap string (option string) :=
    <["document_type" := Some (DocumentType_value (document_type document_data))]>
    (<["nama" := Some (nama document_data)]>
    (<["alamat" := alamat document_data]>
    (<["nik" := nik document_data]>
    (<["npwp_15" := npwp_15 document_data]>
    (<["npwp_16" := npwp_16 document_data]> ∅))))) in
  DocumentValidator.validate_document_data current_year data_dict
    (DocumentType_value (document_type document_data))
  ++ (if DocumentType_eqb (document_type document_data) KTP
         && negb (truthy_ostr (nik document_data))
      then ["NIK missing for KTP document"] else [])
  ++ (if DocumentType_eqb (document_type document_data) NPWP
         && negb (truthy_ostr (npwp_15 document_data))
      then ["NPWP 15 missing for NPWP document"] else []).

(** One answer of the recognition service: the decoded JSON object, or
    the exception the call raised. *)
Inductive ApiReply : Type :=
  | Reply (raw_data : gmap string RawValue)
  | Failure (e : Exn).

(** The recognition services and the clock, by attempt number. *)
Record AIEnv : Type := {
  _call_openai_api : nat → ApiReply;
  _call_deepseek_api : nat → ApiReply;
  clock : nat → datetime;
}.

(** What a run of [extract_document_data] does besides answering. *)
Inductive Event : Type :=
  | EvAttempt (attempt : nat)
  | EvSleep (seconds : Z).

(** The body of the [try] block of one attempt. *)
Definition attempt_body (cfg : Settings) (env : AIEnv)
    (attempt : nat) : Res DocumentData :=
  reply ←
    (if String.eqb (ACTIVE_AI_SERVICE cfg) "openai" then
       Ok (_call_openai_api env attempt)
     else if String.eqb (ACTIVE_AI_SERVICE cfg) "deepseek" then
       Ok (_call_deepseek_api env attempt)
     else
       Raise (AIProcessingError
                ("Unknown AI service: " +:+ ACTIVE_AI_SERVICE cfg)
                (Some (ACTIVE_AI_SERVICE cfg))));
  raw_data ←
    match reply with
    | Reply raw_data => Ok raw_data
    | Failure e => Raise e
    end;
  if bool_decide (raw_data = ∅) then
    Raise (AIProcessingError "Empty response from AI service" None)
  else
    document_data ← _parse_ai_response (clock env attempt) raw_data;
    Ok (mkDocumentData
          (document_type document_data) (nama document_data)
          (alamat document_data) (nik document_data)
          (npwp_15 document_data) (npwp_16 document_data)
          (npwp_type document_data) (confidence_score document_data)
          (extraction_timestamp document_data)
          (Some (ACTIVE_AI_SERVICE cfg))).

(** The loop [for attempt in range(max_retries)] from [attempt] on,
    with [remaining] iterations left.  The answer is the returned value
    ([None] when the loop runs out) or the exception that leaves the
    function. *)
Fixpoint retry_loop (cfg : Settings) (env : AIEnv)
    (max_retries remaining attempt : nat)
    : Res (option DocumentData) * list Event :=
  match remaining with
  | O => (Ok None, [])
  | S remaining' =>
    let again (pause : Z) :=
      let '(r, log) :=
        retry_loop cfg env max_retries remaining' (S attempt) in
      (r, EvAttempt attempt :: EvSleep pause :: log) in
    match attempt_body cfg env attempt with
    | Ok document_data => (Ok (Some document_data), [EvAttempt attempt])
    | Raise (RateLimitError m) =>
        if (attempt <? max_retries - 1)%nat
        then again (2 ^ Z.of_nat attempt * 5)%Z
        else (Raise (RateLimitError m), [EvAttempt attempt])
    | Raise (AuthenticationError m) =>
        (Raise (AuthenticationError m), [EvAttempt attempt])
    | Raise e =>
        if (attempt <? max_retries - 1)%nat
        then again 2%Z
        else (Raise (AIProcessingError
                       ("AI processing failed after " +:+ Py.str_of_nat max_retries
                        +:+ " attempts: " +:+ exn_str e)
                       (Some (ACTIVE_AI_SERVICE cfg))),
              [EvAttempt attempt])
    end
  end.

(** [AIService.extract_document_data] *)
Definition extract_document_data (cfg : Settings) (env : AIEnv)
    (max_retries : nat) : Res (option DocumentData) * list Event :=
  retry_loop cfg env max_retries max_retries 0.

(** The default [max_retries=3] used by every caller. *)
Definition default_max_retries : nat := 3.

(** ** Display formats (services/data_service.py) *)

(** [DataService.format_npwp_15] *)
Definition format_npwp_15 (npwp : string) : string :=
  if String.eqb npwp "" || negb (Nat.eqb (Py.len npwp) 15) then npwp
  else
    Py.slice 0 2 npwp +:+ "." +:+ Py.slice 2 5 npwp +:+ "."
    +:+ Py.slice 5 8 npwp +:+ "." +:+ Py.slice 8 9 npwp +:+ "-"
    +:+ Py.slice 9 12 npwp +:+ "." +:+ Py.slice 12 15 npwp.

(** [DataService.format_id_16_digit] *)
Definition format_id_16_digit (id_number : string) : string :=
  if String.eqb id_number "" || negb (Nat.eqb (Py.len id_number) 16) then id_number
  else
    Py.slice 0 4 id_number +:+ " " +:+ Py.slice 4 8 id_number +:+ " "
    +:+ Py.slice 8 12 id_number +:+ " " +:+ Py.slice 12 16 id_number.

(** ** Sessions kept by the handlers (handlers/base.py) *)

(** A value stored in [context.user_data].  [VDoc d] is a
    [DocumentData] object whose attributes have the types that the class
    annotates.  A dataclass checks no type when an attribute is
    assigned: [VDocRetyped s d] is the object once [setattr] has bound
    the [str] [s] to its attribute [document_type]; [d] gives what its
    other attributes hold (the member of [DocumentType] that [d] itself
    carries is the one the attribute held before, and no code can read
    it any more). *)
Inductive Value : Type :=
  | VNone
  | VStr (s : string)
  | VInt (z : Z)
  | VTime (t : datetime)
  | VDoc (d : DocumentData)
  | VDict (m : gmap string DictVal)
  | VDocRetyped (document_type : string) (d : DocumentData).

(** [bool(v)] *)
Definition value_truthy (v : Value) : bool :=
  match v with
  | VNone => false
  | VStr s => negb (String.eqb s "")
  | VInt z => negb (Z.eqb z 0)
  | VTime _ => true
  | VDoc _ => true
  | VDict m => negb (bool_decide (m = ∅))
  | VDocRetyped _ _ => true
  end.

(** The texts the bot sends, by template and arguments. *)
Inductive Template : Type :=
  | TUserError (e : Exn)
  | TGuidance
  | TUnexpectedText (workflow_type state : option Value)
  | TNoEditField
  | TValidationError (error : string)
  | TPreview (preview_data : DocumentData + gmap string DictVal)
      (branch sheet_name : option Value) (nama_toko : Value)
  | TPreviewFailed
  | TEditOptions (previous : string) (fields : list string)
  | TChooseLocation
  | TEditPrompt (display_name : string)
  | TPdfNameTooShort
  | TPdfNameTooLong
  | TPdfNameSet
  | TPdfSaveFailed.

(** What a handler does to the chat. *)
Inductive Outbound : Type :=
  | ReplyText (t : Template)
  | EditMessageText (t : Template)
  | DeleteMessage (message_id : Z).

(** The part of [context] a handler works on. *)
Record Context : Type := {
  user_data : gmap string Value;
  outbox : list Outbound;
}.

(** The update being handled: its text (or callback data), its message
    id, the text of the message a pressed button sits on, and the id
    Telegram gives to the bot's answer. *)
Record Update : Type := {
  text : string;
  message_id : Z;
  shown_text : string;
  answer_message_id : Z;
}.

(** *** Programs with state and exceptions

    A step of the modelled code runs on a state [S]: it answers a value,
    raises an exception (the state reached so far is kept), or is
    [Untyped] when it meets a value of a type that the code never
    stores in that place (the embedding is typed and stops there). *)
Inductive Outcome (S A : Type) : Type :=
  | Done (a : A) (st : S)
  | Raised (e : Exn) (st : S)
  | Untyped.
Arguments Done {S A} a st.
Arguments Raised {S A} e st.
Arguments Untyped {S A}.

Definition Prog (S A : Type) : Type := S → Outcome S A.

Definition ret {S A} (a : A) : Prog S A := λ st, Done a st.

Definition bind {S A B} (m : Prog S A) (k : A → Prog S B) : Prog S B :=
  λ st,
    match m st with
    | Done a st' => k a st'
    | Raised e st' => Raised e st'
    | Untyped => Untyped
    end.

Definition raise {S A} (e : Exn) : Prog S A := λ st, Raised e st.
Definition untyped {S A} : Prog S A := λ _, Untyped.

(** [try: body except Exception as e: handler(e)] *)
Definition catch {S A} (body : Prog S A) (handler : Exn → Prog S A) : Prog S A :=
  λ st,
    match body st with
    | Raised e st' => handler e st'
    | r => r
    end.

Global Instance Prog_ret {S} : MRet (Prog S) := @ret S.
Global Instance Prog_bind {S} : MBind (Prog S) := λ A B k m, bind m k.

Notation "'let*' x ':=' m 'in' k" := (bind m (λ x, k))
  (at level 10, x name, m at level 100, k at level 200, only parsing).

(** A handler works on the [Context]. *)
Abbreviation Handler := (Prog Context).

Definition get_user_data : Handler (gmap string Value) :=
  λ ctx, Done (user_data ctx) ctx.

Definition put_user_data (ud : gmap string Value) : Handler unit :=
  λ ctx, Done tt {| user_data := ud; outbox := outbox ctx |}.

Definition send (o : Outbound) : Handler unit :=
  λ ctx, Done tt {| user_data := user_data ctx; outbox := outbox ctx ++ [o] |}.

Section BaseHandler.

Variable cfg : Settings.
(** The reading of the clock while the update is handled. *)
Variable now : datetime.

(** [timedelta(minutes=settings.SESSION_TIMEOUT_MINUTES)] in microseconds. *)
Definition session_timeout : Z := (SESSION_TIMEOUT_MINUTES cfg * 60000000)%Z.

(** [_is_session_expired]; [None] when [last_activity] is not a time. *)
Definition _is_session_expired (ud : gmap string Value) : option bool :=
  if bool_decide (ud = ∅) then Some false
  else
    match ud !! "last_activity" with
    | None => Some false
    | Some (VTime last_activity) =>
        Some (session_timeout <? now - last_activity)%Z
    | Some v => if value_truthy v then None else Some false
    end.

(** [_clear_user_session] *)
Definition _clear_user_session : Handler unit := put_user_data ∅.

(** [_get_user_session] *)
Definition _get_user_session : Handler (gmap string Value) :=
  let* ud := get_user_data in
  match _is_session_expired ud with
  | None => untyped
  | Some true => _clear_user_session ;; raise SessionExpiredError
  | Some false => ret ud
  end.

(** [_update_session_timestamp] *)
Definition _update_session_timestamp : Handler unit :=
  let* ud := get_user_data in
  put_user_data (<["last_activity" := VTime now]> ud).

(** [_get_session_state] *)
Definition _get_session_state : Handler (option Value) :=
  let* ud := _get_user_session in
  ret (ud !! "state").

(** [_set_session_state] *)
Definition _set_session_state (state : string) : Handler unit :=
  let* ud := _get_user_session in
  put_user_data (<["state" := VStr state]> ud) ;;
  _update_session_timestamp.

(** [_get_session_data] without a default ([None] when the key is
    missing). *)
Definition _get_session_data (key : string) : Handler (option Value) :=
  let* ud := _get_user_session in
  ret (ud !! key).

(** [_set_session_data] *)
Definition _set_session_data (key : string) (value : Value) : Handler unit :=
  let* ud := _get_user_session in
  put_user_data (<[key := value]> ud) ;;
  _update_session_timestamp.

(** [_init_user_session] *)
Definition _init_user_session (workflow_type : string) : Handler unit :=
  _clear_user_session ;;
  let* ud := get_user_data in
  put_user_data
    (<["last_activity" := VTime now]>
     (<["created_at" := VTime now]>
     (<["state" := VStr "initialized"]>
     (<["workflow_type" := VStr workflow_type]> ud)))).

(** [handle_error] for an update that carries a message
    ([via_callback = false]) or a callback query. *)
Definition handle_error (via_callback : bool) (error : Exn) : Handler unit :=
  send (if via_callback then EditMessageText (TUserError error)
        else ReplyText (TUserError error)) ;;
  if is_BotException error then _clear_user_session else ret tt.

(** A handler body inside [try: ... except Exception as e:
    await self.handle_error(update, context, e)]. *)
Definition guarded (via_callback : bool) (body : Handler unit) : Handler unit :=
  catch body (handle_error via_callback).

(** A block inside [try: ... except Exception: pass]. *)
Definition swallow (body : Handler unit) : Handler unit :=
  catch body (λ _, ret tt).

End BaseHandler.

(** ** Message and callback handlers (handlers/messages.py, callbacks.py) *)

Section Handlers.

Variable cfg : Settings.
Variable now : datetime.
(** [datetime.now().year] *)
Variable current_year : Z.

(** [MessageHandlers._validate_edit_value]: the error message, or
    [None] when the value is accepted. *)
Definition _validate_edit_value (field value : string) : option string :=
  match Py.strip value with
  | EmptyString => Some "Nilai tidak boleh kosong"
  | _ =>
    let verdict :=
      if String.eqb field "nama" then DocumentValidator.validate_nama value
      else if String.eqb field "alamat" then DocumentValidator.validate_alamat value
      else if String.eqb field "nik" then
        DocumentValidator.validate_nik current_year value
      else if String.eqb field "npwp_15" then DocumentValidator.validate_npwp_15 value
      else if String.eqb field "npwp_16" then DocumentValidator.validate_npwp_16 value
      else DocumentValidator.valid in
    if fst verdict then None else snd verdict
  end.

(** [setattr(document_data_obj, name, value)] for a [str] value, on the
    attributes annotated with a text type: the attribute is rebound and
    nothing else changes. *)
Definition setattr_text (d : DocumentData) (name value : string) : option DocumentData :=
  let '(mkDocumentData ty nm al nk n15 n16 nt cs ts ai) := d in
  if String.eqb name "nama" then
    Some (mkDocumentData ty value al nk n15 n16 nt cs ts ai)
  else if String.eqb name "alamat" then
    Some (mkDocumentData ty nm (Some value) nk n15 n16 nt cs ts ai)
  else if String.eqb name "nik" then
    Some (mkDocumentData ty nm al (Some value) n15 n16 nt cs ts ai)
  else if String.eqb name "npwp_15" then
    Some (mkDocumentData ty nm al nk (Some value) n16 nt cs ts ai)
  else if String.eqb name "npwp_16" then
    Some (mkDocumentData ty nm al nk n15 (Some value) nt cs ts ai)
  else if String.eqb name "ai_service_used" then
    Some (mkDocumentData ty nm al nk n15 n16 nt cs ts (Some value))
  else None.

(** [setattr(document_data_obj, name, value)] for a [str] value, on the
    object that the session holds.  No type is checked: the name
    [document_type] binds the [str] in the place of the member of
    [DocumentType].  The edit menu builds a button for the keys of
    [field_map] only ([document_type] and five of the text attributes);
    for any other name ([npwp_type], a property, a fresh attribute) the
    model stops, and the answer is [None]. *)
Definition setattr (document_data_obj : Value) (name value : string) : option Value :=
  match document_data_obj with
  | VDoc d =>
      if String.eqb name "document_type" then Some (VDocRetyped value d)
      else VDoc <$> setattr_text d name value
  | VDocRetyped document_type d =>
      if String.eqb name "document_type" then Some (VDocRetyped value d)
      else VDocRetyped document_type <$> setattr_text d name value
  | _ => None
  end.

(** [document_data_obj.to_dict()] on the object that the session holds.
    The first entry of the dictionary reads [self.document_type.value],
    which a [str] does not have: [AttributeError]. *)
Definition object_to_dict (isoformat : datetime → string)
    (document_data_obj : Value) : option (Res (gmap string DictVal)) :=
  match document_data_obj with
  | VDoc d => Some (Ok (to_dict isoformat d))
  | VDocRetyped _ _ =>
      Some (Raise (OtherError "'str' object has no attribute 'value'"))
  | _ => None
  end.

(** The part of [_handle_data_edit] that follows an accepted value:
    write the value through to the shadow map and to the record, clean
    the chat, show the preview again and go back to the confirmation.
    [build_preview_text] answers its error text when building the
    preview raises, which it does for every object whose
    [document_type] is a [str]: [display_name] reads
    [self.document_type.value]. *)
Definition accepted_edit (update : Update) (edit_field new_value : string)
    (extracted_data document_data_obj : option Value) : Handler unit :=
  let* extracted_data :=
    match extracted_data with
    | None => ret (<[edit_field := DStr new_value]> ∅)
    | Some (VDict m) => ret (<[edit_field := DStr new_value]> m)
    | Some VNone =>
        raise (OtherError
                 "'NoneType' object does not support item assignment")
    | Some _ => untyped
    end in
  _set_session_data cfg now "extracted_data" (VDict extracted_data) ;;
  let* document_data_obj :=
    match document_data_obj with
    | None | Some VNone => ret None
    | Some (VDoc _ as obj) | Some (VDocRetyped _ _ as obj) =>
        match setattr obj edit_field new_value with
        | Some obj' =>
            _set_session_data cfg now "document_data" obj' ;;
            ret (Some obj')
        | None => untyped
        end
    | Some _ => untyped
    end in
  _set_session_data cfg now "edit_field" VNone ;;
  swallow (
    let* last_bot_message_id :=
      _get_session_data cfg now "last_bot_message_id" in
    match last_bot_message_id with
    | Some (VInt id) =>
        if Z.eqb id 0 then ret tt else send (DeleteMessage id)
    | None | Some VNone => ret tt
    | Some _ => untyped
    end ;;
    send (DeleteMessage (message_id update))) ;;
  let* branch := _get_session_data cfg now "branch" in
  let* sheet_name := _get_session_data cfg now "sheet_name" in
  let* nama_toko := _get_session_data cfg now "nama_toko" in
  let* preview_text :=
    match document_data_obj with
    | Some (VDoc d) =>
        ret (TPreview (inl d) branch sheet_name (default (VStr "") nama_toko))
    | Some (VDocRetyped _ _) => ret TPreviewFailed
    | Some _ => untyped
    | None =>
        ret (TPreview (inr extracted_data) branch sheet_name
               (default (VStr "") nama_toko))
    end in
  send (ReplyText preview_text) ;;
  _set_session_data cfg now "last_bot_message_id"
    (VInt (answer_message_id update)) ;;
  _set_session_state cfg now "awaiting_confirmation".

(** [MessageHandlers._handle_data_edit] *)
Definition _handle_data_edit (update : Update) : Handler unit :=
  let new_value := Py.strip (text update) in
  let* edit_field := _get_session_data cfg now "edit_field" in
  match edit_field with
  | None | Some VNone | Some (VStr EmptyString) =>
      send (ReplyText TNoEditField) ;;
      _clear_user_session
  | Some (VStr edit_field) =>
    match _validate_edit_value edit_field new_value with
    | Some validation_error =>
        send (ReplyText (TValidationError validation_error))
    | None =>
      let* extracted_data := _get_session_data cfg now "extracted_data" in
      let* document_data_obj := _get_session_data cfg now "document_data" in
      accepted_edit update edit_field new_value extracted_data document_data_obj
    end
  | Some _ => untyped
  end.

(** [MessageHandlers._handle_no_active_session] *)
Definition _handle_no_active_session : Handler unit :=
  send (ReplyText TGuidance).

(** [MessageHandlers._handle_unexpected_text] *)
Definition _handle_unexpected_text : Handler unit :=
  let* current_state := _get_session_state cfg now in
  let* workflow_type := _get_session_data cfg now "workflow_type" in
  send (ReplyText (TUnexpectedText workflow_type current_state)).

(** [MessageHandlers._handle_pdf_naming].  [save_pdf_to_drive] answers
    [{"status": "error", ...}] on every path (its last statement raises
    and its own [except] turns that into the error answer), so the
    failure text is what the user gets. *)
Definition _handle_pdf_naming (update : Update) : Handler unit :=
  let file_name := Py.strip (text update) in
  if (Py.len file_name <? 2)%nat then send (ReplyText TPdfNameTooShort)
  else if (100 <? Py.len file_name)%nat then send (ReplyText TPdfNameTooLong)
  else
    _set_session_data cfg now "custom_filename" (VStr file_name) ;;
    _set_session_state cfg now "saving_pdf" ;;
    send (ReplyText TPdfNameSet) ;;
    send (ReplyText TPdfSaveFailed) ;;
    _clear_user_session.

(** [MessageHandlers.handle_text_message] *)
Definition handle_text_message (update : Update) : Handler unit :=
  guarded false (
    let* current_state := _get_session_state cfg now in
    match current_state with
    | None => _handle_no_active_session
    | Some v =>
      if negb (value_truthy v) then _handle_no_active_session
      else
        match v with
        | VStr state =>
            if String.eqb state "awaiting_pdf_name" then _handle_pdf_naming update
            else if String.eqb state "awaiting_edit_input" then _handle_data_edit update
            else _handle_unexpected_text
        | _ => _handle_unexpected_text
        end
    end).

(** The keys of [field_map] in [_handle_edit_request], in order. *)
Definition field_map_keys : list string :=
  [ "document_type"; "nama"; "alamat"; "nik"; "npwp_15"; "npwp_16" ].

(** [bool(v)] for an entry of [extracted_data]. *)
Definition dictval_truthy (v : DictVal) : bool :=
  match v with
  | DNone => false
  | DStr s => negb (String.eqb s "")
  | DFloat f => negb (PrimFloat.eqb f 0%float)
  end.

(** [CallbackHandlers._handle_edit_request] *)
Definition _handle_edit_request (update : Update) : Handler unit :=
  let* extracted_data := _get_session_data cfg now "extracted_data" in
  let* extracted_data :=
    match extracted_data with
    | None => ret ∅
    | Some (VDict m) => ret m
    | Some VNone =>
        raise (OtherError "argument of type 'NoneType' is not iterable")
    | Some _ => untyped
    end in
  let fields :=
    List.filter
      (λ field, match (extracted_data : gmap string DictVal) !! field with
                | Some v => dictval_truthy v
                | None => false
                end)
      field_map_keys in
  send (EditMessageText (TEditOptions (shown_text update) fields)) ;;
  _set_session_state cfg now "selecting_edit_field".

(** [callback_data.split("_", 1)[1]]; [None] is [IndexError]. *)
Fixpoint after_first_underscore (s : string) : option string :=
  match s with
  | EmptyString => None
  | String c s' => if Ascii.eqb c "_" then Some s' else after_first_underscore s'
  end.

(** [display_names.get(field_name, field_name)] *)
Definition display_name_of (field_name : string) : string :=
  if String.eqb field_name "document_type" then "Tipe Dokumen"
  else if String.eqb field_name "nama" then "Nama"
  else if String.eqb field_name "alamat" then "Alamat"
  else if String.eqb field_name "nik" then "NIK"
  else if String.eqb field_name "npwp_15" then "NPWP 15"
  else if String.eqb field_name "npwp_16" then "NPWP 16"
  else field_name.

(** [CallbackHandlers._handle_field_edit]; the callback data is the
    [text] of the update. *)
Definition _handle_field_edit (update : Update) : Handler unit :=
  if String.eqb (text update) "edit_location" then
    send (EditMessageText TChooseLocation) ;;
    _set_session_state cfg now "awaiting_branch_edit"
  else
    match after_first_underscore (text update) with
    | None => raise (OtherError "list index out of range")
    | Some field_name =>
        send (EditMessageText (TEditPrompt (display_name_of field_name))) ;;
        _set_session_data cfg now "edit_field" (VStr field_name) ;;
        _set_session_data cfg now "last_bot_message_id"
          (VInt (answer_message_id update)) ;;
        _set_session_state cfg now "awaiting_edit_input"
    end.

End Handlers.

(** ** Session model (models/session.py) *)

Module Session.

Inductive SessionState : Type :=
  | IDLE
  | AWAITING_BRANCH
  | AWAITING_NPWP_TYPE
  | AWAITING_CONFIRMATION
  | AWAITING_EDIT_INPUT
  | AWAITING_PDF_NAME
  | AWAITING_BRANCH_EDIT
  | SELECTING_EDIT_FIELD
  | AWAITING_DUPLICATE_CONFIRMATION
  | PROCESSING_AI
  | SAVING_DATA.

Global Instance SessionState_eq_dec : EqDecision SessionState.
Proof. solve_decision. Defined.

Definition SessionState_value (s : SessionState) : string :=
  match s with
  | IDLE => "idle"
  | AWAITING_BRANCH => "awaiting_branch"
  | AWAITING_NPWP_TYPE => "awaiting_npwp_type"
  | AWAITING_CONFIRMATION => "awaiting_confirmation"
  | AWAITING_EDIT_INPUT => "awaiting_edit_input"
  | AWAITING_PDF_NAME => "awaiting_pdf_name"
  | AWAITING_BRANCH_EDIT => "awaiting_branch_edit"
  | SELECTING_EDIT_FIELD => "selecting_edit_field"
  | AWAITING_DUPLICATE_CONFIRMATION => "awaiting_duplicate_confirmation"
  | PROCESSING_AI => "processing_ai"
  | SAVING_DATA => "saving_data"
  end.

Definition all_states : list SessionState :=
  [ IDLE; AWAITING_BRANCH; AWAITING_NPWP_TYPE; AWAITING_CONFIRMATION;
    AWAITING_EDIT_INPUT; AWAITING_PDF_NAME; AWAITING_BRANCH_EDIT;
    SELECTING_EDIT_FIELD; AWAITING_DUPLICATE_CONFIRMATION; PROCESSING_AI;
    SAVING_DATA ].

(** [SessionState(value)]: the member with that value, if any. *)
Definition SessionState_of_value (v : string) : option SessionState :=
  List.find (λ s, String.eqb (SessionState_value s) v) all_states.

Inductive WorkflowType : Type := PHOTO | PDF.

Record UserSession : Type := {
  user_id : Z;
  state : SessionState;
  workflow_type : option WorkflowType;
  created_at : datetime;
  last_activity : datetime;
  file_id : option string;
  file_size : option Z;
  original_filename : option string;
  custom_filename : option string;
  branch : option string;
  sheet_name : option string;
  nama_toko : option string;
  document_data : option DocumentData;
  extracted_data : gmap string DictVal;
  npwp_type : option string;
  edit_field : option string;
  last_bot_message_id : option Z;
  custom_data : gmap string DictVal;
  total_interactions : Z;
  error_count : Z;
}.

(** [update_activity] *)
Definition update_activity (now : datetime) (self : UserSession) : UserSession := {|
  user_id := user_id self; state := state self;
  workflow_type := workflow_type self; created_at := created_at self;
  last_activity := now;
  file_id := file_id self; file_size := file_size self;
  original_filename := original_filename self;
  custom_filename := custom_filename self;
  branch := branch self; sheet_name := sheet_name self;
  nama_toko := nama_toko self; document_data := document_data self;
  extracted_data := extracted_data self; npwp_type := npwp_type self;
  edit_field := edit_field self;
  last_bot_message_id := last_bot_message_id self;
  custom_data := custom_data self;
  total_interactions := (total_interactions self + 1)%Z;
  error_count := error_count self;
|}.

(** [UserSession(user_id=user_id)]: the defaults, then [__post_init__],
    which calls [update_activity]. *)
Definition new_session (now : datetime) (uid : Z) : UserSession :=
  update_activity now {|
    user_id := uid; state := IDLE; workflow_type := None;
    created_at := now; last_activity := now;
    file_id := None; file_size := None; original_filename := None;
    custom_filename := None; branch := None; sheet_name := None;
    nama_toko := None; document_data := None; extracted_data := ∅;
    npwp_type := None; edit_field := None; last_bot_message_id := None;
    custom_data := ∅; total_interactions := 0; error_count := 0;
  |}.

(** [is_expired] *)
Definition is_expired (cfg : Settings) (now : datetime) (self : UserSession) : bool :=
  (session_timeout cfg <? now - last_activity self)%Z.

(** [set_state] *)
Definition set_state (now : datetime) (new_state : SessionState)
    (self : UserSession) : UserSession :=
  update_activity now {|
    user_id := user_id self; state := new_state;
    workflow_type := workflow_type self; created_at := created_at self;
    last_activity := last_activity self;
    file_id := file_id self; file_size := file_size self;
    original_filename := original_filename self;
    custom_filename := custom_filename self;
    branch := branch self; sheet_name := sheet_name self;
    nama_toko := nama_toko self; document_data := document_data self;
    extracted_data := extracted_data self; npwp_type := npwp_type self;
    edit_field := edit_field self;
    last_bot_message_id := last_bot_message_id self;
    custom_data := custom_data self;
    total_interactions := total_interactions self;
    error_count := error_count self;
  |}.

(** [set_workflow] *)
Definition set_workflow (now : datetime) (w : WorkflowType)
    (self : UserSession) : UserSession :=
  set_state now AWAITING_BRANCH {|
    user_id := user_id self; state := state self;
    workflow_type := Some w; created_at := created_at self;
    last_activity := last_activity self;
    file_id := file_id self; file_size := file_size self;
    original_filename := original_filename self;
    custom_filename := custom_filename self;
    branch := branch self; sheet_name := sheet_name self;
    nama_toko := nama_toko self; document_data := document_data self;
    extracted_data := extracted_data self; npwp_type := npwp_type self;
    edit_field := edit_field self;
    last_bot_message_id := last_bot_message_id self;
    custom_data := custom_data self;
    total_interactions := total_interactions self;
    error_count := error_count self;
  |}.

(** [clear_workflow_data] *)
Definition clear_workflow_data (self : UserSession) : UserSession := {|
  user_id := user_id self; state := IDLE; workflow_type := None;
  created_at := created_at self; last_activity := last_activity self;
  file_id := None; file_size := None; original_filename := None;
  custom_filename := None; branch := None; sheet_name := None;
  nama_toko := None; document_data := None; extracted_data := ∅;
  npwp_type := None; edit_field := None; last_bot_message_id := None;
  custom_data := custom_data self;
  total_interactions := total_interactions self;
  error_count := error_count self;
|}.

(** [reset_session] *)
Definition reset_session (now : datetime) (self : UserSession) : UserSession :=
  let cleared := clear_workflow_data self in
  update_activity now {|
    user_id := user_id cleared; state := state cleared;
    workflow_type := workflow_type cleared; created_at := now;
    last_activity := last_activity cleared;
    file_id := file_id cleared; file_size := file_size cleared;
    original_filename := original_filename cleared;
    custom_filename := custom_filename cleared;
    branch := branch cleared; sheet_name := sheet_name cleared;
    nama_toko := nama_toko cleared; document_data := document_data cleared;
    extracted_data := extracted_data cleared; npwp_type := npwp_type cleared;
    edit_field := edit_field cleared;
    last_bot_message_id := last_bot_message_id cleared;
    custom_data := ∅; total_interactions := 0; error_count := 0;
  |}.

(** [increment_error_count] *)
Definition increment_error_count (now : datetime) (self : UserSession) : UserSession :=
  update_activity now {|
    user_id := user_id self; state := state self;
    workflow_type := workflow_type self; created_at := created_at self;
    last_activity := last_activity self;
    file_id := file_id self; file_size := file_size self;
    original_filename := original_filename self;
    custom_filename := custom_filename self;
    branch := branch self; sheet_name := sheet_name self;
    nama_toko := nama_toko self; document_data := document_data self;
    extracted_data := extracted_data self; npwp_type := npwp_type self;
    edit_field := edit_field self;
    last_bot_message_id := last_bot_message_id self;
    custom_data := custom_data self;
    total_interactions := total_interactions self;
    error_count := (error_count self + 1)%Z;
  |}.

(** The table [valid_transitions] of [can_transition_to]. *)
Definition valid_transitions (s : SessionState) : list SessionState :=
  match s with
  | IDLE => [AWAITING_BRANCH]
  | AWAITING_BRANCH =>
      [AWAITING_NPWP_TYPE; AWAITING_CONFIRMATION; AWAITING_PDF_NAME;
       PROCESSING_AI; IDLE]
  | PROCESSING_AI => [AWAITING_NPWP_TYPE; AWAITING_CONFIRMATION; IDLE]
  | AWAITING_NPWP_TYPE => [AWAITING_CONFIRMATION; IDLE]
  | AWAITING_CONFIRMATION =>
      [SELECTING_EDIT_FIELD; AWAITING_DUPLICATE_CONFIRMATION; SAVING_DATA; IDLE]
  | SELECTING_EDIT_FIELD =>
      [AWAITING_EDIT_INPUT; AWAITING_BRANCH_EDIT; AWAITING_CONFIRMATION; IDLE]
  | AWAITING_EDIT_INPUT => [AWAITING_CONFIRMATION; IDLE]
  | AWAITING_BRANCH_EDIT => [AWAITING_CONFIRMATION; IDLE]
  | AWAITING_PDF_NAME => [SAVING_DATA; IDLE]
  | AWAITING_DUPLICATE_CONFIRMATION => [SAVING_DATA; IDLE]
  | SAVING_DATA => [IDLE]
  end.

(** [can_transition_to] *)
Definition can_transition_to (self : UserSession) (new_state : SessionState) : bool :=
  let allowed_states := valid_transitions (state self) in
  bool_decide (new_state ∈ allowed_states) || bool_decide (new_state = IDLE).

(** The methods that change a session. *)
Inductive Operation : Type :=
  | UpdateActivity
  | SetState (new_state : SessionState)
  | SetWorkflow (w : WorkflowType)
  | ClearWorkflowData
  | ResetSession
  | IncrementErrorCount.

Definition perform (now : datetime) (op : Operation) (self : UserSession) : UserSession :=
  match op with
  | UpdateActivity => update_activity now self
  | SetState new_state => set_state now new_state self
  | SetWorkflow w => set_workflow now w self
  | ClearWorkflowData => clear_workflow_data self
  | ResetSession => reset_session now self
  | IncrementErrorCount => increment_error_count now self
  end.

(** *** Serialisation of a session *)

(** A value of the dictionary built by [UserSession.to_dict]: [None], a
    [str], an [int] or a dictionary. *)
Inductive SessionVal : Type :=
  | SNone
  | SStr (s : string)
  | SInt (z : Z)
  | SDict (m : gmap string DictVal).

Definition SessionVal_of_ostr (o : option string) : SessionVal :=
  match o with
  | Some s => SStr s
  | None => SNone
  end.

Definition SessionVal_of_oint (o : option Z) : SessionVal :=
  match o with
  | Some z => SInt z
  | None => SNone
  end.

(** [bool(v)] *)
Definition SessionVal_truthy (v : SessionVal) : bool :=
  match v with
  | SNone => false
  | SStr s => negb (String.eqb s "")
  | SInt z => negb (Z.eqb z 0)
  | SDict m => negb (bool_decide (m = ∅))
  end.

Definition WorkflowType_value (w : WorkflowType) : string :=
  match w with
  | PHOTO => "photo"
  | PDF => "pdf"
  end.

(** [WorkflowType(value)]: the member with that value, if any. *)
Definition WorkflowType_of_value (v : string) : option WorkflowType :=
  if String.eqb v "photo" then Some PHOTO
  else if String.eqb v "pdf" then Some PDF
  else None.

(** [data.get(key)] read at the type [Optional[str]], [Optional[int]],
    [int] with a default, or dictionary with the default [{}].  The
    answer is [None] when the value is of another type: Python binds it
    to the attribute all the same, which the typed record cannot
    follow. *)
Definition field_ostr (data : gmap string SessionVal) (key : string)
    : option (option string) :=
  match data !! key with
  | None | Some SNone => Some None
  | Some (SStr s) => Some (Some s)
  | Some _ => None
  end.

Definition field_oint (data : gmap string SessionVal) (key : string)
    : option (option Z) :=
  match data !! key with
  | None | Some SNone => Some None
  | Some (SInt z) => Some (Some z)
  | Some _ => None
  end.

Definition field_int (data : gmap string SessionVal) (key : string) : option Z :=
  match data !! key with
  | None => Some 0%Z
  | Some (SInt z) => Some z
  | Some _ => None
  end.

Definition field_dict (data : gmap string SessionVal) (key : string)
    : option (gmap string DictVal) :=
  match data !! key with
  | None => Some ∅
  | Some (SDict m) => Some m
  | Some _ => None
  end.

Section SessionSerialisation.

Variable isoformat : datetime → string.
Variable fromisoformat : string → option datetime.

(** [UserSession.to_dict]: [asdict(self)] with the two times replaced by
    their ISO strings, the enumeration members by their values and the
    record by [DocumentData.to_dict] (the [to_dict] of the right-hand
    side below).  A member of [WorkflowType] and a [DocumentData] are
    always truthy. *)
Definition to_dict (self : UserSession) : gmap string SessionVal :=
  <["user_id" := SInt (user_id self)]>
  (<["state" := SStr (SessionState_value (state self))]>
  (<["workflow_type" :=
       SessionVal_of_ostr (option_map WorkflowType_value (workflow_type self))]>
  (<["created_at" := SStr (isoformat (created_at self))]>
  (<["last_activity" := SStr (isoformat (last_activity self))]>
  (<["file_id" := SessionVal_of_ostr (file_id self)]>
  (<["file_size" := SessionVal_of_oint (file_size self)]>
  (<["original_filename" := SessionVal_of_ostr (original_filename self)]>
  (<["custom_filename" := SessionVal_of_ostr (custom_filename self)]>
  (<["branch" := SessionVal_of_ostr (branch self)]>
  (<["sheet_name" := SessionVal_of_ostr (sheet_name self)]>
  (<["nama_toko" := SessionVal_of_ostr (nama_toko self)]>
  (<["document_data" :=
       match document_data self with
       | Some d => SDict (to_dict isoformat d)
       | None => SNone
       end]>
  (<["extracted_data" := SDict (extracted_data self)]>
  (<["npwp_type" := SessionVal_of_ostr (npwp_type self)]>
  (<["edit_field" := SessionVal_of_ostr (edit_field self)]>
  (<["last_bot_message_id" := SessionVal_of_oint (last_bot_message_id self)]>
  (<["custom_data" := SDict (custom_data self)]>
  (<["total_interactions" := SInt (total_interactions self)]>
  (<["error_count" := SInt (error_count self)]>
   ∅))))))))))))))))))).

(** [datetime.fromisoformat(data[key])] *)
Definition parse_time (data : gmap string SessionVal) (key : string) : Res datetime :=
  match data !! key with
  | None => Raise (OtherError ("KeyError: '" +:+ key +:+ "'"))
  | Some (SStr s) =>
      match fromisoformat s with
      | Some t => Ok t
      | None =>
          Raise (OtherError ("ValueError: Invalid isoformat string: '" +:+ s +:+ "'"))
      end
  | Some _ => Raise (OtherError "TypeError: fromisoformat: argument must be str")
  end.

(** [UserSession.from_dict].  [now_document] is the clock read by
    [DocumentData.from_dict] (the [from_dict] of the right-hand side
    below) and [now] the one read by [__post_init__], which the
    constructor runs and which calls [update_activity].  The conversions
    come first and raise as Python does; then the constructor's
    arguments are read, of which only [data['user_id']] can raise; then
    [update_activity] adds 1 to [total_interactions], which raises when
    that is not a number.  The answer is [Ok None] when a value that
    raises nothing has a type that the attribute's annotation
    excludes. *)
Definition from_dict (now_document now : datetime) (data : gmap string SessionVal)
    : Res (option UserSession) :=
  created_at ← parse_time data "created_at";
  last_activity ← parse_time data "last_activity";
  state ←
    match data !! "state" with
    | None => Raise (OtherError "KeyError: 'state'")
    | Some (SStr s) =>
        match SessionState_of_value s with
        | Some t => Ok t
        | None =>
            Raise (OtherError ("ValueError: '" +:+ s +:+ "' is not a valid SessionState"))
        end
    | Some _ => Raise (OtherError "ValueError: not a valid SessionState")
    end;
  workflow_type ←
    match data !! "workflow_type" with
    | None => Ok None
    | Some v =>
        if negb (SessionVal_truthy v) then Ok None
        else
          match v with
          | SStr s =>
              match WorkflowType_of_value s with
              | Some w => Ok (Some w)
              | None =>
                  Raise (OtherError
                           ("ValueError: '" +:+ s +:+ "' is not a valid WorkflowType"))
              end
          | _ => Raise (OtherError "ValueError: not a valid WorkflowType")
          end
    end;
  document_data ←
    match data !! "document_data" with
    | None => Ok None
    | Some v =>
        if negb (SessionVal_truthy v) then Ok None
        else
          match v with
          | SDict m => d ← from_dict fromisoformat now_document m; Ok (Some d)
          | _ => Raise (OtherError "TypeError: document_data")
          end
    end;
  user_id ←
    match data !! "user_id" with
    | None => Raise (OtherError "KeyError: 'user_id'")
    | Some v => Ok v
    end;
  total_interactions ←
    match data !! "total_interactions" with
    | None => Ok 0%Z
    | Some (SInt z) => Ok z
    | Some _ => Raise (OtherError "TypeError: unsupported operand type(s) for +=")
    end;
  Ok (
    user_id ← match user_id with SInt z => Some z | _ => None end;
    file_id ← field_ostr data "file_id";
    file_size ← field_oint data "file_size";
    original_filename ← field_ostr data "original_filename";
    custom_filename ← field_ostr data "custom_filename";
    branch ← field_ostr data "branch";
    sheet_name ← field_ostr data "sheet_name";
    nama_toko ← field_ostr data "nama_toko";
    extracted_data ← field_dict data "extracted_data";
    npwp_type ← field_ostr data "npwp_type";
    edit_field ← field_ostr data "edit_field";
    last_bot_message_id ← field_oint data "last_bot_message_id";
    custom_data ← field_dict data "custom_data";
    error_count ← field_int data "error_count";
    Some (update_activity now {|
      user_id := user_id; state := state; workflow_type := workflow_type;
      created_at := created_at; last_activity := last_activity;
      file_id := file_id; file_size := file_size;
      original_filename := original_filename;
      custom_filename := custom_filename;
      branch := branch; sheet_name := sheet_name; nama_toko := nama_toko;
      document_data := document_data; extracted_data := extracted_data;
      npwp_type := npwp_type; edit_field := edit_field;
      last_bot_message_id := last_bot_message_id;
      custom_data := custom_data;
      total_interactions := total_interactions;
      error_count := error_count;
    |})).

End SessionSerialisation.

(** *** SessionManager: the dictionary [_sessions] *)

(** [SessionManager.get_session]: the manager afterwards and the session
    answered (the object stored under [uid]). *)
Definition get_session (cfg : Settings) (now : datetime) (uid : Z)
    (sessions : gmap Z UserSession) : gmap Z UserSession * UserSession :=
  let sessions :=
    match sessions !! uid with
    | None => <[uid := new_session now uid]> sessions
    | Some _ => sessions
    end in
  let session := default (new_session now uid) (sessions !! uid) in
  if is_expired cfg now session
  then (<[uid := new_session now uid]> sessions, new_session now uid)
  else (sessions, session).

(** [SessionManager.clear_session] *)
Definition clear_session (uid : Z) (sessions : gmap Z UserSession) : gmap Z UserSession :=
  delete uid sessions.

(** [SessionManager.reset_session]: the session answered by
    [get_session] is reset in place. *)
Definition manager_reset_session (cfg : Settings) (now : datetime) (uid : Z)
    (sessions : gmap Z UserSession) : gmap Z UserSession * UserSession :=
  let '(sessions, session) := get_session cfg now uid sessions in
  let session := reset_session now session in
  (<[uid := session]> sessions, session).

(** [SessionManager.cleanup_expired_sessions] *)
Definition cleanup_expired_sessions (cfg : Settings) (now : datetime)
    (sessions : gmap Z UserSession) : gmap Z UserSession * nat :=
  let expired := filter (λ kv, is_expired cfg now kv.2 = true) sessions in
  (filter (λ kv, is_expired cfg now kv.2 = false) sessions, size expired).

(** [has_active_workflow] *)
Definition has_active_workflow (cfg : Settings) (now : datetime)
    (self : UserSession) : bool :=
  match workflow_type self with Some _ => true | None => false end
  && negb (bool_decide (state self = IDLE))
  && negb (is_expired cfg now self).

(** [self._sessions.values()].  The list comes in the order of the map,
    which is not Python's insertion order; only what does not depend on
    the order is stated about it. *)
Definition values (sessions : gmap Z UserSession) : list UserSession :=
  (map_to_list sessions).*2.

(** [SessionManager.get_active_sessions_count] *)
Definition get_active_sessions_count (cfg : Settings) (now : datetime)
    (sessions : gmap Z UserSession) : nat :=
  List.length
    (List.filter (λ session, negb (is_expired cfg now session)) (values sessions)).

(** [SessionManager.get_sessions_by_state] *)
Definition get_sessions_by_state (cfg : Settings) (now : datetime)
    (st : SessionState) (sessions : gmap Z UserSession) : list UserSession :=
  List.filter
    (λ session, bool_decide (state session = st) && negb (is_expired cfg now session))
    (values sessions).

(** [SessionManager.get_all_sessions] *)
Definition get_all_sessions (cfg : Settings) (now : datetime)
    (sessions : gmap Z UserSession) : list UserSession :=
  List.filter (λ session, negb (is_expired cfg now session)) (values sessions).

End Session.

(** ** Persistence orchestrator (services/google_service.py) *)

(** The answer of a Google API call: its result, an [HttpError] with its
    status and text, or another exception with its text. *)
Inductive ApiResult (A : Type) : Type :=
  | Returns (a : A)
  | HttpError (status : nat) (text : string)
  | Fails (text : string).
Arguments Returns {A} a.
Arguments HttpError {A} status text.
Arguments Fails {A} text.

(** The outside world as the orchestrator meets it. *)
Record GoogleEnv : Type := {
  (** the text of the exception raised by [initialize], if any *)
  initialize_error : option string;
  (** [values().batchGet] on columns F, G, H of a sheet: one list of
      rows per column, each row the list of its cells *)
  batchGet : string → ApiResult (list (list (list string)));
  (** [values().append] of one row to a sheet *)
  append : string → list string → ApiResult unit;
  (** fetching the file from Telegram: the failure text, if any *)
  download_error : string → option string;
  (** [files().list]: the ids of the folders of that name under a parent *)
  list_folders : string → string → ApiResult (list string);
  (** [files().create] of a folder: its id *)
  create_folder : string → string → ApiResult string;
  (** [files().create] of a file in a folder: its id *)
  create_file : string → string → ApiResult string;
}.

(** A mutation performed on the external store. *)
Inductive StorageEffect : Type :=
  | RowAppended (sheet_name : string) (row : list string)
  | FolderCreated (parent_id name folder_id : string)
  | FileUploaded (folder_id filename file_id : string).

(** The [GoogleService] object and the log of what it did. *)
Record GState : Type := {
  initialised : bool;
  _folder_cache : gmap string string;
  effects : list StorageEffect;
}.

(** [GoogleService()] *)
Definition new_GoogleService : GState :=
  {| initialised := false; _folder_cache := ∅; effects := [] |}.

Definition perform_effect (e : StorageEffect) : Prog GState unit :=
  λ st, Done tt {| initialised := initialised st;
                   _folder_cache := _folder_cache st;
                   effects := effects st ++ [e] |}.

(** The answer of [save_photo_and_data]. *)
Inductive SaveResult : Type :=
  | Success
  | DuplicateFound
  | Error (message : string).

(** The service once its clients are built. *)
Definition ready (st : GState) : GState :=
  {| initialised := true; _folder_cache := _folder_cache st; effects := effects st |}.

Section GoogleService.

Variable cfg : Settings.
Variable env : GoogleEnv.

(** [initialize] *)
Definition initialize : Prog GState unit :=
  match initialize_error env with
  | Some text =>
      raise (GoogleServiceError ("Failed to initialize Google services: " +:+ text))
  | None => λ st, Done tt (ready st)
  end.

(** A row of a column matches when its first cell is not empty and,
    stripped, is one of the values looked for. *)
Definition row_matches (check_values : list string) (row : list string) : bool :=
  match row with
  | cell :: _ =>
      negb (String.eqb cell "") && Py.str_in (Py.strip cell) check_values
  | [] => false
  end.

(** [_check_for_duplicates] *)
Definition _check_for_duplicates (sheet_name : string)
    (document_data : DocumentData) : Prog GState bool :=
  let check_values := get_duplicate_check_values document_data in
  match check_values with
  | [] => ret false
  | _ =>
    match batchGet env sheet_name with
    | Returns value_ranges =>
        ret (existsb (λ column_values,
                        existsb (row_matches check_values) column_values)
               value_ranges)
    | HttpError status text =>
        if Nat.eqb status 404
        then raise (GoogleServiceError ("Sheet not found: " +:+ sheet_name))
        else raise (GoogleServiceError ("Error checking duplicates: " +:+ text))
    | Fails _ => ret false
    end
  end.

(** [_save_to_spreadsheet] *)
Definition _save_to_spreadsheet (document_data : DocumentData)
    (sheet_name nama_toko : string) : Prog GState unit :=
  let row_data := to_sheet_row document_data nama_toko in
  match append env sheet_name row_data with
  | Returns _ => perform_effect (RowAppended sheet_name row_data)
  | HttpError status text =>
      if Nat.eqb status 404
      then raise (GoogleServiceError ("Sheet not found: " +:+ sheet_name))
      else if Nat.eqb status 403
      then raise (GoogleServiceError "Permission denied - check Google Sheets access")
      else raise (GoogleServiceError ("Sheets API error: " +:+ text))
  | Fails text =>
      raise (GoogleServiceError ("Error saving to spreadsheet: " +:+ text))
  end.

(** [_find_or_create_subfolder] *)
Definition _find_or_create_subfolder (parent_id subfolder_name : string)
    : Prog GState string :=
  let cache_key := parent_id +:+ ":" +:+ subfolder_name in
  λ st,
    match _folder_cache st !! cache_key with
    | Some folder_id => Done folder_id st
    | None =>
      let remember folder_id : Prog GState string :=
        λ st, Done folder_id
                {| initialised := initialised st;
                   _folder_cache := <[cache_key := folder_id]> (_folder_cache st);
                   effects := effects st |} in
      match list_folders env parent_id subfolder_name with
      | Returns (folder_id :: _) => remember folder_id st
      | Returns [] =>
          match create_folder env parent_id subfolder_name with
          | Returns folder_id =>
              (perform_effect (FolderCreated parent_id subfolder_name folder_id) ;;
               remember folder_id) st
          | HttpError _ text =>
              Raised (GoogleServiceError ("Error with folder operations: " +:+ text)) st
          | Fails text =>
              Raised (GoogleServiceError ("Error finding/creating subfolder: " +:+ text)) st
          end
      | HttpError _ text =>
          Raised (GoogleServiceError ("Error with folder operations: " +:+ text)) st
      | Fails text =>
          Raised (GoogleServiceError ("Error finding/creating subfolder: " +:+ text)) st
      end
    end.

(** The suffix of [s] from its last ["."] on ([s[s.rfind('.'):]]), if
    there is one. *)
Fixpoint from_last_dot (s : string) : option string :=
  match s with
  | EmptyString => None
  | String c s' =>
      match from_last_dot s' with
      | Some r => Some r
      | None => if Ascii.eqb c "." then Some s else None
      end
  end.

Definition invalid_chars : list ascii :=
  [ "<"; ">"; ":"; ascii_of_nat 34; "/"; "\"; "|"; "?"; "*" ]%char.

(** [_sanitize_filename] *)
Definition _sanitize_filename (filename : string) : string :=
  let sanitized :=
    Py.smap (λ c, if existsb (Ascii.eqb c) invalid_chars then "_"%char else c)
      filename in
  if (255 <? Py.len sanitized)%nat then
    let name_part := Py.slice 0 240 sanitized in
    let extension := Py.drop_chars 240 sanitized in
    name_part +:+ default "" (from_last_dot extension)
  else sanitized.

(** [_upload_file_to_drive] *)
Definition _upload_file_to_drive (file_id : string)
    (document_data : DocumentData) (branch : string) : Prog GState string :=
  let wrapped {A} (text : string) : Prog GState A :=
    raise (GoogleServiceError ("Error uploading to Drive: " +:+ text)) in
  match download_error env file_id with
  | Some text => wrapped text
  | None =>
    match FOLDER_MAP cfg !! branch with
    | None => wrapped ("'" +:+ branch +:+ "'")
    | Some parent_folder_id =>
      let* target_folder_id :=
        catch (_find_or_create_subfolder parent_folder_id "Sudah diinput")
              (λ e, wrapped (exn_str e)) in
      let filename :=
        _sanitize_filename
          (nama document_data +:+ " - "
           +:+ DocumentType_value (document_type document_data) +:+ ".jpg") in
      match create_file env target_folder_id filename with
      | Returns drive_file_id =>
          perform_effect (FileUploaded target_folder_id filename drive_file_id) ;;
          ret drive_file_id
      | HttpError status text =>
          if Nat.eqb status 403
          then raise (GoogleServiceError "Permission denied - check Google Drive access")
          else if Nat.eqb status 404
          then raise (GoogleServiceError ("Folder not found for branch: " +:+ branch))
          else raise (GoogleServiceError ("Drive API error: " +:+ text))
      | Fails text => wrapped text
      end
    end
  end.

(** [user_data.get('nama_toko', '')] read as a [str]. *)
Definition read_nama_toko (user_data : gmap string Value) : option string :=
  match user_data !! "nama_toko" with
  | None => Some ""
  | Some (VStr s) => Some s
  | Some _ => None
  end.

(** The body of the [try] block of [save_photo_and_data], for a
    session that holds a record with a member of [DocumentType] for
    [document_type], or no record. *)
Definition save_body (user_data : gmap string Value)
    (bypass_duplicate_check : bool) : Prog GState SaveResult :=
  (λ st, if initialised st then Done tt st else initialize st) ;;
  let* document_data :=
    match user_data !! "document_data" with
    | None | Some VNone =>
        raise (GoogleServiceError "No document data found in user session")
    | Some (VDoc d) => ret d
    | Some _ => untyped
    end in
  let* branch :=
    match user_data !! "branch" with
    | Some (VStr branch) =>
        if negb (String.eqb branch "") && is_valid_branch cfg branch
        then ret branch
        else raise (GoogleServiceError ("Invalid branch: " +:+ branch))
    | None | Some VNone => raise (GoogleServiceError "Invalid branch: None")
    | Some _ => untyped
    end in
  (* a valid branch has a sheet name *)
  let* sheet_name :=
    match SHEET_NAME_MAP cfg !! branch with
    | Some sheet_name => ret sheet_name
    | None => untyped
    end in
  let* nama_toko :=
    match read_nama_toko user_data with
    | Some s => ret s
    | None => untyped
    end in
  let* is_duplicate :=
    (if bypass_duplicate_check then ret false
     else _check_for_duplicates sheet_name document_data) in
  if is_duplicate then ret DuplicateFound
  else
    _save_to_spreadsheet document_data sheet_name nama_toko ;;
    let* file_id :=
      match user_data !! "file_id" with
      | None | Some VNone => ret ""
      | Some (VStr s) => ret s
      | Some _ => untyped
      end in
    match file_id with
    | EmptyString => ret tt
    | _ => _upload_file_to_drive file_id document_data branch ;; ret tt
    end ;;
    ret Success.

(** The body of the [try] block when the object of the session has a
    [str] for [document_type], as the edit of that field leaves it.
    Every comparison of [document_type] with a member of [DocumentType]
    fails: [primary_id] is [None] and [id_tku] is empty, so that
    [get_duplicate_check_values] answers [npwp_15] alone, which
    [_check_for_duplicates] looks up as for any record; and
    [to_sheet_row] raises [AttributeError] at
    [self.document_type.value], which [_save_to_spreadsheet] turns into
    a [GoogleServiceError]: no row is appended and no file uploaded. *)
Definition save_body_retyped (d : DocumentData) (user_data : gmap string Value)
    (bypass_duplicate_check : bool) : Prog GState SaveResult :=
  (λ st, if initialised st then Done tt st else initialize st) ;;
  let* branch :=
    match user_data !! "branch" with
    | Some (VStr branch) =>
        if negb (String.eqb branch "") && is_valid_branch cfg branch
        then ret branch
        else raise (GoogleServiceError ("Invalid branch: " +:+ branch))
    | None | Some VNone => raise (GoogleServiceError "Invalid branch: None")
    | Some _ => untyped
    end in
  let* sheet_name :=
    match SHEET_NAME_MAP cfg !! branch with
    | Some sheet_name => ret sheet_name
    | None => untyped
    end in
  let* nama_toko :=
    match read_nama_toko user_data with
    | Some s => ret s
    | None => untyped
    end in
  let check_values :=
    if truthy_ostr (npwp_15 d) then [or_empty (npwp_15 d)] else [] in
  let* is_duplicate :=
    (if bypass_duplicate_check then ret false
     else
       match check_values with
       | [] => ret false
       | _ =>
         match batchGet env sheet_name with
         | Returns value_ranges =>
             ret (existsb (λ column_values,
                             existsb (row_matches check_values) column_values)
                    value_ranges)
         | HttpError status text =>
             if Nat.eqb status 404
             then raise (GoogleServiceError ("Sheet not found: " +:+ sheet_name))
             else raise (GoogleServiceError ("Error checking duplicates: " +:+ text))
         | Fails _ => ret false
         end
       end) in
  if is_duplicate then ret DuplicateFound
  else
    raise (GoogleServiceError
             "Error saving to spreadsheet: 'str' object has no attribute 'value'").

(** [save_photo_and_data]: the two [except] clauses turn every
    exception into an answer. *)
Definition save_photo_and_data (user_data : gmap string Value)
    (bypass_duplicate_check : bool) : Prog GState SaveResult :=
  catch
    match user_data !! "document_data" with
    | Some (VDocRetyped _ d) => save_body_retyped d user_data bypass_duplicate_check
    | _ => save_body user_data bypass_duplicate_check
    end
    (λ e, match e with
          | DuplicateDataError _ => ret DuplicateFound
          | _ => ret (Error (exn_str e))
          end).

(** [save_pdf_to_drive].  The file name that the source prepares from
    [custom_filename] and [original_filename] is not used afterwards
    (the function raises before any upload); preparing it raises only
    when [original_filename] is not a [str]. *)
Definition save_pdf_to_drive (user_data : gmap string Value)
    : Prog GState SaveResult :=
  catch (
    (λ st, if initialised st then Done tt st else initialize st) ;;
    (match user_data !! "file_id" with
     | Some v =>
         if value_truthy v then ret tt
         else raise (GoogleServiceError "No file ID found in user session")
     | None => raise (GoogleServiceError "No file ID found in user session")
     end) ;;
    let* branch :=
      match user_data !! "branch" with
      | Some (VStr branch) =>
          if negb (String.eqb branch "") && is_valid_branch cfg branch
          then ret branch
          else raise (GoogleServiceError ("Invalid branch: " +:+ branch))
      | None | Some VNone => raise (GoogleServiceError "Invalid branch: None")
      | Some _ => untyped
      end in
    (match user_data !! "original_filename" with
     | None | Some (VStr _) => ret tt
     | Some VNone =>
         raise (OtherError
                  "expected str, bytes or os.PathLike object, not NoneType")
     | Some _ => untyped
     end) ;;
    let* parent_folder_id :=
      match FOLDER_MAP cfg !! branch with
      | Some parent_folder_id => ret parent_folder_id
      | None => raise (OtherError ("'" +:+ branch +:+ "'"))
      end in
    _find_or_create_subfolder parent_folder_id "PDF" ;;
    raise (GoogleServiceError
             "PDF upload requires bot instance - implement in handler"))
    (λ e, ret (Error (exn_str e))).

(** [cleanup_cache] *)
Definition cleanup_cache : Prog GState unit :=
  λ st, Done tt {| initialised := initialised st; _folder_cache := ∅;
                   effects := effects st |}.

End GoogleService.

(** * Vocabulary of the statements and sample data *)

(** ** The national-ID validator *)

Section NikVocabulary.
Import DocumentValidator.

Definition all_zeros : string := Py.repeat_char "0" 16.
Definition all_ones : string := Py.repeat_char "1" 16.

(** The day encoded in a NIK: 40 is added for women. *)
Definition nik_day (dd : Z) : Z := if (40 <? dd)%Z then (dd - 40)%Z else dd.

(** The century rule as the comments of [_is_valid_nik_date] word it:
    two-digit years from 50 up are 1950-1999, the others 2000-2049. *)
Definition nik_year (yy : Z) : Z :=
  if (50 <=? yy)%Z then (1900 + yy)%Z else (2000 + yy)%Z.

(** The premises under which the specification promises acceptance:
    16 digits, a listed region prefix, and digits 7-12 reading as a
    DDMMYY date that is not in the future. *)
Definition nik_premises (current_year : Z) (s : string) : Prop :=
  Py.len s = 16 ∧ Py.sforall Py.isdecimal s = true ∧
  In (Py.slice 0 2 s) valid_codes ∧
  ∃ dd mm yy : Z,
    Py.int (Py.slice 6 8 s) = Some dd ∧
    Py.int (Py.slice 8 10 s) = Some mm ∧
    Py.int (Py.slice 10 12 s) = Some yy ∧
    (1 ≤ nik_day dd ≤ 31)%Z ∧ (1 ≤ mm ≤ 12)%Z ∧
    (nik_year yy ≤ current_year)%Z.

End NikVocabulary.

(** ** The retry policy *)

Section RetryVocabulary.

Variable cfg : Settings.
Variable env : AIEnv.

(** The number of attempts of a run. *)
Definition attempts (log : list Event) : nat :=
  List.length (List.filter (λ ev, match ev with EvAttempt _ => true | _ => false end) log).

(** What follows attempt [k] in a run of at most [max_retries] attempts
    that ended with [result]: [post] is the rest of the log. *)
Definition after_attempt (max_retries k : nat)
    (result : Res (option DocumentData)) (post : list Event) : Prop :=
  match attempt_body cfg env k with
  | Ok document_data => post = [] ∧ result = Ok (Some document_data)
  | Raise (AuthenticationError m) =>
      post = [] ∧ result = Raise (AuthenticationError m)
  | Raise (RateLimitError m) =>
      if (k <? max_retries - 1)%nat
      then ∃ post', post = EvSleep (5 * 2 ^ Z.of_nat k) :: EvAttempt (S k) :: post'
      else post = [] ∧ result = Raise (RateLimitError m)
  | Raise e =>
      if (k <? max_retries - 1)%nat
      then ∃ post', post = EvSleep 2 :: EvAttempt (S k) :: post'
      else post = [] ∧
           result = Raise (AIProcessingError
                             ("AI processing failed after "
                              +:+ Py.str_of_nat max_retries
                              +:+ " attempts: " +:+ exn_str e)
                             (Some (ACTIVE_AI_SERVICE cfg)))
  end.

End RetryVocabulary.

(** A service that answers "rate limit" at every attempt. *)
Definition always_rate_limited : AIEnv := {|
  _call_openai_api := λ _, Failure (RateLimitError "OpenAI rate limit: 429");
  _call_deepseek_api := λ _, Failure (RateLimitError "DeepSeek rate limit exceeded");
  clock := λ _, 0%Z;
|}.

(** A service that fails once for another reason, is then rate limited,
    and answers at the third attempt. *)
Definition flaky_service : AIEnv := {|
  _call_openai_api := λ attempt,
    match attempt with
    | 0 => Failure (AIProcessingError "OpenAI API error: timeout" None)
    | 1 => Failure (RateLimitError "OpenAI rate limit: 429")
    | _ => Reply (<["document_type" := JStr "ktp"]>
                  (<["nama" := JStr " Budi "]>
                  (<["nik" := JStr "3201010101900001"]> ∅)))
    end;
  _call_deepseek_api := λ _, Failure (AuthenticationError "DeepSeek authentication failed");
  clock := λ attempt, Z.of_nat attempt;
|}.

(** ** Records *)

(** A record is constructed when it is what the constructor answers for
    some arguments. *)
Definition constructed (d : DocumentData) : Prop :=
  ∃ now ty nm al nk n15 n16 nt cs ts ai,
    d = new_DocumentData now ty nm al nk n15 n16 nt cs ts ai.

(** A company tax record with every field populated. *)
Definition sample_company : DocumentData :=
  new_DocumentData 1700000000000000%Z NPWP " PT Maju Jaya "
    (Some "Jl. Sudirman 1, Kel. Karet, Kec. Setiabudi ")
    None (Some "86.655.529.5-602.000") (Some "0866555295602000")
    (Some COMPANY) (Some 0.5%float) None (Some "openai").

(** An identity-card record. *)
Definition sample_ktp : DocumentData :=
  new_DocumentData 1700000000000000 KTP "Budi" None (Some "3201010101900001")
    None None None None None (Some "openai").

(** The invariant as the specification words it: numeric fields of
    digits only and of fixed length, and the field group of the
    document type, and only that one, populated. *)
Definition fixed_digits (n : nat) (o : option string) : bool :=
  match o with
  | None => true
  | Some s => Py.sforall Py.isdecimal s && Nat.eqb (Py.len s) n
  end.

Definition record_invariant (d : DocumentData) : bool :=
  fixed_digits 16 (nik d) && fixed_digits 15 (npwp_15 d)
  && fixed_digits 16 (npwp_16 d)
  && match document_type d with
     | KTP => truthy_ostr (nik d) && negb (truthy_ostr (npwp_15 d))
     | NPWP => truthy_ostr (npwp_15 d) && negb (truthy_ostr (nik d))
     end.

Definition digits_only (o : option string) : bool :=
  match o with
  | None => true
  | Some s => Py.sforall Py.isdecimal s
  end.

Definition at_most (n : nat) (o : option string) : bool :=
  match o with
  | None => true
  | Some s => Nat.leb (Py.len s) n
  end.

(** ** Sessions *)

(** A session of the handlers in the state [awaiting_branch], and the
    press of a stale "edit" button. *)
Definition awaiting_branch_ctx : Context := {|
  user_data :=
    <["state" := VStr "awaiting_branch"]>
    (<["workflow_type" := VStr "photo"]>
    (<["last_activity" := VTime 1000]> ∅));
  outbox := [];
|}.

Definition stale_edit_press : Update := {|
  text := "confirm_edit"; message_id := 7; shown_text := "preview";
  answer_message_id := 8;
|}.

(** A session of user 42 left in the middle of a confirmation. *)
Definition stale_session : Session.UserSession :=
  Session.set_state 1000 Session.AWAITING_CONFIRMATION (Session.new_session 0 42).

(** The operations of a session that call [update_activity]: all but
    [clear_workflow_data]. *)
Definition stamps (op : Session.Operation) : bool :=
  match op with
  | Session.ClearWorkflowData => false
  | _ => true
  end.

(** ** The commit *)

Section CommitVocabulary.

Variable cfg : Settings.
Variable env : GoogleEnv.

(** A duplicate token of a record: its [npwp_15], [primary_id] or
    [id_tku], when not empty. *)
Definition duplicate_token (d : DocumentData) (tok : string) : Prop :=
  tok ≠ "" ∧ (npwp_15 d = Some tok ∨ primary_id d = Some tok ∨ id_tku d = tok).

(** The cell [tok] sits in one of the columns read back from the sheet
    (up to surrounding white space). *)
Definition stored (tok : string) (value_ranges : list (list (list string))) : Prop :=
  ∃ column_values cell rest,
    In column_values value_ranges ∧ In (cell :: rest) column_values
    ∧ cell ≠ "" ∧ Py.strip cell = tok.

(** The state reached when the row has been appended. *)
Definition appended (sheet_name : string) (row : list string) (st : GState) : GState :=
  {| initialised := true; _folder_cache := _folder_cache st;
     effects := effects st ++ [RowAppended sheet_name row] |}.

(** What makes a session ready for [save_photo_and_data]: the record,
    a configured branch and a store name of the right type. *)
Record committable (user_data : gmap string Value) (st : GState)
    (d : DocumentData) (branch sheet_name nama_toko : string) : Prop := {
  commit_init : initialised st = true ∨ initialize_error env = None;
  commit_doc : user_data !! "document_data" = Some (VDoc d);
  commit_branch : user_data !! "branch" = Some (VStr branch);
  commit_branch_named : branch ≠ "";
  commit_branch_valid : is_valid_branch cfg branch = true;
  commit_sheet : SHEET_NAME_MAP cfg !! branch = Some sheet_name;
  commit_nama_toko : read_nama_toko user_data = Some nama_toko;
}.

(** A step of the commit raises nothing but [GoogleServiceError]. *)
Definition is_GoogleServiceError (e : Exn) : Prop :=
  ∃ message, e = GoogleServiceError message.


End CommitVocabulary.

Definition sample_user_data : gmap string Value :=
  <["document_data" := VDoc sample_ktp]>
  (<["branch" := VStr "BJ"]>
  (<["nama_toko" := VStr "Toko Jaya"]>
  (<["file_id" := VStr "AgACAgUAAxkBAAIB"]> ∅))).

(** The session of a PDF workflow as [handle_pdf_message] and the
    choice of a branch leave it. *)
Definition pdf_user_data : gmap string Value :=
  <["state" := VStr "awaiting_pdf_name"]>
  (<["sheet_name" := VStr "NPWPKTP BJ (NEW)"]>
  (<["branch" := VStr "BJ"]>
  (<["original_filename" := VStr "scan.pdf"]>
  (<["file_size" := VInt 52000]>
  (<["file_id" := VStr "BQACAgUAAxkBAAIC"]>
  (<["last_activity" := VTime 1000]>
  (<["created_at" := VTime 1000]>
  (<["workflow_type" := VStr "pdf"]> ∅)))))))).

(** A sheet whose column G already holds the NIK of [sample_ktp]. *)
Definition sample_store : GoogleEnv := {|
  initialize_error := None;
  batchGet := λ _,
    Returns [ [["NPWP 15"]; []; ["866555295602000"]];
              [["NIK"]; [" 3201010101900001 "]];
              [] ];
  append := λ _ _, Returns tt;
  download_error := λ _, None;
  list_folders := λ _ _, Returns [];
  create_folder := λ _ _, Returns "folder-1";
  create_file := λ _ _, Returns "file-1";
|}.

(** A store whose duplicate lookup breaks down with something other
    than an [HttpError]. *)
Definition store_lookup_down : GoogleEnv := {|
  initialize_error := None;
  batchGet := λ _, Fails "The read operation timed out";
  append := λ _ _, Returns tt;
  download_error := λ _, None;
  list_folders := λ _ _, Returns ["folder-1"];
  create_folder := λ _ _, Returns "folder-2";
  create_file := λ _ _, Returns "file-1";
|}.

(** A store that accepts the row and refuses the file. *)
Definition store_upload_denied : GoogleEnv := {|
  initialize_error := None;
  batchGet := λ _, Returns [];
  append := λ _ _, Returns tt;
  download_error := λ _, None;
  list_folders := λ _ _, Returns ["folder-1"];
  create_folder := λ _ _, Returns "folder-2";
  create_file := λ _ _, HttpError 403 "<HttpError 403 Forbidden>";
|}.

(** ** The edit of a field *)






Section EditVocabulary.

Variable now : datetime.


End EditVocabulary.


(** The session of [sample_ktp] waiting for a new NIK, and the message
    that brings it (typed with spaces, which [validate_nik] ignores). *)
Definition edit_ctx : Context := {|
  user_data :=
    <["state" := VStr "awaiting_edit_input"]>
    (<["edit_field" := VStr "nik"]>
    (<["document_data" := VDoc sample_ktp]>
    (<["extracted_data" := VDict (to_dict Py.str_of_Z sample_ktp)]>
    (<["branch" := VStr "BJ"]>
    (<["last_bot_message_id" := VInt 11]>
    (<["last_activity" := VTime 1000]> ∅))))));
  outbox := [];
|}.

Definition edit_message : Update := {|
  text := " 3201 0101 0190 0002 "; message_id := 12; shown_text := "";
  answer_message_id := 13;
|}.

(** [sample_ktp] with the NIK as the user typed it. *)
Definition edited_ktp : DocumentData :=
  mkDocumentData KTP "Budi" None (Some "3201 0101 0190 0002") None None None
    None 1700000000000000 (Some "openai").




(** ** Further vocabulary *)

(** The century rule as [_is_valid_nik_date] computes it. *)
Definition nik_full_year (yy : Z) : Z :=
  if (50 <? yy)%Z then (1900 + yy)%Z else (2000 + yy)%Z.

(** A character that the pattern [[0-9\W]] matches. *)
Definition digit_or_symbol (c : ascii) : bool :=
  Py.isdecimal c || negb (Py.isword c).

(** The [alamat] of a decoded answer is absent, falsy or a [str]. *)
Definition alamat_readable (raw_data : gmap string RawValue) : Prop :=
  match default JNull (raw_data !! "alamat") with
  | JStr _ => True
  | v => raw_truthy v = false
  end.

(** The dictionary of the manager files every session under its own
    user id. *)
Definition keyed (sessions : gmap Z Session.UserSession) : Prop :=
  ∀ uid s, sessions !! uid = Some s → Session.user_id s = uid.

(** A session after a sequence of operations, each at its own time. *)
Definition after_operations (ops : list (datetime * Session.Operation))
    (s : Session.UserSession) : Session.UserSession :=
  fold_left (λ s op, Session.perform op.1 op.2 s) ops s.

(** One step along the transition table. *)
Definition table_step (s t : Session.SessionState) : Prop :=
  t ∈ Session.valid_transitions s.

(** Columns F, G and H of a sheet that holds [rows], as [batchGet]
    hands them back: one list per column, with one entry per row of the
    sheet, which holds the cell when the cell is not empty. *)
Definition columns_FGH (rows : list (list string)) : list (list (list string)) :=
  List.map
    (λ column,
       List.map (λ row, match nth column row "" with
                        | EmptyString => []
                        | cell => [cell]
                        end) rows)
    [5; 6; 7]%nat.

(** A character that [_sanitize_filename] lets stand. *)
Definition filename_char (c : ascii) : bool :=
  negb (existsb (Ascii.eqb c) invalid_chars).

(** A text without a dot. *)
Definition dot_free (s : string) : bool :=
  Py.sforall (λ c, negb (Ascii.eqb c ".")) s.

(** A session of user 42 left, with the record [sample_company], in
    the middle of a confirmation. *)
Definition stored_session : Session.UserSession := {|
  Session.user_id := 42; Session.state := Session.AWAITING_CONFIRMATION;
  Session.workflow_type := Some Session.PHOTO;
  Session.created_at := 0; Session.last_activity := 1000;
  Session.file_id := Some "AgACAgUAAxkBAAIB"; Session.file_size := Some 52000%Z;
  Session.original_filename := None; Session.custom_filename := None;
  Session.branch := Some "BJ"; Session.sheet_name := Some "NPWPKTP BJ (NEW)";
  Session.nama_toko := Some "Toko Jaya";
  Session.document_data := Some sample_company;
  Session.extracted_data := to_dict Py.str_of_Z sample_company;
  Session.npwp_type := Some "company"; Session.edit_field := None;
  Session.last_bot_message_id := Some 11%Z; Session.custom_data := ∅;
  Session.total_interactions := 4; Session.error_count := 0;
|}.

(** * Properties *)

(** ** Programs with state and exceptions *)

Lemma bind_done {S A B} (m : Prog S A) (k : A → Prog S B) st a st' :
  m st = Done a st' → bind m k st = k a st'.
Proof. intros H. unfold bind. by rewrite H. Qed.

Lemma bind_assoc {S A B C} (m : Prog S A) (f : A → Prog S B)
    (g : B → Prog S C) st :
  bind (bind m f) g st = bind m (λ a, bind (f a) g) st.
Proof. unfold bind. by destruct (m st). Qed.

Lemma catch_returns {S A} (body : Prog S A) (handler : Exn → Prog S A) st a st' :
  body st = Done a st' → catch body handler st = Done a st'.
Proof. intros H. unfold catch. by rewrite H. Qed.

(** ** Claim C3: the numeric repair *)

Lemma falsy_digits_short (v : RawValue) :
  raw_truthy v = false → (Py.len (digits_of v) ≤ 1)%nat.
Proof.
  destruct v as [ | [] | z | [ | c s]]; simpl; try discriminate;
    try (intros _; vm_compute; lia).
  intros H. apply negb_false_iff, Z.eqb_eq in H. subst z.
  vm_compute. lia.
Qed.

(** C3. For every raw field value, with [cleaned] the value reduced to
    its digit characters: when 15 digits are expected the repair returns
    [cleaned] if it has exactly 15 digits, [cleaned] without its leading
    ["0"] if it has 16 digits and starts with ["0"], and null otherwise;
    when 16 digits are expected it returns [cleaned] if it has 16
    digits, ["0"] followed by [cleaned] if it has 15 digits, and null
    otherwise.  The function is total: no input raises. *)
Theorem clean_and_validate_number_repair (v : RawValue) :
  let cleaned := digits_of v in
  (Py.len cleaned = 15 →
     _clean_and_validate_number v 15 = Some cleaned) ∧
  (Py.len cleaned = 16 → Py.startswith "0" cleaned = true →
     _clean_and_validate_number v 15 = Some (Py.drop_chars 1 cleaned)) ∧
  (Py.len cleaned ≠ 15 →
   ¬ (Py.len cleaned = 16 ∧ Py.startswith "0" cleaned = true) →
     _clean_and_validate_number v 15 = None) ∧
  (Py.len cleaned = 16 →
     _clean_and_validate_number v 16 = Some cleaned) ∧
  (Py.len cleaned = 15 →
     _clean_and_validate_number v 16 = Some ("0" +:+ cleaned)) ∧
  (Py.len cleaned ≠ 16 → Py.len cleaned ≠ 15 →
     _clean_and_validate_number v 16 = None).
Proof.
  intros cleaned. unfold _clean_and_validate_number. fold cleaned.
  destruct (raw_truthy v) eqn:Ht; simpl.
  - destruct cleaned as [ | c s] eqn:Hc.
    + repeat split; try reflexivity; simpl; intros; discriminate.
    + rewrite <- Hc. clear Hc.
      repeat split.
      * intros ->. reflexivity.
      * intros -> ->. reflexivity.
      * intros H15 H16.
        destruct (Nat.eqb_spec (Py.len cleaned) 15); [contradiction | ].
        destruct (Nat.eqb_spec (Py.len cleaned) 16); [ | reflexivity].
        destruct (Py.startswith "0" cleaned); [ | reflexivity].
        exfalso. apply H16. split; [assumption | reflexivity].
      * intros ->. reflexivity.
      * intros ->. reflexivity.
      * intros H16 H15.
        destruct (Nat.eqb_spec (Py.len cleaned) 16); [contradiction | ].
        destruct (Nat.eqb_spec (Py.len cleaned) 15); [contradiction | ].
        reflexivity.
  - pose proof (falsy_digits_short v Ht) as Hs. fold cleaned in Hs.
    repeat split; intros; try reflexivity; lia.
Qed.

(** The three situations of the 15-digit repair on concrete values. *)
Lemma clean_and_validate_number_repair_witness :
  _clean_and_validate_number (JStr "86.655.529.5-602.000") 15
    = Some "866555295602000"
  ∧ _clean_and_validate_number (JStr "0866555295602000") 15
    = Some "866555295602000"
  ∧ _clean_and_validate_number (JInt 86655529560200) 15 = None
  ∧ _clean_and_validate_number (JStr "866555295602000") 16
    = Some "0866555295602000".
Proof.
  pose proof (clean_and_validate_number_repair (JStr "86.655.529.5-602.000"))
    as (H1 & _).
  pose proof (clean_and_validate_number_repair (JStr "0866555295602000"))
    as (_ & H2 & _).
  pose proof (clean_and_validate_number_repair (JInt 86655529560200))
    as (_ & _ & H3 & _).
  pose proof (clean_and_validate_number_repair (JStr "866555295602000"))
    as (_ & _ & _ & _ & H5 & _).
  split; [exact (H1 eq_refl) | ].
  split; [exact (H2 eq_refl eq_refl) | ].
  split; [ | exact (H5 eq_refl)].
  apply H3; vm_compute; [lia | intros [? _]; lia].
Defined.

(** ** Properties of the text primitives *)

Lemma sfilter_all (p : ascii → bool) (s : string) :
  Py.sforall p s = true → Py.sfilter p s = s.
Proof.
  induction s as [ | c s IH]; simpl; [reflexivity | ].
  intros [Hc Hs]%andb_true_iff. rewrite Hc, IH; auto.
Qed.

Lemma sforall_sfilter (p : ascii → bool) (s : string) :
  Py.sforall p (Py.sfilter p s) = true.
Proof.
  induction s as [ | c s IH]; simpl; [reflexivity | ].
  destruct (p c) eqn:Hc; simpl; [rewrite Hc | ]; auto.
Qed.

Lemma sforall_weaken (p q : ascii → bool) (s : string) :
  (∀ c, p c = true → q c = true) →
  Py.sforall p s = true → Py.sforall q s = true.
Proof.
  intros Hpq. induction s as [ | c s IH]; simpl; [reflexivity | ].
  intros [Hc Hs]%andb_true_iff. rewrite (Hpq _ Hc), IH; auto.
Qed.

Lemma len_sfilter_le (p : ascii → bool) (s : string) :
  (Py.len (Py.sfilter p s) ≤ Py.len s)%nat.
Proof.
  induction s as [ | c s IH]; simpl; [lia | ].
  destruct (p c); simpl; unfold Py.len in *; lia.
Qed.

(** The ten decimal digits are the only characters of class [\d]. *)
Lemma isdecimal_cases (c : ascii) :
  Py.isdecimal c = true →
  In c ["0"; "1"; "2"; "3"; "4"; "5"; "6"; "7"; "8"; "9"]%char.
Proof.
  destruct c as [[] [] [] [] [] [] [] []]; vm_compute; intros H;
    try discriminate H; auto 11.
Qed.

Lemma isdecimal_isdigit (c : ascii) :
  Py.isdecimal c = true → Py.isdigit c = true.
Proof. unfold Py.isdigit. intros ->. reflexivity. Qed.

(** [int] of two decimal digits is a number from 0 to 99. *)
Lemma int_two_decimals (a b : ascii) :
  Py.isdecimal a = true → Py.isdecimal b = true →
  ∃ v : Z, Py.int (String a (String b "")) = Some v ∧ (0 ≤ v ≤ 99)%Z.
Proof.
  intros Ha%isdecimal_cases Hb%isdecimal_cases.
  simpl in Ha, Hb.
  repeat (destruct Ha as [<- | Ha]; [ | ]); try contradiction;
    repeat (destruct Hb as [<- | Hb]; [ | ]); try contradiction;
    eexists; (split; [vm_compute; reflexivity | lia]).
Qed.

Lemma substring_whole (s : string) :
  substring 0 (String.length s) s = s.
Proof. induction s as [ | c s IH]; simpl; [reflexivity | ]. by rewrite IH. Qed.

Lemma drop_chars_whole (s : string) :
  Py.drop_chars (String.length s) s = "".
Proof. induction s as [ | c s IH]; simpl; auto. Qed.

Lemma match_n_digits_exact (n : nat) (s : string) :
  Py.len s = n → Py.sforall Py.isdecimal s = true →
  DocumentValidator.match_n_digits n s = true.
Proof.
  intros <- Hs. unfold DocumentValidator.match_n_digits, Py.slice, Py.len.
  rewrite Nat.sub_0_r, substring_whole, drop_chars_whole, Hs, Nat.eqb_refl.
  reflexivity.
Qed.

(** ** Claim C9: the national-ID validator *)

Section ValidateNik.
Import DocumentValidator.

Lemma str_in_In (x : string) (xs : list string) :
  Py.str_in x xs = true ↔ In x xs.
Proof.
  unfold Py.str_in. rewrite existsb_exists. split.
  - intros (y & Hy & ->%String.eqb_eq). exact Hy.
  - intros H. exists x. split; [exact H | apply String.eqb_refl].
Qed.

(** The string of sixteen ones meets every premise and is refused. *)
Lemma validate_nik_all_ones_refused :
  nik_premises 2025 all_ones ∧
  validate_nik 2025 all_ones = invalid "NIK tidak valid (semua angka sama)".
Proof.
  split; [ | vm_compute; reflexivity].
  split; [reflexivity | ]. split; [reflexivity | ].
  split; [vm_compute; tauto | ].
  exists 11%Z, 11%Z, 11%Z. vm_compute. intuition congruence.
Qed.

(** C9 (amended). [validate_nik] accepts every 16-digit string other
    than sixteen ones whose first two digits are a listed region code
    and whose digits 7-12 read as DDMMYY with the day (less 40 when
    above 40) in 1..31, the month in 1..12 and a year (19YY for YY above
    50, 20YY for YY below 50) that is not after the current year; and it
    refuses the strings of sixteen zeros and of sixteen ones. *)
Theorem validate_nik_accepts (current_year : Z) (s : string) :
  (nik_premises current_year s →
   s ≠ all_ones →
   Py.int (Py.slice 10 12 s) ≠ Some 50%Z →
   validate_nik current_year s = valid)
  ∧ fst (validate_nik current_year all_zeros) = false
  ∧ fst (validate_nik current_year all_ones) = false.
Proof.
  split; [ | split; reflexivity].
  intros (Hlen & Hdig & Hcode & dd & mm & yy & Hdd & Hmm & Hyy & Hday & Hmon & Hyear)
    Hones Hfifty.
  unfold validate_nik.
  rewrite (sfilter_all _ _ Hdig).
  rewrite (match_n_digits_exact 16 s Hlen Hdig), Hlen.
  apply str_in_In in Hcode.
  destruct (String.eqb_spec s (Py.repeat_char "0" 16)) as [-> | _];
    [vm_compute in Hcode; discriminate Hcode | ].
  destruct (String.eqb_spec s (Py.repeat_char "1" 16)) as [-> | _];
    [contradiction | ].
  unfold _is_valid_province_code. rewrite Hcode.
  destruct s as [ | c0 [ | c1 [ | c2 [ | c3 [ | c4 [ | c5 [ | c6 [ | c7
    [ | c8 [ | c9 [ | c10 [ | c11 [ | c12 [ | c13 [ | c14 [ | c15 [ | c16 s]]]]]]]]]]]]]]]]];
    try discriminate Hlen.
  unfold _is_valid_nik_date.
  cbn [Py.slice Nat.sub substring Py.len String.length Nat.eqb negb] in *.
  rewrite Hdd, Hmm, Hyy.
  unfold nik_day in Hday. unfold nik_year in Hyear.
  assert (Hy : (0 ≤ yy ≤ 99)%Z).
  { cbn [Py.sforall] in Hdig. repeat (apply andb_true_iff in Hdig as [? Hdig]).
    destruct (int_two_decimals c10 c11) as (v & Hv & Hr); [assumption .. | ].
    rewrite Hv in Hyy. injection Hyy as <-. exact Hr. }
  assert (yy ≠ 50%Z) by congruence.
  destruct (Z.ltb_spec 40 dd);
    destruct (Z.leb_spec 50 yy); destruct (Z.ltb_spec 50 yy); try lia;
    repeat match goal with
    | |- context [(?x <=? ?y)%Z] => destruct (Z.leb_spec x y); try lia
    | |- context [(?x <? ?y)%Z] => destruct (Z.ltb_spec x y); try lia
    end; reflexivity.
Qed.

Lemma validate_nik_accepts_witness :
  validate_nik 2025 "3201014101900001" = valid.
Proof.
  apply (validate_nik_accepts 2025 "3201014101900001").
  - split; [reflexivity | ]. split; [reflexivity | ].
    split; [vm_compute; tauto | ].
    exists 41%Z, 1%Z, 90%Z. vm_compute. intuition congruence.
  - vm_compute. discriminate.
  - vm_compute. discriminate.
Defined.

(** X1. The two-digit year 50 is read as 2050, not 1950: a NIK of
    someone born in 1950 is refused until the year 2050. *)
Lemma validate_nik_year_fifty (current_year : Z) :
  (current_year < 2050)%Z →
  _is_valid_nik_date current_year "010150" = false
  ∧ validate_nik current_year "3201010101500001"
    = invalid "Format tanggal lahir dalam NIK tidak valid".
Proof.
  intros Hy.
  assert (Hd : _is_valid_nik_date current_year "010150" = false).
  { unfold _is_valid_nik_date.
    cbn [Py.len String.length Nat.eqb negb Py.slice Nat.sub substring].
    replace (Py.int "01") with (Some 1%Z) by (vm_compute; reflexivity).
    replace (Py.int "50") with (Some 50%Z) by (vm_compute; reflexivity).
    cbv beta iota zeta.
    replace (40 <? 1)%Z with false by reflexivity.
    replace (50 <? 50)%Z with false by reflexivity.
    cbn [Z.leb Z.compare Pos.compare Pos.compare_cont andb negb].
    replace (current_year <? 2000 + 50)%Z with true
      by (symmetry; apply Z.ltb_lt; lia).
    reflexivity. }
  split; [exact Hd | ].
  unfold validate_nik.
  replace (Py.sfilter Py.isdecimal "3201010101500001") with "3201010101500001"
    by (vm_compute; reflexivity).
  replace (Py.slice 6 12 "3201010101500001") with "010150"
    by (vm_compute; reflexivity).
  rewrite Hd. vm_compute. reflexivity.
Qed.

Lemma validate_nik_year_fifty_witness :
  validate_nik 2025 "3201010101500001"
  = invalid "Format tanggal lahir dalam NIK tidak valid".
Proof. apply (validate_nik_year_fifty 2025). lia. Defined.

End ValidateNik.

(** ** Claim C4: the retry policy of the extraction *)

Section Retry.

Variable cfg : Settings.
Variable env : AIEnv.

Lemma retry_loop_head (max_retries remaining attempt : nat) :
  ∃ log, snd (retry_loop cfg env max_retries (S remaining) attempt)
         = EvAttempt attempt :: log.
Proof.
  cbn [retry_loop].
  destruct (retry_loop cfg env max_retries remaining (S attempt)) as [r log].
  destruct (attempt_body cfg env attempt) as [d | []];
    try destruct (attempt <? max_retries - 1)%nat; eauto.
Qed.

Lemma retry_loop_attempts (max_retries remaining attempt : nat) :
  (attempts (snd (retry_loop cfg env max_retries remaining attempt)) ≤ remaining)%nat.
Proof.
  revert attempt. induction remaining as [ | remaining IH]; intros attempt.
  - simpl. unfold attempts. simpl. lia.
  - cbn [retry_loop]. specialize (IH (S attempt)).
    destruct (retry_loop cfg env max_retries remaining (S attempt)) as [r log].
    unfold attempts in *. simpl in IH.
    destruct (attempt_body cfg env attempt) as [d | []];
      try destruct (attempt <? max_retries - 1)%nat; simpl; lia.
Qed.

Lemma retry_loop_after (max_retries remaining attempt : nat) :
  attempt + remaining = max_retries →
  ∀ pre k post,
    snd (retry_loop cfg env max_retries remaining attempt)
      = (pre ++ EvAttempt k :: post)%list →
    after_attempt cfg env max_retries k
      (fst (retry_loop cfg env max_retries remaining attempt)) post.
Proof.
  revert attempt. induction remaining as [ | remaining IH];
    intros attempt Hsum pre k post Hlog.
  - simpl in Hlog. destruct pre; discriminate Hlog.
  - assert (Hnext : ∀ w log',
      (attempt <? max_retries - 1)%nat = true →
      snd (retry_loop cfg env max_retries remaining (S attempt)) = log' →
      EvAttempt attempt :: EvSleep w :: log' = (pre ++ EvAttempt k :: post)%list →
      (k = attempt ∧ ∃ post', post = EvSleep w :: EvAttempt (S k) :: post')
      ∨ after_attempt cfg env max_retries k
          (fst (retry_loop cfg env max_retries remaining (S attempt))) post).
    { intros w log' Hlt%Nat.ltb_lt Hsnd Heq.
      destruct pre as [ | ev pre].
      - left. simpl in Heq. injection Heq as <- <-. split; [reflexivity | ].
        destruct remaining as [ | remaining']; [lia | ].
        destruct (retry_loop_head max_retries remaining' (S attempt)) as [l Hl].
        rewrite Hl in Hsnd. subst log'. eauto.
      - right. simpl in Heq. injection Heq as <- Heq.
        destruct pre as [ | ev' pre]; [discriminate Heq | ].
        simpl in Heq. injection Heq as <- Heq.
        apply (IH (S attempt) ltac:(lia) pre k post). congruence. }
    cbn [retry_loop] in *.
    destruct (retry_loop cfg env max_retries remaining (S attempt))
      as [r log] eqn:Hrec.
    cbn [fst snd] in Hnext.
    assert (Hlast : ∀ (res : Res (option DocumentData)),
      [EvAttempt attempt] = (pre ++ EvAttempt k :: post)%list →
      k = attempt ∧ post = []).
    { intros _ Heq. destruct pre as [ | ev pre].
      - simpl in Heq. injection Heq as <- <-. auto.
      - simpl in Heq. injection Heq as _ Heq. destruct pre; discriminate Heq. }
    unfold after_attempt in *.
    destruct (attempt_body cfg env attempt) as [d | e] eqn:Hbody.
    + cbn [fst snd] in *. destruct (Hlast (Ok None) Hlog) as [-> ->].
      rewrite Hbody. auto.
    + destruct e;
        try (cbn [fst snd] in *; destruct (Hlast (Ok None) Hlog) as [-> ->];
             rewrite Hbody; auto; fail);
        (destruct (attempt <? max_retries - 1)%nat eqn:Hlt; cbn [fst snd] in *;
         [ destruct (Hnext _ log eq_refl eq_refl Hlog) as [[-> Hp] | Hp];
           [ rewrite Hbody, Hlt;
             try replace (2 ^ Z.of_nat attempt * 5)%Z
               with (5 * 2 ^ Z.of_nat attempt)%Z in Hp by lia;
             exact Hp
           | exact Hp ]
         | destruct (Hlast (Ok None) Hlog) as [-> ->];
           rewrite Hbody, Hlt; auto ]).
Qed.

End Retry.

(** When the last attempt is rate limited the exception that leaves
    [extract_document_data] is the [RateLimitError] itself, which is not
    an [AIProcessingError] and names no provider. *)
Lemma extract_rate_limited_to_the_end :
  extract_document_data default_settings always_rate_limited default_max_retries
  = (Raise (RateLimitError "OpenAI rate limit: 429"),
     [EvAttempt 0; EvSleep 5; EvAttempt 1; EvSleep 10; EvAttempt 2])
  ∧ is_AIProcessingError (RateLimitError "OpenAI rate limit: 429") = false.
Proof. split; vm_compute; reflexivity. Qed.

(** C4 (amended). A run of [extract_document_data] with the default
    [max_retries] makes at most 3 attempts, the first being attempt 0.
    After an attempt that succeeds the record is returned.  After an
    authentication failure the error is raised at once, with no pause
    and no further attempt.  After a rate-limit failure of attempt [k]
    the run sleeps [5 * 2^k] seconds and makes attempt [k+1], unless
    [k] was the last attempt, in which case that [RateLimitError] is
    raised.  After any other failure the run sleeps 2 seconds and makes
    the next attempt, unless it was the last, in which case an
    [AIProcessingError] carrying the active provider's name is
    raised. *)
Theorem extract_document_data_retry_policy (cfg : Settings) (env : AIEnv) :
  let run := extract_document_data cfg env default_max_retries in
  (attempts (snd run) ≤ 3)%nat
  ∧ (∃ log, snd run = EvAttempt 0 :: log)
  ∧ ∀ pre k post,
      snd run = (pre ++ EvAttempt k :: post)%list →
      after_attempt cfg env 3 k (fst run) post.
Proof.
  intros run. subst run. unfold extract_document_data, default_max_retries.
  split; [apply retry_loop_attempts | ].
  split; [apply retry_loop_head | ].
  intros pre k post. apply retry_loop_after. reflexivity.
Qed.

Lemma extract_document_data_retry_policy_witness :
  after_attempt default_settings flaky_service 3 1
    (fst (extract_document_data default_settings flaky_service default_max_retries))
    [EvSleep 10; EvAttempt 2].
Proof.
  pose proof (extract_document_data_retry_policy default_settings flaky_service)
    as (_ & _ & H).
  apply (H [EvAttempt 0; EvSleep 2] 1 [EvSleep 10; EvAttempt 2]).
  vm_compute. reflexivity.
Defined.

(** ** Normal form of a constructed record *)

Lemma lstrip_head (s : string) :
  match Py.lstrip s with
  | EmptyString => True
  | String c _ => Py.isspace c = false
  end.
Proof.
  induction s as [ | c s IH]; simpl; [exact I | ].
  destruct (Py.isspace c) eqn:Hc; [exact IH | exact Hc].
Qed.

Lemma rstrip_idem (s : string) : Py.rstrip (Py.rstrip s) = Py.rstrip s.
Proof.
  induction s as [ | c s IH]; simpl; [reflexivity | ].
  destruct (Py.rstrip s) as [ | c' r] eqn:Hr.
  - destruct (Py.isspace c) eqn:Hc; simpl; [reflexivity | ]. by rewrite Hc.
  - change (Py.rstrip (String c (String c' r)))
      with (match Py.rstrip (String c' r) with
            | EmptyString => if Py.isspace c then EmptyString else String c EmptyString
            | r0 => String c r0
            end).
    by rewrite IH.
Qed.

Lemma rstrip_keeps_head (c : ascii) (s : string) :
  Py.isspace c = false → ∃ r, Py.rstrip (String c s) = String c r.
Proof.
  intros Hc. simpl. destruct (Py.rstrip s); [rewrite Hc | ]; eauto.
Qed.

Lemma strip_idem (s : string) : Py.strip (Py.strip s) = Py.strip s.
Proof.
  unfold Py.strip.
  pose proof (lstrip_head s) as Hh.
  destruct (Py.lstrip s) as [ | c t] eqn:Hl; [reflexivity | ].
  destruct (rstrip_keeps_head c t Hh) as [r Hr]. rewrite Hr.
  assert (Hls : Py.lstrip (String c r) = String c r) by (simpl; by rewrite Hh).
  rewrite Hls, <- Hr. apply rstrip_idem.
Qed.

Lemma sfilter_idem (p : ascii → bool) (s : string) :
  Py.sfilter p (Py.sfilter p s) = Py.sfilter p s.
Proof. apply sfilter_all, sforall_sfilter. Qed.

Lemma clean_number_idem (s : string) :
  _clean_number (_clean_number s) = _clean_number s.
Proof.
  destruct s as [ | c s]; [reflexivity | ].
  unfold _clean_number at 2 3.
  destruct (Py.sfilter Py.isdecimal (String c s)) as [ | c' s'] eqn:Hf;
    [reflexivity | ].
  unfold _clean_number. rewrite <- Hf. apply sfilter_idem.
Qed.

Lemma clean_if_truthy_idem (f : string → string) (o : option string) :
  (∀ s, f (f s) = f s) →
  clean_if_truthy f (clean_if_truthy f o) = clean_if_truthy f o.
Proof.
  intros Hf. destruct o as [[ | c s] | ]; try reflexivity.
  unfold clean_if_truthy at 2. cbn [truthy_ostr option_map].
  unfold clean_if_truthy.
  destruct (truthy_ostr (Some (f (String c s)))); [ | reflexivity].
  simpl. by rewrite Hf.
Qed.

Lemma post_init_idem (d : DocumentData) :
  __post_init__ (__post_init__ d) = __post_init__ d.
Proof.
  destruct d as [ty nm al nk n15 n16 nt cs ts ai].
  unfold __post_init__. cbn [document_type nama alamat nik npwp_15 npwp_16
    npwp_type confidence_score extraction_timestamp ai_service_used].
  f_equal; try (apply clean_if_truthy_idem; auto using strip_idem, clean_number_idem).
  destruct nm as [ | c s]; [reflexivity | ].
  destruct (Py.strip (String c s)) as [ | c' s'] eqn:Hs; [reflexivity | ].
  rewrite <- Hs. apply strip_idem.
Qed.

Lemma constructed_post_init (d : DocumentData) :
  constructed d ↔ __post_init__ d = d.
Proof.
  split.
  - intros (now & ty & nm & al & nk & n15 & n16 & nt & cs & ts & ai & ->).
    apply post_init_idem.
  - intros H. destruct d as [ty nm al nk n15 n16 nt cs ts ai].
    exists 0%Z, ty, nm, al, nk, n15, n16, nt, cs, (Some ts), ai.
    symmetry. exact H.
Qed.

(** ** Claim C10: dictionary round trip *)

Section RoundTrip.

Variable isoformat : datetime → string.
Variable fromisoformat : string → option datetime.

Local Ltac lookup_to_dict :=
  unfold to_dict;
  repeat (rewrite lookup_insert_ne by discriminate);
  apply lookup_insert_eq.

Lemma to_dict_document_type d :
  to_dict isoformat d !! "document_type"
  = Some (DStr (DocumentType_value (document_type d))).
Proof. lookup_to_dict. Qed.

Lemma to_dict_nama d : to_dict isoformat d !! "nama" = Some (DStr (nama d)).
Proof. lookup_to_dict. Qed.

Lemma to_dict_alamat d :
  to_dict isoformat d !! "alamat" = Some (DictVal_of_ostr (alamat d)).
Proof. lookup_to_dict. Qed.

Lemma to_dict_nik d :
  to_dict isoformat d !! "nik" = Some (DictVal_of_ostr (nik d)).
Proof. lookup_to_dict. Qed.

Lemma to_dict_npwp_15 d :
  to_dict isoformat d !! "npwp_15" = Some (DictVal_of_ostr (npwp_15 d)).
Proof. lookup_to_dict. Qed.

Lemma to_dict_npwp_16 d :
  to_dict isoformat d !! "npwp_16" = Some (DictVal_of_ostr (npwp_16 d)).
Proof. lookup_to_dict. Qed.

Lemma to_dict_npwp_type d :
  to_dict isoformat d !! "npwp_type"
  = Some (DictVal_of_ostr (option_map NPWPType_value (npwp_type d))).
Proof. lookup_to_dict. Qed.

Lemma to_dict_confidence_score d :
  to_dict isoformat d !! "confidence_score"
  = Some (match confidence_score d with Some f => DFloat f | None => DNone end).
Proof. lookup_to_dict. Qed.

Lemma to_dict_extraction_timestamp d :
  to_dict isoformat d !! "extraction_timestamp"
  = Some (DStr (isoformat (extraction_timestamp d))).
Proof. lookup_to_dict. Qed.

Lemma to_dict_ai_service_used d :
  to_dict isoformat d !! "ai_service_used"
  = Some (DictVal_of_ostr (ai_service_used d)).
Proof. lookup_to_dict. Qed.

Lemma get_ostr_of_ostr (data : gmap string DictVal) key o :
  data !! key = Some (DictVal_of_ostr o) → get_ostr data key = Ok o.
Proof. unfold get_ostr. intros ->. by destruct o. Qed.

Lemma get_ofloat_of_ofloat (data : gmap string DictVal) key (o : option float) :
  data !! key = Some (match o with Some f => DFloat f | None => DNone end) →
  get_ofloat data key = Ok o.
Proof. unfold get_ofloat. intros ->. by destruct o. Qed.

(** Reading back what [to_dict] wrote runs the constructor on the
    fields of the record: the answer is the record normalised again. *)
Lemma from_dict_to_dict_normalises (now : datetime) (d : DocumentData) :
  fromisoformat (isoformat (extraction_timestamp d))
    = Some (extraction_timestamp d) →
  from_dict fromisoformat now (to_dict isoformat d) = Ok (__post_init__ d).
Proof.
  intros Hts. unfold from_dict.
  rewrite to_dict_document_type, to_dict_npwp_type, to_dict_extraction_timestamp,
    to_dict_nama, Hts.
  rewrite (get_ofloat_of_ofloat _ _ _ (to_dict_confidence_score d)),
    (get_ostr_of_ostr _ _ _ (to_dict_alamat d)),
    (get_ostr_of_ostr _ _ _ (to_dict_nik d)),
    (get_ostr_of_ostr _ _ _ (to_dict_npwp_15 d)),
    (get_ostr_of_ostr _ _ _ (to_dict_npwp_16 d)),
    (get_ostr_of_ostr _ _ _ (to_dict_ai_service_used d)).
  destruct d as [ty nm al nk n15 n16 nt cs ts ai].
  cbn [document_type nama alamat nik npwp_15 npwp_16
    npwp_type confidence_score extraction_timestamp ai_service_used].
  destruct ty, nt as [[] | ], cs; reflexivity.
Qed.

(** C10 (amended). For every record whose attributes hold values of
    the types that the class annotates, [from_dict (to_dict d)] answers
    the record that the constructor makes of the attributes of [d]
    (given that the time stamp survives [isoformat]/[fromisoformat], as
    Python's library promises).  That record is [d] exactly when the
    constructor leaves [d] as it is: so it is for every record as the
    constructor builds it, over every combination of populated fields,
    and so it is not for a record whose text attribute was rebound
    afterwards to a value that the constructor would change.  For an
    object whose [document_type] was rebound to a [str], [to_dict]
    raises and there is no dictionary to read back. *)
Theorem from_dict_to_dict_roundtrip (now : datetime) (d : DocumentData) :
  fromisoformat (isoformat (extraction_timestamp d))
    = Some (extraction_timestamp d) →
  from_dict fromisoformat now (to_dict isoformat d) = Ok (__post_init__ d)
  ∧ (from_dict fromisoformat now (to_dict isoformat d) = Ok d
     ↔ __post_init__ d = d)
  ∧ (constructed d → from_dict fromisoformat now (to_dict isoformat d) = Ok d)
  ∧ (∀ (name value : string) (d' : DocumentData),
       setattr_text d name value = Some d' →
       fromisoformat (isoformat (extraction_timestamp d'))
         = Some (extraction_timestamp d')
       ∧ from_dict fromisoformat now (to_dict isoformat d') = Ok (__post_init__ d'))
  ∧ (∀ document_type : string,
       object_to_dict isoformat (VDoc d) = Some (Ok (to_dict isoformat d))
       ∧ object_to_dict isoformat (VDocRetyped document_type d)
         = Some (Raise (OtherError "'str' object has no attribute 'value'"))).
Proof.
  intros Hts.
  pose proof (from_dict_to_dict_normalises now d Hts) as Hn.
  split; [exact Hn | ]. split; [ | split; [ | split]].
  - rewrite Hn. split; [by intros [= ->] | by intros ->].
  - intros Hc%constructed_post_init. by rewrite Hn, Hc.
  - intros name value d' Hset.
    assert (Hts' : fromisoformat (isoformat (extraction_timestamp d'))
                   = Some (extraction_timestamp d')).
    { destruct d as [ty nm al nk n15 n16 nt cs ts ai]. unfold setattr_text in Hset.
      repeat match type of Hset with
      | (if String.eqb name ?k then _ else _) = _ =>
          destruct (String.eqb name k)
      end; try discriminate Hset; injection Hset as <-; exact Hts. }
    split; [exact Hts' | by apply from_dict_to_dict_normalises].
  - intros document_type. split; reflexivity.
Qed.

End RoundTrip.

Lemma from_dict_to_dict_roundtrip_witness :
  from_dict Py.int 0%Z (to_dict Py.str_of_Z sample_company) = Ok sample_company
  ∧ from_dict Py.int 0%Z (to_dict Py.str_of_Z edited_ktp)
    = Ok (__post_init__ edited_ktp).
Proof.
  split.
  - apply (from_dict_to_dict_roundtrip Py.str_of_Z Py.int 0%Z sample_company).
    + vm_compute. reflexivity.
    + unfold sample_company, constructed. eauto 20.
  - apply (from_dict_to_dict_roundtrip Py.str_of_Z Py.int 0%Z edited_ktp).
    vm_compute. reflexivity.
Defined.

(** ** Claim C2: the transition table *)

Section Transitions.
Import Session.

(** A transition that the table does not list is applied all the same,
    by [UserSession.set_state] and by a handler: the new state is
    stored, nothing is reset to idle. *)
Lemma unlisted_transition_applied :
  can_transition_to (new_session 0 1) SAVING_DATA = false
  ∧ state (set_state 5 SAVING_DATA (new_session 0 1)) = SAVING_DATA
  ∧ (SELECTING_EDIT_FIELD ∉ valid_transitions AWAITING_BRANCH)
  ∧ (∃ ctx',
      _handle_edit_request default_settings 2000 stale_edit_press
        awaiting_branch_ctx = Done tt ctx'
      ∧ user_data ctx' !! "state" = Some (VStr "selecting_edit_field")).
Proof.
  split; [vm_compute; reflexivity | ].
  split; [reflexivity | ].
  split.
  - intros H%list_elem_of_In. simpl in H. intuition discriminate.
  - eexists. split; [vm_compute; reflexivity | vm_compute; reflexivity].
Qed.

Lemma get_user_session_fresh (cfg : Settings) (now : datetime) (ctx : Context) :
  _is_session_expired cfg now (user_data ctx) = Some false →
  _get_user_session cfg now ctx = Done (user_data ctx) ctx.
Proof.
  intros H. unfold _get_user_session, bind, get_user_data. by rewrite H.
Qed.

(** C2 (amended). [can_transition_to] answers true exactly for the pairs
    of the transition table and for every transition to [IDLE]; but
    neither [UserSession.set_state] nor the handlers'
    [_set_session_state] consults it: each stores whatever state is
    requested (and stamps the activity time), so no transition is
    rejected, logged or turned into a reset. *)
Theorem transition_table_not_enforced :
  (∀ (s : UserSession) (t : SessionState),
     can_transition_to s t = true ↔ t ∈ valid_transitions (state s) ∨ t = IDLE)
  ∧ (∀ (now : datetime) (s : UserSession) (t : SessionState),
       state (set_state now t s) = t
       ∧ last_activity (set_state now t s) = now)
  ∧ (∀ (cfg : Settings) (now : datetime) (ctx : Context) (t : string),
       _is_session_expired cfg now (user_data ctx) = Some false →
       _set_session_state cfg now t ctx
       = Done tt {| user_data :=
                      <["last_activity" := VTime now]>
                        (<["state" := VStr t]> (user_data ctx));
                    outbox := outbox ctx |}).
Proof.
  split; [ | split].
  - intros s t. unfold can_transition_to.
    rewrite orb_true_iff, !bool_decide_eq_true. reflexivity.
  - intros now s t. split; reflexivity.
  - intros cfg now ctx t Hfresh.
    unfold _set_session_state, bind.
    rewrite (get_user_session_fresh _ _ _ Hfresh). reflexivity.
Qed.

Lemma transition_table_not_enforced_witness :
  _set_session_state default_settings 2000 "saving_data" awaiting_branch_ctx
  = Done tt {| user_data :=
                 <["last_activity" := VTime 2000]>
                   (<["state" := VStr "saving_data"]>
                      (user_data awaiting_branch_ctx));
               outbox := [] |}.
Proof.
  pose proof transition_table_not_enforced as (_ & _ & H).
  apply (H default_settings 2000%Z awaiting_branch_ctx "saving_data").
  vm_compute. reflexivity.
Defined.

End Transitions.

(** ** Claim C6: idle expiry and the activity time stamp *)

Section Expiry.
Import Session.

Variable cfg : Settings.
Variable now : datetime.

(** C6 (amended). A session idle for longer than the configured timeout
    is replaced at its next access: [SessionManager.get_session] stores
    and answers a fresh session (state [IDLE], no record, no extracted
    data, stamped [now]), and the handlers' [_get_user_session] empties
    [user_data] and raises [SessionExpiredError]; the former state and
    record are gone in both.  An operation on a session leaves
    [last_activity] as it is ([clear_workflow_data]) or overwrites it
    with the reading of the clock, whatever the stamp was: the stamp
    does not decrease exactly when the clock is not read earlier than
    the stamp.  The handlers do the same: on a live session
    [_set_session_data] stores the reading of the clock as the stamp. *)
Theorem idle_session_replaced :
  (∀ (sessions : gmap Z UserSession) (uid : Z) (s : UserSession),
     sessions !! uid = Some s →
     (session_timeout cfg < now - last_activity s)%Z →
     get_session cfg now uid sessions
       = (<[uid := new_session now uid]> sessions, new_session now uid)
     ∧ state (new_session now uid) = IDLE
     ∧ document_data (new_session now uid) = None
     ∧ extracted_data (new_session now uid) = ∅
     ∧ last_activity (new_session now uid) = now)
  ∧ (∀ (ctx : Context) (t : datetime),
       user_data ctx !! "last_activity" = Some (VTime t) →
       (session_timeout cfg < now - t)%Z →
       _get_user_session cfg now ctx
         = Raised SessionExpiredError {| user_data := ∅; outbox := outbox ctx |})
  ∧ (∀ (op : Operation) (s : UserSession),
       last_activity (perform now op s)
       = if stamps op then now else last_activity s)
  ∧ (∀ (op : Operation) (s : UserSession),
       (last_activity s ≤ last_activity (perform now op s))%Z
       ↔ stamps op = false ∨ (last_activity s ≤ now)%Z)
  ∧ (∀ (ctx : Context) (key : string) (v : Value),
       _is_session_expired cfg now (user_data ctx) = Some false →
       ∃ ctx',
         _set_session_data cfg now key v ctx = Done tt ctx'
         ∧ user_data ctx' !! "last_activity" = Some (VTime now)).
Proof.
  split; [ | split; [ | split; [ | split]]].
  - intros sessions uid s Hs Hidle.
    split; [ | repeat split].
    unfold get_session. rewrite Hs. cbv zeta. rewrite Hs. cbn [default].
    unfold is_expired, id. by rewrite (proj2 (Z.ltb_lt _ _) Hidle).
  - intros ctx t Ht Hidle.
    unfold _get_user_session, bind, get_user_data, _is_session_expired.
    rewrite Ht.
    destruct (bool_decide (user_data ctx = ∅)) eqn:Hempty.
    + apply bool_decide_eq_true in Hempty. rewrite Hempty in Ht.
      rewrite lookup_empty in Ht. discriminate Ht.
    + by rewrite (proj2 (Z.ltb_lt _ _) Hidle).
  - intros op s. by destruct op.
  - intros op s. destruct op; cbn; split; try (intros; lia);
      try (intros [H | H]; [discriminate H | exact H]); try (by right);
      by left.
  - intros ctx key v Hlive. eexists. split.
    + unfold _set_session_data, bind.
      rewrite (get_user_session_fresh _ _ _ Hlive). reflexivity.
    + cbn. apply lookup_insert_eq.
Qed.

End Expiry.

Lemma idle_session_replaced_witness :
  Session.get_session default_settings 1800001001 42 (<[42%Z := stale_session]> ∅)
  = (<[42%Z := Session.new_session 1800001001 42]> (<[42%Z := stale_session]> ∅),
     Session.new_session 1800001001 42)
  ∧ Session.last_activity
      (Session.perform 2000 (Session.SetState Session.AWAITING_EDIT_INPUT)
         stale_session) = 2000%Z
  ∧ (Session.last_activity stale_session
     ≤ Session.last_activity
         (Session.perform 2000 Session.IncrementErrorCount stale_session))%Z.
Proof.
  pose proof (idle_session_replaced default_settings 1800001001%Z) as (Ha & _).
  pose proof (idle_session_replaced default_settings 2000%Z) as (_ & _ & Hc & Hd & _).
  split; [ | split].
  - apply (Ha (<[42%Z := stale_session]> ∅) 42%Z stale_session).
    + apply lookup_insert_eq.
    + vm_compute. reflexivity.
  - apply (Hc (Session.SetState Session.AWAITING_EDIT_INPUT) stale_session).
  - apply (Hd Session.IncrementErrorCount stale_session). right.
    vm_compute. discriminate.
Defined.

(** The stamp goes back when the clock does: [datetime.now()] is the
    wall clock, and neither [update_activity] nor the handlers compare
    its reading with the stamp they overwrite. *)
Lemma last_activity_steps_back :
  Session.last_activity stale_session = 1000%Z
  ∧ Session.last_activity (Session.update_activity 400 stale_session) = 400%Z
  ∧ user_data awaiting_branch_ctx !! "last_activity" = Some (VTime 1000)
  ∧ ∃ ctx',
      _set_session_data default_settings 400 "nama_toko" (VStr "Toko Jaya")
        awaiting_branch_ctx = Done tt ctx'
      ∧ user_data ctx' !! "last_activity" = Some (VTime 400).
Proof.
  split; [reflexivity | ]. split; [reflexivity | ]. split; [reflexivity | ].
  eexists. split; vm_compute; reflexivity.
Qed.

(** ** Claims C1 and C5: the commit *)

Section Commit.

Variable cfg : Settings.
Variable env : GoogleEnv.

Lemma init_step (st : GState) :
  initialised st = true ∨ initialize_error env = None →
  (if initialised st then Done tt st else initialize env st) = Done tt (ready st)
  ∨ (if initialised st then Done tt st else initialize env st) = Done tt st
    ∧ st = ready st.
Proof.
  intros [Hi | He].
  - right. rewrite Hi. split; [reflexivity | ].
    destruct st as [i c e]. simpl in Hi. subst i. reflexivity.
  - destruct (initialised st) eqn:Hi.
    + right. split; [reflexivity | ].
      destruct st as [i c e]. simpl in Hi. subst i. reflexivity.
    + left. unfold initialize. rewrite He. reflexivity.
Qed.

(** Up to the duplicate check a committable session runs without
    raising; what follows is the rest of the [try] block. *)
Lemma save_body_committable user_data st d branch sheet_name nama_toko bypass :
  committable cfg env user_data st d branch sheet_name nama_toko →
  save_body cfg env user_data bypass st
  = bind (if bypass then ret false else _check_for_duplicates env sheet_name d)
      (λ is_duplicate,
         if is_duplicate then ret DuplicateFound
         else
           bind (_save_to_spreadsheet env d sheet_name nama_toko) (λ _,
           bind (match user_data !! "file_id" with
                 | None | Some VNone => ret ""
                 | Some (VStr s) => ret s
                 | Some _ => untyped
                 end) (λ file_id,
           bind (match file_id with
                 | EmptyString => ret tt
                 | _ => bind (_upload_file_to_drive cfg env file_id d branch)
                          (λ _, ret tt)
                 end) (λ _, ret Success))))
      (ready st).
Proof.
  intros [Hinit Hdoc Hbranch Hnamed Hvalid Hsheet Htoko].
  unfold save_body, mbind, Prog_bind.
  unfold bind at 1.
  assert (Hne : String.eqb branch "" = false) by by apply String.eqb_neq.
  destruct (init_step st Hinit) as [-> | [-> Hst]].
  - unfold bind at 1. rewrite Hdoc. unfold ret at 1.
    unfold bind at 1. rewrite Hbranch, Hne, Hvalid. cbn [negb andb]. unfold ret at 1.
    unfold bind at 1. rewrite Hsheet. unfold ret at 1.
    unfold bind at 1. rewrite Htoko. unfold ret at 1.
    reflexivity.
  - rewrite <- Hst.
    unfold bind at 1. rewrite Hdoc. unfold ret at 1.
    unfold bind at 1. rewrite Hbranch, Hne, Hvalid. cbn [negb andb]. unfold ret at 1.
    unfold bind at 1. rewrite Hsheet. unfold ret at 1.
    unfold bind at 1. rewrite Htoko. unfold ret at 1.
    reflexivity.
Qed.

Lemma truthy_ostr_some (o : option string) (tok : string) :
  o = Some tok → tok ≠ "" → truthy_ostr o = true ∧ or_empty o = tok.
Proof. intros -> Hne. destruct tok; [contradiction | auto]. Qed.

(** The values looked up are exactly the duplicate tokens. *)
Lemma duplicate_token_checked (d : DocumentData) (tok : string) :
  duplicate_token d tok ↔ In tok (get_duplicate_check_values d).
Proof.
  unfold duplicate_token, get_duplicate_check_values.
  rewrite !in_app_iff. split.
  - intros [Hne [H | [H | H]]].
    + destruct (truthy_ostr_some _ _ H Hne) as [-> ->]. left. left. reflexivity.
    + destruct (truthy_ostr_some _ _ H Hne) as [-> ->]. right. left. left. reflexivity.
    + right. right. rewrite H. destruct tok; [contradiction | left; reflexivity].
  - intros [H | [H | H]].
    + destruct (npwp_15 d) as [[ | c s] | ]; simpl in H; try contradiction.
      destruct H as [<- | []]. split; [discriminate | auto].
    + destruct (primary_id d) as [[ | c s] | ]; simpl in H; try contradiction.
      destruct H as [<- | []]. split; [discriminate | auto].
    + destruct (id_tku d) as [ | c s]; simpl in H; try contradiction.
      destruct H as [<- | []]. split; [discriminate | auto].
Qed.

Lemma row_matches_stored (check_values : list string) (tok cell : string)
    (rest : list string) :
  In tok check_values → cell ≠ "" → Py.strip cell = tok →
  row_matches check_values (cell :: rest) = true.
Proof.
  intros Hin Hne <-. unfold row_matches.
  apply andb_true_iff. split.
  - apply negb_true_iff. by apply String.eqb_neq.
  - by apply str_in_In.
Qed.

Lemma check_for_duplicates_found sheet_name d tok value_ranges st :
  In tok (get_duplicate_check_values d) →
  batchGet env sheet_name = Returns value_ranges →
  stored tok value_ranges →
  _check_for_duplicates env sheet_name d st = Done true st.
Proof.
  intros Hin Hget (column & cell & rest & Hcol & Hrow & Hne & Hstrip).
  unfold _check_for_duplicates.
  destruct (get_duplicate_check_values d) as [ | v vs] eqn:Hv; [contradiction | ].
  rewrite Hget. unfold ret. f_equal.
  apply existsb_exists. exists column. split; [exact Hcol | ].
  apply existsb_exists. exists (cell :: rest). split; [exact Hrow | ].
  by apply (row_matches_stored _ tok).
Qed.

Lemma check_for_duplicates_raises sheet_name d st e st' :
  _check_for_duplicates env sheet_name d st = Raised e st' →
  is_GoogleServiceError e ∧ st' = st.
Proof.
  unfold _check_for_duplicates.
  destruct (get_duplicate_check_values d); [discriminate | ].
  destruct (batchGet env sheet_name) as [vr | status msg | msg]; try discriminate.
  destruct (Nat.eqb status 404); intros [= <- <-]; split; eexists; eauto.
Qed.

Lemma save_to_spreadsheet_raises d sheet_name nama_toko st e st' :
  _save_to_spreadsheet env d sheet_name nama_toko st = Raised e st' →
  is_GoogleServiceError e ∧ st' = st.
Proof.
  unfold _save_to_spreadsheet.
  destruct (append env sheet_name _) as [u | status msg | msg]; try discriminate.
  - destruct (Nat.eqb status 404); [ | destruct (Nat.eqb status 403)];
      intros [= <- <-]; split; eexists; eauto.
  - intros [= <- <-]; split; eexists; eauto.
Qed.

Lemma save_to_spreadsheet_done d sheet_name nama_toko st st' :
  _save_to_spreadsheet env d sheet_name nama_toko st = Done tt st' →
  effects st' = (effects st ++ [RowAppended sheet_name (to_sheet_row d nama_toko)])%list
  ∧ initialised st' = initialised st ∧ _folder_cache st' = _folder_cache st.
Proof.
  unfold _save_to_spreadsheet.
  destruct (append env sheet_name _) as [u | status msg | msg]; try discriminate.
  - intros [= <-]. auto.
  - destruct (Nat.eqb status 404); [ | destruct (Nat.eqb status 403)]; discriminate.
Qed.

Lemma find_or_create_subfolder_effects parent name st r :
  _find_or_create_subfolder env parent name st = r →
  match r with
  | Done _ st' | Raised _ st' =>
      ∃ more, effects st' = (effects st ++ more)%list
  | Untyped => False
  end.
Proof.
  intros <-. unfold _find_or_create_subfolder.
  destruct (_folder_cache st !! _).
  { exists []. by rewrite app_nil_r. }
  destruct (list_folders env parent name) as [[ | f fs] | status msg | msg].
  - destruct (create_folder env parent name) as [f | status msg | msg]; cbn.
    + eexists. reflexivity.
    + exists []. by rewrite app_nil_r.
    + exists []. by rewrite app_nil_r.
  - exists []. cbn. by rewrite app_nil_r.
  - exists []. by rewrite app_nil_r.
  - exists []. by rewrite app_nil_r.
Qed.

Lemma find_or_create_subfolder_raises parent name st e st' :
  _find_or_create_subfolder env parent name st = Raised e st' →
  is_GoogleServiceError e.
Proof.
  unfold _find_or_create_subfolder.
  destruct (_folder_cache st !! _); [discriminate | ].
  destruct (list_folders env parent name) as [[ | f fs] | status msg | msg];
    try discriminate.
  - destruct (create_folder env parent name) as [f | status msg | msg];
      cbn; try discriminate; intros [= <- _]; eexists; eauto.
  - intros [= <- _]; eexists; eauto.
  - intros [= <- _]; eexists; eauto.
Qed.

(** The upload step keeps what was logged before it, raises nothing but
    [GoogleServiceError], and logs the uploaded file when it returns. *)
Lemma upload_file_to_drive_effects file_id d branch st r :
  _upload_file_to_drive cfg env file_id d branch st = r →
  match r with
  | Done drive_file_id st' =>
      (∀ x, In x (effects st) → In x (effects st'))
      ∧ ∃ folder_id filename,
          In (FileUploaded folder_id filename drive_file_id) (effects st')
  | Raised e st' =>
      (∀ x, In x (effects st) → In x (effects st')) ∧ is_GoogleServiceError e
  | Untyped => False
  end.
Proof.
  intros <-. unfold _upload_file_to_drive.
  destruct (download_error env file_id) as [msg | ].
  { cbn. split; [auto | eexists; eauto]. }
  destruct (FOLDER_MAP cfg !! branch) as [parent | ].
  2:{ cbn. split; [auto | eexists; eauto]. }
  unfold bind at 1, catch.
  pose proof (find_or_create_subfolder_effects parent "Sudah diinput" st _ eq_refl)
    as Hf.
  destruct (_find_or_create_subfolder env parent "Sudah diinput" st)
    as [folder st1 | e st1 | ]; [ | | contradiction];
    destruct Hf as (more & Heff).
  - assert (Hkeep : ∀ x, In x (effects st) → In x (effects st1)).
    { rewrite Heff. intros x Hx. rewrite in_app_iff. auto. }
    destruct (create_file env folder _) as [fid | status msg | msg]; cbn.
    + unfold mbind, Prog_bind, bind, perform_effect, ret. cbn [effects].
      split.
      * intros x Hx. rewrite in_app_iff. auto.
      * eexists _, _. rewrite in_app_iff. right. left. reflexivity.
    + destruct (Nat.eqb status 403); [ | destruct (Nat.eqb status 404)]; cbn;
        (split; [exact Hkeep | eexists; eauto]).
    + split; [exact Hkeep | eexists; eauto].
  - cbn. rewrite Heff. split; [intros x Hx; rewrite in_app_iff; auto | ].
    eexists; eauto.
Qed.



Lemma save_photo_and_data_record user_data bypass d :
  user_data !! "document_data" = Some (VDoc d) →
  save_photo_and_data cfg env user_data bypass
  = catch (save_body cfg env user_data bypass)
      (λ e, match e with
            | DuplicateDataError _ => ret DuplicateFound
            | _ => ret (Error (exn_str e))
            end).
Proof. intros H. unfold save_photo_and_data. by rewrite H. Qed.

Lemma catch_google_error (body : Prog GState SaveResult) st e st' :
  body st = Raised e st' → is_GoogleServiceError e →
  catch body
    (λ e, match e with
          | DuplicateDataError _ => ret DuplicateFound
          | _ => ret (Error (exn_str e))
          end) st
  = Done (Error (exn_str e)) st'.
Proof. intros Hb [m ->]. unfold catch. rewrite Hb. reflexivity. Qed.



(** C5 (amended). For a session ready to be saved: a duplicate lookup
    that raises makes [save_photo_and_data] answer [Error] with the
    text of the exception, nothing appended and nothing uploaded; the
    lookup raises when the Sheets API answers an [HttpError], while any
    other failure of the lookup is taken as "no duplicate" and the
    commit goes on.  An append that raises gives [Error] with its text,
    nothing appended and no upload.  An upload that raises gives [Error]
    with its text, and the row appended before it stays in the sheet. *)
Theorem commit_step_failures
    (user_data : gmap string Value) (st : GState) (d : DocumentData)
    (branch sheet_name nama_toko : string) :
  committable cfg env user_data st d branch sheet_name nama_toko →
  let row := to_sheet_row d nama_toko in
  let no_duplicate (bypass : bool) :=
    bypass = true
    ∨ _check_for_duplicates env sheet_name d (ready st) = Done false (ready st) in
  (∀ e st1,
     _check_for_duplicates env sheet_name d (ready st) = Raised e st1 →
     save_photo_and_data cfg env user_data false st
       = Done (Error (exn_str e)) (ready st))
  ∧ (∀ status text,
       get_duplicate_check_values d ≠ [] →
       batchGet env sheet_name = HttpError status text →
       ∃ message,
         _check_for_duplicates env sheet_name d (ready st)
           = Raised (GoogleServiceError message) (ready st))
  ∧ (∀ text,
       batchGet env sheet_name = Fails text →
       _check_for_duplicates env sheet_name d (ready st) = Done false (ready st))
  ∧ (∀ bypass e st1,
       no_duplicate bypass →
       _save_to_spreadsheet env d sheet_name nama_toko (ready st) = Raised e st1 →
       save_photo_and_data cfg env user_data bypass st
         = Done (Error (exn_str e)) (ready st))
  ∧ (append env sheet_name row ≠ Returns tt →
     ∃ message,
       _save_to_spreadsheet env d sheet_name nama_toko (ready st)
         = Raised (GoogleServiceError message) (ready st))
  ∧ (∀ file_id text st1,
       download_error env file_id = Some text →
       _upload_file_to_drive cfg env file_id d branch st1
         = Raised (GoogleServiceError ("Error uploading to Drive: " +:+ text)) st1)
  ∧ (∀ bypass file_id e st2,
       no_duplicate bypass →
       append env sheet_name row = Returns tt →
       user_data !! "file_id" = Some (VStr file_id) → file_id ≠ "" →
       _upload_file_to_drive cfg env file_id d branch (appended sheet_name row st)
         = Raised e st2 →
       save_photo_and_data cfg env user_data bypass st
         = Done (Error (exn_str e)) st2
       ∧ In (RowAppended sheet_name row) (effects st2)).
Proof.
  intros Hc row no_duplicate.
  assert (Hcheck : ∀ bypass, no_duplicate bypass →
    (if bypass then ret false else _check_for_duplicates env sheet_name d) (ready st)
    = Done false (ready st)).
  { intros [ | ] [Hb | Hb]; try discriminate Hb; auto. }
  split; [ | split; [ | split; [ | split; [ | split; [ | split]]]]].
  - intros e st1 Hraise.
    destruct (check_for_duplicates_raises _ _ _ _ _ Hraise) as [He ->].
    rewrite (save_photo_and_data_record _ _ _ (commit_doc _ _ _ _ _ _ _ _ Hc)). apply catch_google_error; [ | exact He].
    rewrite (save_body_committable _ _ _ _ _ _ _ Hc).
    unfold bind. by rewrite Hraise.
  - intros status text Hvals Hget. unfold _check_for_duplicates.
    destruct (get_duplicate_check_values d); [contradiction | ].
    rewrite Hget. destruct (Nat.eqb status 404); eexists; reflexivity.
  - intros text Hget. unfold _check_for_duplicates.
    destruct (get_duplicate_check_values d); [reflexivity | ].
    by rewrite Hget.
  - intros bypass e st1 Hnd Hraise.
    destruct (save_to_spreadsheet_raises _ _ _ _ _ _ Hraise) as [He ->].
    rewrite (save_photo_and_data_record _ _ _ (commit_doc _ _ _ _ _ _ _ _ Hc)). apply catch_google_error; [ | exact He].
    rewrite (save_body_committable _ _ _ _ _ _ _ Hc).
    unfold bind at 1. rewrite (Hcheck _ Hnd).
    unfold bind. by rewrite Hraise.
  - intros Hfail. unfold _save_to_spreadsheet. fold row.
    destruct (append env sheet_name row) as [[] | status text | text];
      [contradiction | | eexists; reflexivity].
    destruct (Nat.eqb status 404); [ | destruct (Nat.eqb status 403)];
      eexists; reflexivity.
  - intros file_id text st1 Hdown. unfold _upload_file_to_drive.
    by rewrite Hdown.
  - intros bypass file_id e st2 Hnd Happend Hfile Hne Hraise.
    pose proof (upload_file_to_drive_effects _ _ _ _ _ Hraise) as [Hkeep He].
    split.
    + rewrite (save_photo_and_data_record _ _ _ (commit_doc _ _ _ _ _ _ _ _ Hc)). apply catch_google_error; [ | exact He].
      rewrite (save_body_committable _ _ _ _ _ _ _ Hc).
      unfold bind at 1. rewrite (Hcheck _ Hnd).
      unfold bind at 1. unfold _save_to_spreadsheet. fold row. rewrite Happend.
      unfold perform_effect. cbn [ready initialised _folder_cache effects].
      fold (appended sheet_name row st).
      unfold bind at 1. rewrite Hfile. unfold ret at 1.
      destruct file_id as [ | c f]; [contradiction | ].
      unfold bind. rewrite Hraise. reflexivity.
    + apply Hkeep. unfold appended. cbn [effects].
      apply in_or_app. right. left. reflexivity.
Qed.

End Commit.

(** *** A concrete store *)



(** The failed lookup does not stop the commit: the row is appended and
    the file uploaded. *)
Lemma lookup_failure_lets_commit_through :
  save_photo_and_data default_settings store_lookup_down sample_user_data false
    new_GoogleService
  = Done Success
      {| initialised := true;
         _folder_cache :=
           <["1B8-vxVXYjcG5m7aqnqFHjuShphvfjMo4:Sudah diinput" := "folder-1"]> ∅;
         effects :=
           [ RowAppended "NPWPKTP BJ (NEW)" (to_sheet_row sample_ktp "Toko Jaya");
             FileUploaded "folder-1" "Budi - KTP.jpg" "file-1" ] |}.
Proof. vm_compute. reflexivity. Qed.

Lemma commit_step_failures_witness :
  ∃ st2,
    save_photo_and_data default_settings store_upload_denied sample_user_data
      false new_GoogleService
    = Done (Error "[GOOGLE_ERROR] Permission denied - check Google Drive access") st2
    ∧ In (RowAppended "NPWPKTP BJ (NEW)" (to_sheet_row sample_ktp "Toko Jaya"))
        (effects st2).
Proof.
  assert (Hc : committable default_settings store_upload_denied sample_user_data
                 new_GoogleService sample_ktp "BJ" "NPWPKTP BJ (NEW)" "Toko Jaya").
  { split; try (vm_compute; reflexivity); [right; reflexivity | discriminate]. }
  pose proof (commit_step_failures default_settings store_upload_denied
                sample_user_data new_GoogleService sample_ktp "BJ"
                "NPWPKTP BJ (NEW)" "Toko Jaya" Hc) as (_ & _ & _ & _ & _ & _ & H).
  eexists.
  apply (H false "AgACAgUAAxkBAAIB"
           (GoogleServiceError "Permission denied - check Google Drive access")).
  - right. vm_compute. reflexivity.
  - reflexivity.
  - reflexivity.
  - discriminate.
  - vm_compute. reflexivity.
Defined.

(** ** Claim C7: editing a field *)

Section EditFlow.

Variable cfg : Settings.
Variable now : datetime.
Variable current_year : Z.

Hypothesis timeout_not_negative : (0 ≤ SESSION_TIMEOUT_MINUTES cfg)%Z.

Lemma stamped_fresh (ud : gmap string Value) :
  ud !! "last_activity" = Some (VTime now) →
  _is_session_expired cfg now ud = Some false.
Proof using timeout_not_negative.
  intros H. unfold _is_session_expired. rewrite H.
  destruct (bool_decide (ud = ∅)); [reflexivity | ].
  f_equal. apply Z.ltb_ge. unfold session_timeout. lia.
Qed.

Lemma get_session_data_fresh (key : string) (ctx : Context) :
  _is_session_expired cfg now (user_data ctx) = Some false →
  _get_session_data cfg now key ctx = Done (user_data ctx !! key) ctx.
Proof.
  intros H. unfold _get_session_data, bind.
  by rewrite (get_user_session_fresh _ _ _ H).
Qed.

Lemma set_session_data_fresh (key : string) (v : Value) (ctx : Context) :
  _is_session_expired cfg now (user_data ctx) = Some false →
  _set_session_data cfg now key v ctx
  = Done tt {| user_data :=
                 <["last_activity" := VTime now]> (<[key := v]> (user_data ctx));
               outbox := outbox ctx |}.
Proof.
  intros H. unfold _set_session_data, bind.
  by rewrite (get_user_session_fresh _ _ _ H).
Qed.

Lemma set_session_state_fresh (t : string) (ctx : Context) :
  _is_session_expired cfg now (user_data ctx) = Some false →
  _set_session_state cfg now t ctx
  = Done tt {| user_data :=
                 <["last_activity" := VTime now]> (<["state" := VStr t]> (user_data ctx));
               outbox := outbox ctx |}.
Proof.
  intros H. unfold _set_session_state, bind.
  by rewrite (get_user_session_fresh _ _ _ H).
Qed.













End EditFlow.

(** *** A concrete edit *)



(** ** Claim C8: what a constructed record guarantees *)

(** The constructor takes a three-digit NIK as it is, and the parser
    builds an identity-card record with no NIK at all. *)
Lemma constructor_keeps_short_number :
  let d := new_DocumentData 0 KTP "Budi" None (Some "1-2-3") None None None
             None None None in
  nik d = Some "123" ∧ record_invariant d = false
  ∧ ∃ d',
      _parse_ai_response 0
        (<["document_type" := JStr "KTP"]>
         (<["nama" := JStr "Budi"]> (<["nik" := JNull]> ∅))) = Ok d'
      ∧ record_invariant d' = false.
Proof.
  split; [reflexivity | ]. split; [reflexivity | ].
  eexists. split; vm_compute; reflexivity.
Qed.

Lemma clean_if_truthy_digits (o : option string) :
  digits_only (clean_if_truthy _clean_number o) = true.
Proof.
  destruct o as [[ | c s] | ]; try reflexivity.
  unfold clean_if_truthy, _clean_number. cbn [truthy_ostr option_map digits_only].
  apply sforall_sfilter.
Qed.

Lemma clean_if_truthy_at_most (n : nat) (o : option string) :
  at_most n o = true → at_most n (clean_if_truthy _clean_number o) = true.
Proof.
  destruct o as [[ | c s] | ]; try (intros; assumption).
  unfold clean_if_truthy, _clean_number. cbn [truthy_ostr option_map at_most].
  intros H%Nat.leb_le. apply Nat.leb_le.
  pose proof (len_sfilter_le Py.isdecimal (String c s)). lia.
Qed.

Lemma len_drop_one (s : string) :
  Py.len (Py.drop_chars 1 s) = pred (Py.len s).
Proof. destruct s; reflexivity. Qed.

Lemma clean_and_validate_number_len (v : RawValue) (n : nat) :
  n = 15 ∨ n = 16 → at_most n (_clean_and_validate_number v n) = true.
Proof.
  intros Hn. unfold _clean_and_validate_number.
  destruct (raw_truthy v); [ | reflexivity]. cbn [negb].
  destruct (digits_of v) as [ | c s] eqn:Hd; [reflexivity | ].
  rewrite <- Hd. clear Hd.
  destruct Hn as [-> | ->]; cbn [Nat.eqb].
  - destruct (Nat.eqb_spec (Py.len (digits_of v)) 15) as [E | _].
    + cbn [at_most]. rewrite E. reflexivity.
    + destruct (Nat.eqb_spec (Py.len (digits_of v)) 16) as [E | _]; [ | reflexivity].
      destruct (Py.startswith "0" (digits_of v)); [ | reflexivity].
      cbn [andb at_most]. rewrite len_drop_one, E. reflexivity.
  - destruct (Nat.eqb_spec (Py.len (digits_of v)) 16) as [E | _].
    + cbn [at_most]. rewrite E. reflexivity.
    + destruct (Nat.eqb_spec (Py.len (digits_of v)) 15) as [E | _]; [ | reflexivity].
      cbn [at_most]. change (Py.len ("0" +:+ digits_of v)) with (S (Py.len (digits_of v))).
      rewrite E. reflexivity.
Qed.

Lemma post_init_digits (raw : DocumentData) :
  digits_only (nik (__post_init__ raw)) = true
  ∧ digits_only (npwp_15 (__post_init__ raw)) = true
  ∧ digits_only (npwp_16 (__post_init__ raw)) = true.
Proof. repeat split; apply clean_if_truthy_digits. Qed.

Lemma wrap_parse_error_ok {A} (r : Res A) (a : A) :
  wrap_parse_error r = Ok a → r = Ok a.
Proof.
  destruct r as [a' | e]; [auto | ].
  unfold wrap_parse_error. destruct (is_AIProcessingError e); discriminate.
Qed.

(** What the parser hands to the constructor. *)
Lemma parse_ai_response_fields (now : datetime)
    (raw_data : gmap string RawValue) (d : DocumentData) :
  _parse_ai_response now raw_data = Ok d →
  ∃ ty nm al,
    d = new_DocumentData now ty nm al
          (if DocumentType_eqb ty KTP
           then _clean_and_validate_number (default JNull (raw_data !! "nik")) 16
           else None)
          (if DocumentType_eqb ty NPWP
           then _clean_and_validate_number (default JNull (raw_data !! "npwp_15")) 15
           else None)
          (if DocumentType_eqb ty NPWP
           then _clean_and_validate_number (default JNull (raw_data !! "npwp_16")) 16
           else None)
          None None None None.
Proof.
  intros H%wrap_parse_error_ok.
  destruct (raw_data !! "document_type") as [dt | ]; [ | discriminate H].
  destruct (raw_data !! "nama") as [nm | ]; [ | discriminate H].
  destruct dt as [ | b | z | s]; try discriminate H.
  cbn in H.
  destruct (DocumentType_of_value (Py.strip (Py.upper s))) as [ty | ];
    [ | discriminate H].
  cbn in H.
  destruct nm as [ | b | z | n]; try discriminate H.
  cbn in H.
  destruct (raw_truthy (default JNull (raw_data !! "alamat")));
    [destruct (default JNull (raw_data !! "alamat")) as [ | b | z | a];
       try discriminate H | ];
    cbn in H;
    (destruct (Py.strip n) as [ | c n'] eqn:Hn; [discriminate H | ]);
    injection H as <-; eauto.
Qed.

(** C8 (amended). Every record that the constructor builds has numeric
    fields ([nik], [npwp_15], [npwp_16]) made of decimal digits only;
    the constructor checks neither their length nor which of them go
    with the document type.  A record that the extraction parser builds
    is such a record and, besides, carries a [nik] of at most 16 digits
    and no NPWP number when it is a KTP, and an [npwp_15] of at most 15
    digits, an [npwp_16] of at most 16 digits and no [nik] when it is an
    NPWP; either group may be empty. *)
Theorem constructed_record_digits :
  (∀ d : DocumentData,
     constructed d →
     digits_only (nik d) = true ∧ digits_only (npwp_15 d) = true
     ∧ digits_only (npwp_16 d) = true)
  ∧ (∀ (now : datetime) (raw_data : gmap string RawValue) (d : DocumentData),
       _parse_ai_response now raw_data = Ok d →
       constructed d
       ∧ match document_type d with
         | KTP =>
             at_most 16 (nik d) = true ∧ npwp_15 d = None ∧ npwp_16 d = None
         | NPWP =>
             nik d = None ∧ at_most 15 (npwp_15 d) = true
             ∧ at_most 16 (npwp_16 d) = true
         end).
Proof.
  split.
  - intros d Hd%constructed_post_init. rewrite <- Hd. apply post_init_digits.
  - intros now raw_data d (ty & nm & al & ->)%parse_ai_response_fields.
    split; [unfold constructed; eauto 20 | ].
    unfold new_DocumentData, __post_init__.
    cbn [document_type nik npwp_15 npwp_16].
    destruct ty; cbn [DocumentType_eqb].
    + split; [ | split; reflexivity].
      apply clean_if_truthy_at_most, clean_and_validate_number_len. auto.
    + split; [reflexivity | ].
      split; apply clean_if_truthy_at_most, clean_and_validate_number_len; auto.
Qed.

Lemma constructed_record_digits_witness :
  digits_only (npwp_15 sample_company) = true
  ∧ at_most 16 (nik (new_DocumentData 2 KTP "Budi" None
                       (Some "3201010101900001") None None None None None None))
    = true.
Proof.
  destruct constructed_record_digits as [Hc Hp].
  split.
  - apply (Hc sample_company). unfold sample_company, constructed. eauto 20.
  - destruct (Hp 2%Z
                (<["document_type" := JStr "ktp"]>
                 (<["nama" := JStr " Budi "]>
                 (<["nik" := JStr "3201010101900001"]> ∅)))
                (new_DocumentData 2 KTP "Budi" None
                   (Some "3201010101900001") None None None None None None))
      as (_ & Hk & _).
    + vm_compute. reflexivity.
    + exact Hk.
Defined.

(** ** Serialising an edited record *)

(** The record left in the session by the edit of [edit_message] does
    not survive the round trip: [from_dict] runs the constructor, which
    strips the spaces that the edit stored. *)
Lemma roundtrip_after_edit_differs :
  (∃ ctx',
     handle_text_message default_settings 2000 2025 edit_message edit_ctx
       = Done tt ctx'
     ∧ user_data ctx' !! "document_data" = Some (VDoc edited_ktp))
  ∧ Py.int (Py.str_of_Z (extraction_timestamp edited_ktp))
    = Some (extraction_timestamp edited_ktp)
  ∧ ∃ d,
      from_dict Py.int 0 (to_dict Py.str_of_Z edited_ktp) = Ok d
      ∧ nik d = Some "3201010101900002"
      ∧ d ≠ edited_ktp.
Proof.
  split; [ | split; [vm_compute; reflexivity | ]].
  - eexists. split; vm_compute; reflexivity.
  - eexists. split; [vm_compute; reflexivity | ].
    split; [reflexivity | ]. discriminate.
Qed.

(** * Further properties of the code *)

(** ** The field validators *)

Section Validators.
Import DocumentValidator.

Lemma match_n_digits_decimal (n : nat) (s : string) :
  Py.len s = n → match_n_digits n s = true → Py.sforall Py.isdecimal s = true.
Proof.
  intros <- H. unfold match_n_digits, Py.slice, Py.len in H.
  rewrite Nat.sub_0_r, substring_whole in H.
  apply andb_true_iff in H as [H _]. apply andb_true_iff in H as [H _]. exact H.
Qed.

(** A verdict of [validate_nik] that is positive is [valid]. *)
Lemma validate_nik_true (current_year : Z) (nik : string) :
  fst (validate_nik current_year nik) = true → validate_nik current_year nik = valid.
Proof.
  unfold validate_nik. destruct nik as [ | c s]; [discriminate | ]. cbv zeta.
  repeat match goal with
  | |- context [if ?b then _ else _] => destruct b
  end; first [discriminate | reflexivity].
Qed.

Lemma validate_npwp_true (n : nat) (npwp : string) :
  fst (validate_npwp n npwp) = true → validate_npwp n npwp = valid.
Proof.
  unfold validate_npwp. destruct npwp as [ | c s]; [discriminate | ]. cbv zeta.
  repeat match goal with
  | |- context [if ?b then _ else _] => destruct b
  end; first [discriminate | reflexivity].
Qed.

(** What an accepted NIK looks like, test by test. *)
Lemma validate_nik_valid (current_year : Z) (nik : string) :
  validate_nik current_year nik = valid →
  let clean_nik := Py.sfilter Py.isdecimal nik in
  Py.len clean_nik = 16
  ∧ clean_nik ≠ all_zeros ∧ clean_nik ≠ all_ones
  ∧ _is_valid_province_code (Py.slice 0 2 clean_nik) = true
  ∧ _is_valid_nik_date current_year (Py.slice 6 12 clean_nik) = true.
Proof.
  unfold validate_nik. destruct nik as [ | c s]; [discriminate | ]. cbv zeta.
  destruct (Nat.eqb_spec (Py.len (Py.sfilter Py.isdecimal (String c s))) 16)
    as [Hlen | ]; [ | discriminate]. cbn [negb].
  destruct (match_n_digits 16 _); [ | discriminate]. cbn [negb].
  destruct (String.eqb_spec (Py.sfilter Py.isdecimal (String c s))
              (Py.repeat_char "0" 16)) as [ | Hz]; [discriminate | ].
  destruct (String.eqb_spec (Py.sfilter Py.isdecimal (String c s))
              (Py.repeat_char "1" 16)) as [ | Ho]; [discriminate | ].
  destruct (_is_valid_province_code _); [ | discriminate]. cbn [negb].
  destruct (_is_valid_nik_date _ _); [ | discriminate].
  auto.
Qed.

(** X2. Whatever [validate_nik] accepts has, once the non-digits are
    removed, exactly 16 digits that are neither all zeros nor all ones,
    a listed region code in front, and at positions 7-12 a day (less 40
    when above 40) from 1 to 31, a month from 1 to 12 and a two-digit
    year that the code's century rule (above 50: 19YY, otherwise 20YY)
    places between 1900 and the current year. *)
Theorem validate_nik_sound (current_year : Z) (nik : string) :
  validate_nik current_year nik = valid →
  let clean_nik := Py.sfilter Py.isdecimal nik in
  Py.len clean_nik = 16
  ∧ clean_nik ≠ all_zeros ∧ clean_nik ≠ all_ones
  ∧ In (Py.slice 0 2 clean_nik) valid_codes
  ∧ ∃ dd mm yy : Z,
      Py.int (Py.slice 6 8 clean_nik) = Some dd
      ∧ Py.int (Py.slice 8 10 clean_nik) = Some mm
      ∧ Py.int (Py.slice 10 12 clean_nik) = Some yy
      ∧ (1 ≤ nik_day dd ≤ 31)%Z ∧ (1 ≤ mm ≤ 12)%Z
      ∧ (1900 ≤ nik_full_year yy ≤ current_year)%Z.
Proof.
  intros (Hlen & Hz & Ho & Hcode & Hdate)%validate_nik_valid. cbv zeta.
  remember (Py.sfilter Py.isdecimal nik) as s eqn:Hs. clear Hs.
  do 3 (split; [assumption | ]).
  split; [by apply str_in_In | ].
  destruct s as [ | c0 [ | c1 [ | c2 [ | c3 [ | c4 [ | c5 [ | c6 [ | c7
    [ | c8 [ | c9 [ | c10 [ | c11 [ | c12 [ | c13 [ | c14 [ | c15 [ | c16 s]]]]]]]]]]]]]]]]];
    try discriminate Hlen.
  unfold _is_valid_nik_date in Hdate.
  cbn [Py.slice Nat.sub substring Py.len String.length Nat.eqb negb] in *.
  destruct (Py.int (String c6 (String c7 ""))) as [dd | ]; [ | discriminate Hdate].
  destruct (Py.int (String c8 (String c9 ""))) as [mm | ]; [ | discriminate Hdate].
  destruct (Py.int (String c10 (String c11 ""))) as [yy | ]; [ | discriminate Hdate].
  exists dd, mm, yy. do 3 (split; [reflexivity | ]).
  unfold nik_day, nik_full_year. cbv zeta in Hdate.
  destruct (40 <? dd)%Z;
    repeat match type of Hdate with
    | context [(?x <=? ?y)%Z] => destruct (Z.leb_spec x y)
    | context [(?x <? ?y)%Z] => destruct (Z.ltb_spec x y)
    end; cbn in Hdate; try discriminate Hdate; lia.
Qed.

Lemma validate_nik_sound_witness :
  Py.len (Py.sfilter Py.isdecimal "3201 0141 0190 0001") = 16
  ∧ In (Py.slice 0 2 (Py.sfilter Py.isdecimal "3201 0141 0190 0001")) valid_codes.
Proof.
  pose proof (validate_nik_sound 2025 "3201 0141 0190 0001") as H.
  cbv zeta in H. destruct H as (H1 & _ & _ & H2 & _).
  - vm_compute. reflexivity.
  - split; [exact H1 | exact H2].
Defined.

Lemma formatting_not_decimal (c : ascii) :
  is_npwp_formatting c = true → Py.isdecimal c = false.
Proof. destruct c as [[] [] [] [] [] [] [] []]; vm_compute; congruence. Qed.

Lemma decimal_not_formatting (c : ascii) :
  Py.isdecimal c = true → is_npwp_formatting c = false.
Proof.
  intros H. destruct (is_npwp_formatting c) eqn:Hf; [ | reflexivity].
  rewrite (formatting_not_decimal c Hf) in H. discriminate H.
Qed.

(** Once the separators are gone and only digits are left, removing
    the non-digits gives the same string. *)
Lemma sfilter_decimal_unformatted (s : string) :
  Py.sforall Py.isdecimal (Py.sfilter (λ c, negb (is_npwp_formatting c)) s) = true →
  Py.sfilter Py.isdecimal s = Py.sfilter (λ c, negb (is_npwp_formatting c)) s.
Proof.
  induction s as [ | c s IH]; simpl; [reflexivity | ].
  destruct (is_npwp_formatting c) eqn:Hf; cbn [negb].
  - rewrite (formatting_not_decimal _ Hf). exact IH.
  - simpl. intros [Hc Hs]%andb_true_iff. rewrite Hc. f_equal. auto.
Qed.

Lemma validate_npwp_valid (n : nat) (npwp : string) :
  validate_npwp n npwp = valid ↔
  Py.len (Py.sfilter (λ c, negb (is_npwp_formatting c)) npwp) = n
  ∧ Py.sforall Py.isdecimal (Py.sfilter (λ c, negb (is_npwp_formatting c)) npwp) = true
  ∧ Py.sfilter (λ c, negb (is_npwp_formatting c)) npwp ≠ Py.repeat_char "0" n.
Proof.
  unfold validate_npwp. destruct npwp as [ | c s].
  { split; [discriminate | ]. simpl. intros (<- & _ & H). by destruct H. }
  cbv zeta.
  remember (Py.sfilter (λ c, negb (is_npwp_formatting c)) (String c s)) as clean.
  destruct (Nat.eqb_spec (Py.len clean) n) as [Hlen | Hlen]; cbn [negb];
    [ | split; [discriminate | tauto]].
  destruct (match_n_digits n clean) eqn:Hm; cbn [negb].
  - pose proof (match_n_digits_decimal n clean Hlen Hm) as Hd.
    destruct (String.eqb_spec clean (Py.repeat_char "0" n)) as [Hz | Hz];
      [split; [discriminate | tauto] | tauto].
  - split; [discriminate | ]. intros (_ & Hd & _).
    rewrite (match_n_digits_exact n clean Hlen Hd) in Hm. discriminate Hm.
Qed.

(** X3. [validate_npwp_15] ([n = 15]) and [validate_npwp_16] ([n = 16])
    accept a text exactly when, with dots, dashes and white space
    removed, it consists of [n] decimal digits that are not all zero;
    and what they accept is turned by the record's [_clean_number] into
    those [n] digits. *)
Theorem validate_npwp_accepts_iff (n : nat) (npwp : string) :
  let clean_npwp := Py.sfilter (λ c, negb (is_npwp_formatting c)) npwp in
  (validate_npwp n npwp = valid ↔
     Py.len clean_npwp = n ∧ Py.sforall Py.isdecimal clean_npwp = true
     ∧ clean_npwp ≠ Py.repeat_char "0" n)
  ∧ (validate_npwp n npwp = valid →
     _clean_number npwp = clean_npwp ∧ Py.len (_clean_number npwp) = n).
Proof.
  cbv zeta. split; [apply validate_npwp_valid | ].
  intros (Hlen & Hd & _)%validate_npwp_valid.
  assert (_clean_number npwp = Py.sfilter (λ c, negb (is_npwp_formatting c)) npwp)
    as ->; [ | auto].
  destruct npwp as [ | c s]; [reflexivity | ].
  unfold _clean_number. by apply sfilter_decimal_unformatted.
Qed.

Lemma validate_npwp_accepts_iff_witness :
  _clean_number "86.655.529.5-602.000" = "866555295602000".
Proof.
  destruct (validate_npwp_accepts_iff 15 "86.655.529.5-602.000") as [_ H].
  destruct H as [H _]; [vm_compute; reflexivity | ].
  rewrite H. vm_compute. reflexivity.
Defined.

Lemma sforall_lstrip (p : ascii → bool) (s : string) :
  Py.sforall p s = true → Py.sforall p (Py.lstrip s) = true.
Proof.
  induction s as [ | c s IH]; simpl; [auto | ].
  intros [Hc Hs]%andb_true_iff.
  destruct (Py.isspace c); [auto | ]. simpl. by rewrite Hc, Hs.
Qed.

Lemma sforall_rstrip (p : ascii → bool) (s : string) :
  Py.sforall p s = true → Py.sforall p (Py.rstrip s) = true.
Proof.
  induction s as [ | c s IH]; simpl; [auto | ].
  intros [Hc Hs]%andb_true_iff. specialize (IH Hs).
  destruct (Py.rstrip s) as [ | c' r].
  - destruct (Py.isspace c); simpl; [reflexivity | by rewrite Hc].
  - change (p c && Py.sforall p (String c' r) = true). by rewrite Hc, IH.
Qed.

Lemma sforall_strip (p : ascii → bool) (s : string) :
  Py.sforall p s = true → Py.sforall p (Py.strip s) = true.
Proof. intros H. unfold Py.strip. by apply sforall_rstrip, sforall_lstrip. Qed.

(** X4. [validate_nama] and [validate_alamat] judge the text without its
    surrounding white space: a text and its stripped form get the same
    verdict.  An accepted name has 2 to 100 characters once stripped and
    an accepted address 10 to 500; and a text made only of digits and
    of characters that are neither letters, digits nor the underscore
    is never accepted as a name. *)
Theorem validate_nama_alamat_bounds (text : string) :
  validate_nama (Py.strip text) = validate_nama text
  ∧ validate_alamat (Py.strip text) = validate_alamat text
  ∧ (fst (validate_nama text) = true →
     (2 ≤ Py.len (Py.strip text) ≤ 100)%nat)
  ∧ (fst (validate_alamat text) = true →
     (10 ≤ Py.len (Py.strip text) ≤ 500)%nat)
  ∧ (Py.sforall digit_or_symbol text = true → fst (validate_nama text) = false).
Proof.
  split; [unfold validate_nama; by rewrite strip_idem | ].
  split; [unfold validate_alamat; by rewrite strip_idem | ].
  split; [ | split].
  - unfold validate_nama. destruct (Py.strip text) as [ | c s]; [discriminate | ].
    destruct (Nat.ltb_spec (Py.len (String c s)) 2); [discriminate | ].
    destruct (Nat.ltb_spec 100 (Py.len (String c s))); [discriminate | ]. lia.
  - unfold validate_alamat. destruct (Py.strip text) as [ | c s]; [discriminate | ].
    destruct (Nat.ltb_spec (Py.len (String c s)) 10); [discriminate | ].
    destruct (Nat.ltb_spec 500 (Py.len (String c s))); [discriminate | ]. lia.
  - intros H%sforall_strip. unfold validate_nama.
    destruct (Py.strip text) as [ | c s]; [reflexivity | ].
    destruct (Py.len (String c s) <? 2)%nat; [reflexivity | ].
    destruct (100 <? Py.len (String c s))%nat; [reflexivity | ].
    unfold digit_or_symbol in H. rewrite H. reflexivity.
Qed.

End Validators.

(** ** The displayed numbers *)

Section Formats.
Import DocumentValidator.

Lemma validate_npwp_same_digits (n : nat) (a b : string) :
  a ≠ "" → b ≠ "" →
  Py.sfilter (λ c, negb (is_npwp_formatting c)) a
  = Py.sfilter (λ c, negb (is_npwp_formatting c)) b →
  validate_npwp n a = validate_npwp n b.
Proof.
  intros Ha Hb H. unfold validate_npwp.
  destruct a; [contradiction | ]. destruct b; [contradiction | ].
  cbv zeta. by rewrite H.
Qed.

Lemma validate_nik_same_digits (current_year : Z) (a b : string) :
  a ≠ "" → b ≠ "" →
  Py.sfilter Py.isdecimal a = Py.sfilter Py.isdecimal b →
  validate_nik current_year a = validate_nik current_year b.
Proof.
  intros Ha Hb H. unfold validate_nik.
  destruct a; [contradiction | ]. destruct b; [contradiction | ].
  cbv zeta. by rewrite H.
Qed.

Local Ltac decimal_chars H :=
  cbn [Py.sforall] in H; repeat (apply andb_true_iff in H as [? H]).

Lemma sfilter_keep (p : ascii → bool) (c : ascii) (s : string) :
  p c = true → Py.sfilter p (String c s) = String c (Py.sfilter p s).
Proof. intros H. simpl. by rewrite H. Qed.

Lemma sfilter_drop (p : ascii → bool) (c : ascii) (s : string) :
  p c = false → Py.sfilter p (String c s) = Py.sfilter p s.
Proof. intros H. simpl. by rewrite H. Qed.

Local Ltac keep_decimals :=
  cbv [Py.slice Nat.sub substring String.append];
  repeat first
    [ rewrite sfilter_keep
        by (cbv beta;
            first [ assumption
                  | by rewrite decimal_not_formatting by assumption ])
    | rewrite sfilter_drop by reflexivity ].

(** The dotted form of 15 digits holds those digits and separators. *)
Lemma format_npwp_15_digits (s : string) :
  Py.sforall Py.isdecimal s = true →
  Py.sfilter Py.isdecimal (format_npwp_15 s) = s
  ∧ Py.sfilter (λ c, negb (is_npwp_formatting c)) (format_npwp_15 s) = s
  ∧ (s ≠ "" → format_npwp_15 s ≠ "").
Proof.
  intros Hd. unfold format_npwp_15.
  destruct (String.eqb_spec s "") as [-> | Hne]; [by cbn | ]. cbn [orb].
  destruct (Nat.eqb_spec (Py.len s) 15) as [Hlen | Hlen]; cbn [negb].
  2:{ split; [by apply sfilter_all | ]. split; [ | auto].
      apply sfilter_all. revert Hd. apply sforall_weaken.
      intros c Hc. by rewrite (decimal_not_formatting c Hc). }
  destruct s as [ | c0 [ | c1 [ | c2 [ | c3 [ | c4 [ | c5 [ | c6 [ | c7
    [ | c8 [ | c9 [ | c10 [ | c11 [ | c12 [ | c13 [ | c14 [ | c15 s]]]]]]]]]]]]]]]];
    try discriminate Hlen.
  decimal_chars Hd.
  split; [keep_decimals; reflexivity | ].
  split; [keep_decimals; reflexivity | discriminate].
Qed.

(** The spaced form of 16 digits holds those digits and spaces. *)
Lemma format_id_16_digit_digits (s : string) :
  Py.sforall Py.isdecimal s = true →
  Py.sfilter Py.isdecimal (format_id_16_digit s) = s
  ∧ Py.sfilter (λ c, negb (is_npwp_formatting c)) (format_id_16_digit s) = s
  ∧ (s ≠ "" → format_id_16_digit s ≠ "").
Proof.
  intros Hd. unfold format_id_16_digit.
  destruct (String.eqb_spec s "") as [-> | Hne]; [by cbn | ]. cbn [orb].
  destruct (Nat.eqb_spec (Py.len s) 16) as [Hlen | Hlen]; cbn [negb].
  2:{ split; [by apply sfilter_all | ]. split; [ | auto].
      apply sfilter_all. revert Hd. apply sforall_weaken.
      intros c Hc. by rewrite (decimal_not_formatting c Hc). }
  destruct s as [ | c0 [ | c1 [ | c2 [ | c3 [ | c4 [ | c5 [ | c6 [ | c7
    [ | c8 [ | c9 [ | c10 [ | c11 [ | c12 [ | c13 [ | c14 [ | c15 [ | c16 s]]]]]]]]]]]]]]]]];
    try discriminate Hlen.
  decimal_chars Hd.
  split; [keep_decimals; reflexivity | ].
  split; [keep_decimals; reflexivity | discriminate].
Qed.

Lemma digits_only_or_empty (o : option string) :
  digits_only o = true → Py.sforall Py.isdecimal (or_empty o) = true.
Proof. destruct o as [[ | c s] | ]; auto. Qed.

Lemma clean_number_formatted (f : string → string) (s : string) :
  Py.sfilter Py.isdecimal (f s) = s → (s ≠ "" → f s ≠ "") →
  _clean_number (f s) = s.
Proof.
  intros Hf Hne. unfold _clean_number.
  destruct (f s) as [ | c r] eqn:E; [ | exact Hf].
  destruct s; [reflexivity | ]. by destruct Hne.
Qed.

(** X5. The record's [formatted_npwp_15] and [formatted_primary_id] are
    the texts that [DataService.format_npwp_15] and [format_id_16_digit]
    show in the preview.  When the number consists of digits, as the
    constructor leaves it, the displayed form reads back: the record's
    [_clean_number] recovers the number from it, and [validate_npwp_15],
    [validate_npwp_16] and [validate_nik] give the displayed form the
    verdict they give the number. *)
Theorem formatted_numbers_read_back (d : DocumentData) :
  formatted_npwp_15 d = format_npwp_15 (or_empty (npwp_15 d))
  ∧ formatted_primary_id d = format_id_16_digit (or_empty (primary_id d))
  ∧ (digits_only (npwp_15 d) = true →
     _clean_number (formatted_npwp_15 d) = or_empty (npwp_15 d)
     ∧ validate_npwp_15 (formatted_npwp_15 d)
       = validate_npwp_15 (or_empty (npwp_15 d)))
  ∧ (digits_only (primary_id d) = true →
     _clean_number (formatted_primary_id d) = or_empty (primary_id d)
     ∧ validate_npwp_16 (formatted_primary_id d)
       = validate_npwp_16 (or_empty (primary_id d))
     ∧ ∀ current_year,
         validate_nik current_year (formatted_primary_id d)
         = validate_nik current_year (or_empty (primary_id d))).
Proof.
  assert (H15 : formatted_npwp_15 d = format_npwp_15 (or_empty (npwp_15 d))).
  { unfold formatted_npwp_15, format_npwp_15.
    destruct (npwp_15 d) as [[ | c s] | ]; reflexivity. }
  assert (H16 : formatted_primary_id d = format_id_16_digit (or_empty (primary_id d))).
  { unfold formatted_primary_id, format_id_16_digit. cbv zeta.
    destruct (primary_id d) as [[ | c s] | ]; reflexivity. }
  split; [exact H15 | ]. split; [exact H16 | ].
  rewrite H15, H16. split.
  - intros Hd%digits_only_or_empty.
    destruct (format_npwp_15_digits _ Hd) as (Hdec & Hfmt & Hne).
    split; [by apply clean_number_formatted | ].
    destruct (String.eqb_spec (or_empty (npwp_15 d)) "") as [-> | Hs];
      [reflexivity | ].
    apply validate_npwp_same_digits; [auto | auto | ].
    rewrite Hfmt. symmetry. apply sfilter_all. revert Hd. apply sforall_weaken.
    intros c Hc. by rewrite (decimal_not_formatting c Hc).
  - intros Hd%digits_only_or_empty.
    destruct (format_id_16_digit_digits _ Hd) as (Hdec & Hfmt & Hne).
    split; [by apply clean_number_formatted | ].
    destruct (String.eqb_spec (or_empty (primary_id d)) "") as [-> | Hs];
      [split; [reflexivity | intros; reflexivity] | ].
    split.
    + apply validate_npwp_same_digits; [auto | auto | ].
      rewrite Hfmt. symmetry. apply sfilter_all. revert Hd. apply sforall_weaken.
      intros c Hc. by rewrite (decimal_not_formatting c Hc).
    + intros current_year. apply validate_nik_same_digits; [auto | auto | ].
      rewrite Hdec. symmetry. by apply sfilter_all.
Qed.

Lemma formatted_numbers_read_back_witness :
  formatted_npwp_15 sample_company = "86.655.529.5-602.000"
  ∧ _clean_number (formatted_npwp_15 sample_company) = "866555295602000"
  ∧ formatted_primary_id sample_company = "0866 5552 9560 2000".
Proof.
  destruct (formatted_numbers_read_back sample_company) as (H1 & H2 & H3 & _).
  split; [rewrite H1; vm_compute; reflexivity | ].
  split; [ | rewrite H2; vm_compute; reflexivity].
  destruct H3 as [H _]; [vm_compute; reflexivity | ].
  rewrite H. vm_compute. reflexivity.
Defined.

End Formats.

(** ** The extraction parser *)

Section Parser.
Import DocumentValidator.

(** What a successful parse read from the answer. *)
Lemma parse_ai_response_ok (now : datetime)
    (raw_data : gmap string RawValue) (d : DocumentData) :
  _parse_ai_response now raw_data = Ok d →
  ∃ dt ty nm al,
    raw_data !! "document_type" = Some (JStr dt)
    ∧ DocumentType_of_value (Py.strip (Py.upper dt)) = Some ty
    ∧ raw_data !! "nama" = Some (JStr nm) ∧ Py.strip nm ≠ ""
    ∧ alamat_readable raw_data
    ∧ d = new_DocumentData now ty (Py.strip nm) al
          (if DocumentType_eqb ty KTP
           then _clean_and_validate_number (default JNull (raw_data !! "nik")) 16
           else None)
          (if DocumentType_eqb ty NPWP
           then _clean_and_validate_number (default JNull (raw_data !! "npwp_15")) 15
           else None)
          (if DocumentType_eqb ty NPWP
           then _clean_and_validate_number (default JNull (raw_data !! "npwp_16")) 16
           else None)
          None None None None.
Proof.
  intros H%wrap_parse_error_ok. unfold alamat_readable.
  destruct (raw_data !! "document_type") as [dt | ]; [ | discriminate H].
  destruct (raw_data !! "nama") as [nm | ]; [ | discriminate H].
  destruct dt as [ | b | z | s]; try discriminate H.
  cbn in H.
  destruct (DocumentType_of_value (Py.strip (Py.upper s))) as [ty | ] eqn:Hty;
    [ | discriminate H].
  cbn in H.
  destruct nm as [ | b | z | n]; try discriminate H.
  cbn in H.
  assert (Hal : ∃ al,
    (if raw_truthy (default JNull (raw_data !! "alamat"))
     then match default JNull (raw_data !! "alamat") with
          | JStr s0 => Ok (Some (Py.strip s0))
          | v => Raise (attribute_error v "strip")
          end
     else Ok None) = Ok al
    ∧ match default JNull (raw_data !! "alamat") with
      | JStr _ => True
      | v => raw_truthy v = false
      end).
  { destruct (default JNull (raw_data !! "alamat")) as [ | [ | ] | z | a];
      cbn in H |- *; try discriminate H; eauto.
    - destruct (negb (z =? 0)%Z); [discriminate H | eauto].
    - destruct a; eauto. }
  destruct Hal as (al & Hal & Hread). rewrite Hal in H. cbn in H.
  destruct (Py.strip n) as [ | c n'] eqn:Hn; [discriminate H | ].
  injection H as <-.
  exists s, ty, n, al. rewrite Hn.
  split; [reflexivity | ]. split; [exact Hty | ]. split; [reflexivity | ].
  split; [discriminate | ]. split; [exact Hread | reflexivity].
Qed.

(** X6. [_parse_ai_response] answers a record exactly when the decoded
    answer has a string [document_type] reading, in upper case and
    stripped, as KTP or NPWP, a string [nama] that is not blank, and an
    [alamat] that is absent, falsy or a string; no value of [nik],
    [npwp_15] or [npwp_16] makes it fail.  When it fails, the exception
    is an [AIProcessingError], whatever went wrong inside. *)
Theorem parse_ai_response_succeeds_iff (now : datetime)
    (raw_data : gmap string RawValue) :
  ((∃ d, _parse_ai_response now raw_data = Ok d) ↔
     ∃ dt nm,
       raw_data !! "document_type" = Some (JStr dt)
       ∧ is_Some (DocumentType_of_value (Py.strip (Py.upper dt)))
       ∧ raw_data !! "nama" = Some (JStr nm) ∧ Py.strip nm ≠ ""
       ∧ alamat_readable raw_data)
  ∧ (∀ e, _parse_ai_response now raw_data = Raise e →
          is_AIProcessingError e = true).
Proof.
  split; [split | ].
  - intros [d (dt & ty & nm & al & H1 & H2 & H3 & H4 & H5 & _)%parse_ai_response_ok].
    exists dt, nm. rewrite H2. eauto 10.
  - intros (dt & nm & Hdt & [ty Hty] & Hnm & Hne & Hal).
    unfold _parse_ai_response. rewrite Hdt, Hnm. cbn. rewrite Hty. cbn.
    unfold alamat_readable in Hal.
    destruct (Py.strip nm) as [ | c n] eqn:Hn; [contradiction | ].
    destruct (default JNull (raw_data !! "alamat")) as [ | b | z | a] eqn:Ha;
      cbn in Hal |- *; try rewrite Hal; cbn; eauto.
    destruct a; cbn; eauto.
  - intros e. unfold _parse_ai_response, wrap_parse_error.
    match goal with
    | |- context [match ?r with Ok _ => _ | Raise _ => _ end] =>
        destruct r as [d | e']
    end; [discriminate | ].
    destruct (is_AIProcessingError e') eqn:He; intros [= <-]; auto.
Qed.

(** X7. A record that [_parse_ai_response] built has a name that is not
    blank and carries no surrounding white space, so
    [validate_completeness] never reports the name: its answer is empty
    when the record carries the number of its document type ([nik] for
    a KTP, [npwp_15] for an NPWP), and is the one message about that
    number otherwise. *)
Theorem parsed_record_completeness (now : datetime)
    (raw_data : gmap string RawValue) (d : DocumentData) :
  _parse_ai_response now raw_data = Ok d →
  nama d ≠ "" ∧ Py.strip (nama d) = nama d
  ∧ validate_completeness d
    = match document_type d with
      | KTP =>
          if truthy_ostr (nik d) then [] else ["NIK diperlukan untuk KTP"]
      | NPWP =>
          if truthy_ostr (npwp_15 d) then []
          else ["NPWP 15 digit diperlukan untuk NPWP"]
      end.
Proof.
  intros (dt & ty & nm & al & _ & _ & _ & Hne & _ & ->)%parse_ai_response_ok.
  assert (Hnama : nama (new_DocumentData now ty (Py.strip nm) al
            (if DocumentType_eqb ty KTP
             then _clean_and_validate_number (default JNull (raw_data !! "nik")) 16
             else None)
            (if DocumentType_eqb ty NPWP
             then _clean_and_validate_number (default JNull (raw_data !! "npwp_15")) 15
             else None)
            (if DocumentType_eqb ty NPWP
             then _clean_and_validate_number (default JNull (raw_data !! "npwp_16")) 16
             else None)
            None None None None) = Py.strip nm).
  { unfold new_DocumentData, __post_init__. cbn [nama].
    destruct (Py.strip nm) as [ | c s] eqn:Hs; [reflexivity | ].
    rewrite <- Hs. apply strip_idem. }
  unfold validate_completeness. rewrite Hnama.
  split; [exact Hne | ]. split; [apply strip_idem | ].
  rewrite strip_idem.
  destruct (String.eqb_spec (Py.strip nm) "") as [E | _]; [contradiction | ].
  cbn [orb app].
  match goal with
  | |- context [document_type ?r] => destruct (document_type r)
  end; match goal with
  | |- context [truthy_ostr ?o] => destruct (truthy_ostr o)
  end; reflexivity.
Qed.

Lemma parsed_record_completeness_witness :
  validate_completeness
    (new_DocumentData 2 KTP "Budi" None None None None None None None None)
  = ["NIK diperlukan untuk KTP"].
Proof.
  destruct (parsed_record_completeness 2%Z
              (<["document_type" := JStr "ktp"]>
               (<["nama" := JStr " Budi "]> (<["nik" := JStr "n/a"]> ∅)))
              (new_DocumentData 2 KTP "Budi" None None None None None None None None))
    as (_ & _ & H).
  - vm_compute. reflexivity.
  - exact H.
Defined.

Lemma report_nil (label : string) (v : Verdict) :
  (if fst v then [] else [label +:+ ": " +:+ default "None" (snd v)]) = @nil string →
  fst v = true.
Proof. destruct (fst v); [reflexivity | discriminate]. Qed.

Lemma digits_unformatted (s : string) :
  Py.sforall Py.isdecimal s = true →
  Py.sfilter (λ c, negb (is_npwp_formatting c)) s = s.
Proof.
  intros H. apply sfilter_all. revert H. apply sforall_weaken.
  intros c Hc. by rewrite (decimal_not_formatting c Hc).
Qed.

Lemma fixed_digits_validated_nik (current_year : Z) (o : option string) :
  digits_only o = true →
  fst (validate_nik current_year (or_empty o)) = true →
  fixed_digits 16 o = true ∧ truthy_ostr o = true.
Proof.
  intros Hd (Hlen & _)%validate_nik_true%validate_nik_valid. cbv zeta in Hlen.
  rewrite (sfilter_all _ _ (digits_only_or_empty _ Hd)) in Hlen.
  destruct o as [[ | c s] | ]; try discriminate Hlen.
  cbn [fixed_digits digits_only or_empty] in *.
  by rewrite Hd, Hlen.
Qed.

Lemma fixed_digits_validated_npwp (n : nat) (o : option string) :
  n ≠ 0 → digits_only o = true →
  fst (validate_npwp n (or_empty o)) = true →
  fixed_digits n o = true ∧ truthy_ostr o = true.
Proof.
  intros Hn Hd (Hlen & _)%validate_npwp_true%validate_npwp_valid.
  rewrite (digits_unformatted _ (digits_only_or_empty _ Hd)) in Hlen.
  destruct o as [[ | c s] | ]; cbn in Hlen; try congruence.
  cbn [fixed_digits digits_only or_empty] in *.
  rewrite Hd. unfold Py.len. cbn [String.length]. rewrite Hlen, Nat.eqb_refl. auto.
Qed.

(** X8. Take a record that [_parse_ai_response] built and on which
    [_validate_extracted_data] reports nothing.  If it is a KTP, its
    [nik] is a string of exactly 16 digits and it has no NPWP number;
    if it is an NPWP, its [npwp_15] is a string of exactly 15 digits, it
    has no [nik], and its [npwp_16] is empty or a string of exactly 16
    digits. *)
Theorem validated_extraction_numbers (now : datetime) (current_year : Z)
    (raw_data : gmap string RawValue) (d : DocumentData) :
  _parse_ai_response now raw_data = Ok d →
  _validate_extracted_data current_year d = [] →
  match document_type d with
  | KTP =>
      fixed_digits 16 (nik d) = true ∧ truthy_ostr (nik d) = true
      ∧ npwp_15 d = None ∧ npwp_16 d = None
  | NPWP =>
      fixed_digits 15 (npwp_15 d) = true ∧ truthy_ostr (npwp_15 d) = true
      ∧ nik d = None
      ∧ (truthy_ostr (npwp_16 d) = true → fixed_digits 16 (npwp_16 d) = true)
  end.
Proof.
  intros (dt & ty & nm & al & _ & _ & _ & _ & _ & ->)%parse_ai_response_ok.
  match goal with
  | |- context [_validate_extracted_data _ ?r] => set (d := r)
  end.
  destruct (post_init_digits
              (mkDocumentData ty (Py.strip nm) al
                 (if DocumentType_eqb ty KTP
                  then _clean_and_validate_number (default JNull (raw_data !! "nik")) 16
                  else None)
                 (if DocumentType_eqb ty NPWP
                  then _clean_and_validate_number (default JNull (raw_data !! "npwp_15")) 15
                  else None)
                 (if DocumentType_eqb ty NPWP
                  then _clean_and_validate_number (default JNull (raw_data !! "npwp_16")) 16
                  else None)
                 None None (default now None) None))
    as (Hnik & H15 & H16).
  fold (new_DocumentData now ty (Py.strip nm) al
          (if DocumentType_eqb ty KTP
           then _clean_and_validate_number (default JNull (raw_data !! "nik")) 16
           else None)
          (if DocumentType_eqb ty NPWP
           then _clean_and_validate_number (default JNull (raw_data !! "npwp_15")) 15
           else None)
          (if DocumentType_eqb ty NPWP
           then _clean_and_validate_number (default JNull (raw_data !! "npwp_16")) 16
           else None)
          None None None None) in Hnik, H15, H16.
  fold d in Hnik, H15, H16.
  assert (Hty : document_type d = ty) by reflexivity.
  unfold _validate_extracted_data. cbv zeta. rewrite Hty.
  set (data := <["document_type" := _]> _).
  assert (Lalamat : data !! "alamat" = Some (alamat d))
    by (subst data; repeat (rewrite lookup_insert_ne by discriminate);
        apply lookup_insert_eq).
  assert (Lnik : data !! "nik" = Some (nik d))
    by (subst data; repeat (rewrite lookup_insert_ne by discriminate);
        apply lookup_insert_eq).
  assert (L15 : data !! "npwp_15" = Some (npwp_15 d))
    by (subst data; repeat (rewrite lookup_insert_ne by discriminate);
        apply lookup_insert_eq).
  assert (L16 : data !! "npwp_16" = Some (npwp_16 d))
    by (subst data; repeat (rewrite lookup_insert_ne by discriminate);
        apply lookup_insert_eq).
  clearbody data. unfold validate_document_data. cbv zeta.
  rewrite Lalamat, Lnik, L15, L16. cbn [default]. unfold id.
  destruct ty; cbn [DocumentType_value Py.str_in existsb String.eqb Ascii.eqb
                    Bool.eqb negb orb andb DocumentType_eqb app].
  - intros H. apply app_eq_nil in H as [H _].
    apply app_eq_nil in H as [_ H]. apply app_eq_nil in H as [_ H].
    apply report_nil in H.
    destruct (fixed_digits_validated_nik _ _ Hnik H) as [Hf Ht].
    repeat split; auto.
  - intros H. apply app_eq_nil in H as [H _].
    apply app_eq_nil in H as [_ H]. apply app_eq_nil in H as [_ H].
    apply app_eq_nil in H as [Ha Hb].
    apply report_nil in Ha.
    destruct (fixed_digits_validated_npwp 15 _ ltac:(lia) H15 Ha) as [Hf Ht].
    split; [exact Hf | ]. split; [exact Ht | ]. split; [reflexivity | ].
    intros Ht16. rewrite Ht16 in Hb. apply report_nil in Hb.
    by destruct (fixed_digits_validated_npwp 16 _ ltac:(lia) H16 Hb).
Qed.

Lemma validated_extraction_numbers_witness :
  fixed_digits 16
    (nik (new_DocumentData 2 KTP "Budi Santoso" None (Some "3201010101900001")
            None None None None None None)) = true.
Proof.
  pose proof (validated_extraction_numbers 2%Z 2025%Z
                (<["document_type" := JStr "ktp"]>
                 (<["nama" := JStr " Budi Santoso "]>
                 (<["nik" := JStr "3201010101900001"]> ∅)))
                (new_DocumentData 2 KTP "Budi Santoso" None (Some "3201010101900001")
                   None None None None None None)) as H.
  destruct H as [H _]; [vm_compute; reflexivity | vm_compute; reflexivity | exact H].
Defined.

End Parser.

(** ** The extraction loop *)

Section Extraction.

Variable cfg : Settings.
Variable env : AIEnv.

Lemma attempt_body_service (attempt : nat) (d : DocumentData) :
  attempt_body cfg env attempt = Ok d →
  ai_service_used d = Some (ACTIVE_AI_SERVICE cfg).
Proof.
  unfold attempt_body, mbind, Res_bind.
  repeat match goal with
  | |- context [match ?r with _ => _ end] => destruct r; try discriminate
  | |- context [if ?b then _ else _] => destruct b; try discriminate
  end; intros [= <-]; reflexivity.
Qed.

Lemma retry_loop_result (max_retries remaining attempt : nat) :
  (0 < remaining)%nat → (attempt + remaining = max_retries)%nat →
  match fst (retry_loop cfg env max_retries remaining attempt) with
  | Ok None => False
  | Ok (Some d) =>
      ∃ k, (attempt ≤ k < max_retries)%nat ∧ attempt_body cfg env k = Ok d
  | Raise _ => True
  end.
Proof.
  revert attempt. induction remaining as [ | remaining IH]; intros attempt Hpos Hsum;
    [lia | ].
  cbn [retry_loop].
  assert (Hnext : (attempt <? max_retries - 1)%nat = true →
    match fst (retry_loop cfg env max_retries remaining (S attempt)) with
    | Ok None => False
    | Ok (Some d) =>
        ∃ k, (attempt ≤ k < max_retries)%nat ∧ attempt_body cfg env k = Ok d
    | Raise _ => True
    end).
  { intros Hlt%Nat.ltb_lt. specialize (IH (S attempt) ltac:(lia) ltac:(lia)).
    destruct (fst (retry_loop cfg env max_retries remaining (S attempt)))
      as [[d | ] | e]; auto.
    destruct IH as (k & Hk & Hb). exists k. split; [lia | exact Hb]. }
  destruct (retry_loop cfg env max_retries remaining (S attempt)) as [r log].
  cbn [fst] in Hnext.
  destruct (attempt_body cfg env attempt) as [d | e] eqn:Hb.
  - cbn. exists attempt. split; [lia | exact Hb].
  - destruct e;
      try (destruct (attempt <? max_retries - 1)%nat;
           [cbn; exact (Hnext eq_refl) | cbn; exact I]);
      cbn; exact I.
Qed.

(** X9. With at least one attempt allowed, [extract_document_data]
    never answers [None]: it returns a record or raises.  A record it
    returns is the one parsed at one of the attempts, and names the
    active recognition service in [ai_service_used]. *)
Theorem extract_document_data_never_none (max_retries : nat) :
  (0 < max_retries)%nat →
  fst (extract_document_data cfg env max_retries) ≠ Ok None
  ∧ ∀ d, fst (extract_document_data cfg env max_retries) = Ok (Some d) →
      ai_service_used d = Some (ACTIVE_AI_SERVICE cfg)
      ∧ ∃ k, (k < max_retries)%nat ∧ attempt_body cfg env k = Ok d.
Proof.
  intros Hpos. unfold extract_document_data.
  pose proof (retry_loop_result max_retries max_retries 0 Hpos eq_refl) as H.
  destruct (fst (retry_loop cfg env max_retries max_retries 0)) as [[d | ] | e];
    try contradiction.
  - split; [discriminate | ]. intros d' [= <-].
    destruct H as (k & Hk & Hb). split; [by apply (attempt_body_service k) | ].
    exists k. split; [lia | exact Hb].
  - split; [discriminate | ]. discriminate.
Qed.

End Extraction.

Lemma extract_document_data_never_none_witness :
  fst (extract_document_data default_settings flaky_service 3) ≠ Ok None.
Proof.
  apply (extract_document_data_never_none default_settings flaky_service 3). lia.
Defined.

(** ** File names *)

Section FileNames.

Lemma len_smap (f : ascii → ascii) (s : string) : Py.len (Py.smap f s) = Py.len s.
Proof. induction s as [ | c s IH]; simpl; [reflexivity | ]. unfold Py.len in *. simpl. lia. Qed.

Lemma smap_fixed (f : ascii → ascii) (p : ascii → bool) (s : string) :
  (∀ c, p c = true → f c = c) → Py.sforall p s = true → Py.smap f s = s.
Proof.
  intros Hf. induction s as [ | c s IH]; simpl; [reflexivity | ].
  intros [Hc Hs]%andb_true_iff. by rewrite (Hf c Hc), IH.
Qed.

Lemma sforall_append (p : ascii → bool) (a b : string) :
  Py.sforall p (a +:+ b) = Py.sforall p a && Py.sforall p b.
Proof.
  induction a as [ | c a IH]; [reflexivity | ].
  change (String c a +:+ b) with (String c (a +:+ b)). simpl.
  by rewrite IH, andb_assoc.
Qed.

Lemma sforall_substring (p : ascii → bool) (n m : nat) (s : string) :
  Py.sforall p s = true → Py.sforall p (substring n m s) = true.
Proof.
  revert n m. induction s as [ | c s IH]; intros n m; simpl.
  - by destruct n, m.
  - intros [Hc Hs]%andb_true_iff.
    destruct n as [ | n]; [destruct m as [ | m]; simpl; [reflexivity | ] | ]; auto.
    by rewrite Hc, IH.
Qed.

Lemma sforall_drop_chars (p : ascii → bool) (n : nat) (s : string) :
  Py.sforall p s = true → Py.sforall p (Py.drop_chars n s) = true.
Proof.
  revert n. induction s as [ | c s IH]; intros [ | n]; simpl; auto.
  intros [_ Hs]%andb_true_iff. auto.
Qed.

Lemma from_last_dot_suffix (p : ascii → bool) (s r : string) :
  from_last_dot s = Some r →
  (Py.sforall p s = true → Py.sforall p r = true)
  ∧ (Py.len r ≤ Py.len s)%nat
  ∧ from_last_dot r = Some r.
Proof.
  revert r. induction s as [ | c s IH]; intros r; simpl; [discriminate | ].
  destruct (from_last_dot s) as [r' | ] eqn:Hs.
  - intros [= <-]. destruct (IH r' eq_refl) as (H1 & H2 & H3).
    split; [intros [_ H]%andb_true_iff; auto | ].
    split; [unfold Py.len in *; simpl; lia | exact H3].
  - destruct (Ascii.eqb_spec c ".") as [-> | _]; [ | discriminate].
    intros [= <-]. split; [auto | ]. split; [unfold Py.len; simpl; lia | ].
    simpl. by rewrite Hs.
Qed.

Lemma len_append (a b : string) : Py.len (a +:+ b) = (Py.len a + Py.len b)%nat.
Proof.
  unfold Py.len. induction a as [ | c a IH]; [reflexivity | ].
  change (String c a +:+ b) with (String c (a +:+ b)). simpl. by rewrite IH.
Qed.

Lemma len_substring_prefix (n : nat) (s : string) :
  (n ≤ Py.len s)%nat → Py.len (substring 0 n s) = n.
Proof.
  unfold Py.len. revert n. induction s as [ | c s IH]; intros [ | n]; simpl;
    try lia; try reflexivity.
  intros H. rewrite IH; lia.
Qed.

Lemma len_drop_chars (n : nat) (s : string) :
  Py.len (Py.drop_chars n s) = (Py.len s - n)%nat.
Proof.
  unfold Py.len. revert n. induction s as [ | c s IH]; intros [ | n]; simpl; auto.
Qed.

Lemma substring_append_prefix (a b : string) :
  substring 0 (Py.len a) (a +:+ b) = a.
Proof.
  unfold Py.len. induction a as [ | c a IH]; simpl.
  - by destruct b.
  - change (String c a +:+ b) with (String c (a +:+ b)). simpl. by rewrite IH.
Qed.

Lemma drop_chars_append (a b : string) :
  Py.drop_chars (Py.len a) (a +:+ b) = b.
Proof.
  unfold Py.len. induction a as [ | c a IH]; simpl; [reflexivity | ].
  change (String c a +:+ b) with (String c (a +:+ b)). simpl. exact IH.
Qed.

Lemma sanitized_chars (filename : string) :
  Py.sforall filename_char
    (Py.smap (λ c, if existsb (Ascii.eqb c) invalid_chars then "_"%char else c)
       filename) = true.
Proof.
  induction filename as [ | c s IH]; cbn [Py.smap Py.sforall]; [reflexivity | ].
  rewrite IH, andb_true_r. unfold filename_char.
  destruct (existsb (Ascii.eqb c) invalid_chars) eqn:Hc; [reflexivity | ].
  by rewrite Hc.
Qed.

Lemma filename_char_kept (c : ascii) :
  filename_char c = true →
  (if existsb (Ascii.eqb c) invalid_chars then "_"%char else c) = c.
Proof. unfold filename_char. by destruct (existsb (Ascii.eqb c) invalid_chars). Qed.

(** The truncation of a name of allowed characters. *)
Lemma truncated_name (s : string) :
  Py.sforall filename_char s = true → (255 < Py.len s)%nat →
  let r := Py.slice 0 240 s +:+ default "" (from_last_dot (Py.drop_chars 240 s)) in
  Py.sforall filename_char r = true
  ∧ (240 ≤ Py.len r ≤ Py.len s)%nat
  ∧ _sanitize_filename r = r.
Proof.
  intros Hs Hlen. cbv zeta. unfold Py.slice. rewrite Nat.sub_0_r.
  assert (Hname : Py.len (substring 0 240 s) = 240)
    by (apply len_substring_prefix; lia).
  assert (Hnc : Py.sforall filename_char (substring 0 240 s) = true)
    by by apply sforall_substring.
  pose proof (len_drop_chars 240 s) as Hdl.
  pose proof (sforall_drop_chars filename_char 240 s Hs) as Hdc.
  destruct (from_last_dot (Py.drop_chars 240 s)) as [ext | ] eqn:Hext;
    cbn [default]; unfold id.
  - destruct (from_last_dot_suffix filename_char _ _ Hext) as (H1 & H2 & H3).
    assert (Hr : Py.sforall filename_char (substring 0 240 s +:+ ext) = true)
      by (rewrite sforall_append, Hnc; auto).
    split; [exact Hr | ]. rewrite len_append, Hname.
    split; [lia | ].
    unfold _sanitize_filename.
    rewrite (smap_fixed _ filename_char _ filename_char_kept Hr).
    destruct (255 <? Py.len (substring 0 240 s +:+ ext))%nat; [ | reflexivity].
    unfold Py.slice. rewrite Nat.sub_0_r.
    rewrite <- Hname at 1 3. rewrite substring_append_prefix, drop_chars_append.
    by rewrite H3.
  - assert (Hr : Py.sforall filename_char (substring 0 240 s +:+ "") = true)
      by (rewrite sforall_append, Hnc; auto).
    split; [exact Hr | ]. rewrite len_append, Hname.
    split; [cbn; lia | ].
    unfold _sanitize_filename.
    rewrite (smap_fixed _ filename_char _ filename_char_kept Hr).
    rewrite len_append, Hname. reflexivity.
Qed.

(** X10. The name that [_sanitize_filename] answers contains none of
    the nine characters it replaces, is not longer than the name given,
    and is left as it is by a second pass.  A name of at most 255
    characters keeps its length.  The cut of a longer name keeps the
    first 240 characters and all that follows the last dot of the rest:
    a name free of the nine characters whose 241st character is its
    last dot comes back whole, however long what follows the dot is. *)
Theorem sanitize_filename_spec (filename : string) :
  let sanitized := _sanitize_filename filename in
  Py.sforall filename_char sanitized = true
  ∧ (Py.len sanitized ≤ Py.len filename)%nat
  ∧ _sanitize_filename sanitized = sanitized
  ∧ ((Py.len filename ≤ 255)%nat → Py.len sanitized = Py.len filename)
  ∧ ∀ name extension,
      filename = name +:+ "." +:+ extension →
      Py.len name = 240 → Py.sforall filename_char filename = true →
      dot_free extension = true →
      sanitized = filename.
Proof.
  cbv zeta.
  pose proof (sanitized_chars filename) as Hc.
  pose proof (len_smap (λ c, if existsb (Ascii.eqb c) invalid_chars then "_"%char else c)
                filename) as Hl.
  assert (Hshort : ∀ s, Py.sforall filename_char s = true →
            (255 <? Py.len s)%nat = false → _sanitize_filename s = s).
  { intros s Hs Hn. unfold _sanitize_filename.
    rewrite (smap_fixed _ filename_char _ filename_char_kept Hs). by rewrite Hn. }
  unfold _sanitize_filename at 1 2 3 4 5.
  remember (Py.smap (λ c, if existsb (Ascii.eqb c) invalid_chars then "_"%char else c)
              filename) as s eqn:Hs.
  destruct (Nat.ltb_spec 255 (Py.len s)) as [Hlong | Hle].
  - destruct (truncated_name s Hc Hlong) as (H1 & H2 & H3).
    split; [exact H1 | ]. split; [lia | ]. split; [exact H3 | ].
    split; [lia | ].
    intros name extension Hfile Hname Hclean Hdot.
    assert (s = filename) as ->.
    { rewrite Hs. by apply (smap_fixed _ filename_char _ filename_char_kept). }
    unfold _sanitize_filename. rewrite <- Hs.
    destruct (Nat.ltb_spec 255 (Py.len filename)) as [_ | Hle]; [ | lia].
    rewrite Hfile. unfold Py.slice. rewrite Nat.sub_0_r, <- Hname.
    rewrite substring_append_prefix, drop_chars_append.
    assert (from_last_dot ("." +:+ extension) = Some ("." +:+ extension)) as ->;
      [ | reflexivity].
    change ("." +:+ extension) with (String "." extension).
    cbn [from_last_dot].
    assert (from_last_dot extension = None) as ->; [ | reflexivity].
    clear -Hdot. unfold dot_free in Hdot.
    induction extension as [ | c e IH]; [reflexivity | ].
    cbn in Hdot |- *. apply andb_true_iff in Hdot as [Hc He].
    rewrite (IH He). apply negb_true_iff in Hc. by rewrite Hc.
  - split; [exact Hc | ]. split; [lia | ].
    split; [apply Hshort; [exact Hc | by apply Nat.ltb_ge] | ].
    split.
    { intros _. unfold _sanitize_filename. rewrite <- Hs.
      destruct (Nat.ltb_spec 255 (Py.len s)); [lia | exact Hl]. }
    intros name extension Hfile Hname Hclean Hdot.
    apply Hshort; [exact Hclean | apply Nat.ltb_ge; lia].
Qed.

End FileNames.

Lemma sanitize_filename_spec_witness :
  _sanitize_filename
    (Py.repeat_char "a" 240 +:+ "." +:+ Py.repeat_char "b" 40)
  = Py.repeat_char "a" 240 +:+ "." +:+ Py.repeat_char "b" 40.
Proof.
  apply (proj2 (proj2 (proj2 (proj2
           (sanitize_filename_spec
              (Py.repeat_char "a" 240 +:+ "." +:+ Py.repeat_char "b" 40)))))
           (Py.repeat_char "a" 240) (Py.repeat_char "b" 40));
    vm_compute; reflexivity.
Defined.

(** ** Saving, then looking for duplicates *)

Section SaveThenCheck.

Variable env : GoogleEnv.

Lemma strip_digits (s : string) :
  Py.sforall Py.isdecimal s = true → Py.strip s = s.
Proof.
  intros H. unfold Py.strip.
  assert (Hl : ∀ t, Py.sforall Py.isdecimal t = true → Py.lstrip t = t).
  { intros [ | c t]; [reflexivity | ]. simpl. intros [Hc _]%andb_true_iff.
    assert (Py.isspace c = false) as ->; [ | reflexivity].
    destruct c as [[] [] [] [] [] [] [] []]; vm_compute in Hc |- *; congruence. }
  rewrite (Hl s H). clear Hl.
  induction s as [ | c s IH]; [reflexivity | ].
  simpl in H. apply andb_true_iff in H as [Hc Hs]. simpl. rewrite (IH Hs).
  destruct s; [ | reflexivity].
  assert (Py.isspace c = false) as ->; [ | reflexivity].
  destruct c as [[] [] [] [] [] [] [] []]; vm_compute in Hc |- *; congruence.
Qed.

Lemma stored_in_column (column : nat) (row : list string) (rows : list (list string)) :
  In column [5; 6; 7]%nat → In row rows → nth column row "" ≠ "" →
  ∃ column_values rest,
    In column_values (columns_FGH rows)
    ∧ In (nth column row "" :: rest) column_values.
Proof.
  intros Hcol Hrow Hne.
  exists (List.map (λ row, match nth column row "" with
                           | EmptyString => []
                           | cell => [cell]
                           end) rows), [].
  split.
  - unfold columns_FGH.
    apply (in_map (λ column, List.map (λ row, match nth column row "" with
                                              | EmptyString => []
                                              | cell => [cell]
                                              end) rows) _ _ Hcol).
  - apply in_map_iff. exists row. split; [ | exact Hrow].
    destruct (nth column row ""); [contradiction | reflexivity].
Qed.

Lemma id_tku_digits (d : DocumentData) :
  digits_only (npwp_15 d) = true → Py.sforall Py.isdecimal (id_tku d) = true.
Proof.
  intros H%digits_only_or_empty. unfold id_tku.
  destruct (_ && _ && _); [ | reflexivity].
  change ("0" +:+ or_empty (npwp_15 d) +:+ "000000")
    with (String "0" (or_empty (npwp_15 d) +:+ "000000")).
  cbn [Py.sforall]. rewrite sforall_append, H. reflexivity.
Qed.

(** X11. What [to_sheet_row] writes is what [_check_for_duplicates]
    looks for: the row carries [npwp_15], [primary_id] and [id_tku] in
    columns F, G and H, the columns that the check reads.  So for a
    record as the constructor leaves it (numbers made of digits) that
    has at least one of the three, once its row is in the sheet the
    check answers that a duplicate exists.  A record with none of the
    three is never found to be a duplicate, whatever the sheet holds. *)
Theorem saved_row_is_found (d : DocumentData) (nama_toko sheet_name : string)
    (rows : list (list string)) (st : GState) :
  constructed d →
  (get_duplicate_check_values d = [] →
   _check_for_duplicates env sheet_name d st = Done false st)
  ∧ (get_duplicate_check_values d ≠ [] →
     In (to_sheet_row d nama_toko) rows →
     batchGet env sheet_name = Returns (columns_FGH rows) →
     _check_for_duplicates env sheet_name d st = Done true st).
Proof.
  intros Hc%constructed_post_init.
  destruct (post_init_digits d) as (Hnik & H15 & H16). rewrite Hc in Hnik, H15, H16.
  split.
  - intros Hnil. unfold _check_for_duplicates. by rewrite Hnil.
  - intros Hsome Hrow Hget.
    destruct (get_duplicate_check_values d) as [ | tok toks] eqn:Hv;
      [contradiction | ].
    assert (Hin : In tok (get_duplicate_check_values d)) by (rewrite Hv; by left).
    pose proof (proj2 (duplicate_token_checked d tok) Hin) as [Hne Htok].
    assert (Hprim : digits_only (primary_id d) = true).
    { unfold primary_id. destruct (document_type d); [exact Hnik | ].
      destruct (truthy_ostr (npwp_16 d)); assumption. }
    assert (Hcell : ∃ column, In column [5; 6; 7]%nat
                    ∧ nth column (to_sheet_row d nama_toko) "" = tok
                    ∧ Py.strip tok = tok).
    { destruct Htok as [H | [H | H]].
      - exists 5%nat. split; [simpl; auto | ].
        cbn. rewrite H. split; [by destruct tok | ].
        apply strip_digits. rewrite H in H15. exact H15.
      - exists 6%nat. split; [simpl; auto | ].
        cbn. rewrite H. split; [by destruct tok | ].
        apply strip_digits. rewrite H in Hprim. exact Hprim.
      - exists 7%nat. split; [simpl; auto | ].
        cbn. split; [exact H | ].
        apply strip_digits. rewrite <- H. by apply id_tku_digits. }
    destruct Hcell as (column & Hcol & Hnth & Hstrip).
    assert (Hne' : nth column (to_sheet_row d nama_toko) "" ≠ "") by congruence.
    destruct (stored_in_column column _ rows Hcol Hrow Hne')
      as (column_values & rest & H1 & H2).
    apply (check_for_duplicates_found env sheet_name d tok
                          (columns_FGH rows) st Hin Hget).
    exists column_values, (nth column (to_sheet_row d nama_toko) ""), rest.
    rewrite Hnth in *. auto.
Qed.

End SaveThenCheck.

Lemma saved_row_is_found_witness :
  _check_for_duplicates
    {| initialize_error := None;
       batchGet := λ _, Returns (columns_FGH [to_sheet_row sample_company "Toko Jaya"]);
       append := λ _ _, Returns tt;
       download_error := λ _, None;
       list_folders := λ _ _, Returns [];
       create_folder := λ _ _, Returns "folder-1";
       create_file := λ _ _, Returns "file-1" |}
    "NPWPKTP BJ (NEW)" sample_company new_GoogleService
  = Done true new_GoogleService.
Proof.
  refine (proj2 (saved_row_is_found _ sample_company "Toko Jaya" "NPWPKTP BJ (NEW)"
                   [to_sheet_row sample_company "Toko Jaya"] new_GoogleService _)
            _ _ _).
  - unfold sample_company, constructed. eauto 20.
  - vm_compute. discriminate.
  - by left.
  - reflexivity.
Defined.

(** ** The session manager *)

Section Manager.
Import Session.

Variable cfg : Settings.
Variable now : datetime.

Lemma filter_length_Permutation {A} (p : A → bool) (l l' : list A) :
  l ≡ₚ l' → List.length (List.filter p l) = List.length (List.filter p l').
Proof.
  induction 1 as [ | x l l' _ IH | x y l | l l' l'' _ IH1 _ IH2]; simpl.
  - reflexivity.
  - destruct (p x); simpl; congruence.
  - destruct (p x), (p y); reflexivity.
  - congruence.
Qed.

(** Counting the values that pass a test is taking the size of the
    filtered dictionary. *)
Lemma count_values (p : UserSession → bool) (sessions : gmap Z UserSession) :
  size (filter (λ kv : Z * UserSession, p kv.2 = true) sessions)
  = List.length (List.filter p (values sessions)).
Proof.
  induction sessions as [ | uid s sessions Hnone Hfirst IH] using map_first_key_ind.
  - rewrite map_filter_empty, map_size_empty. reflexivity.
  - unfold values in *.
    rewrite map_to_list_insert_first_key by assumption.
    cbn [fmap list_fmap List.filter snd].
    destruct (p s) eqn:Hp.
    + rewrite map_filter_insert_True by exact Hp.
      rewrite map_size_insert_None; [cbn; by rewrite IH | ].
      apply map_lookup_filter_None. left. exact Hnone.
    + rewrite map_filter_insert_False by (cbn; congruence).
      rewrite delete_id by exact Hnone. exact IH.
Qed.

Lemma length_values (sessions : gmap Z UserSession) :
  List.length (values sessions) = size sessions.
Proof. unfold values. by rewrite length_fmap, length_map_to_list. Qed.

Lemma filter_expired_ext (sessions : gmap Z UserSession) :
  filter (λ kv : Z * UserSession, is_expired cfg now kv.2 = false) sessions
  = filter (λ kv : Z * UserSession, negb (is_expired cfg now kv.2) = true) sessions.
Proof.
  apply map_filter_ext. intros uid s _. cbn.
  destruct (is_expired cfg now s); cbn; split; congruence.
Qed.

(** X12. [cleanup_expired_sessions] keeps exactly the sessions that are
    not expired, each as it was, and answers the number of sessions it
    removed: that number and the number of sessions left add up to the
    number held before, the number left is what
    [get_active_sessions_count] answered before the cleanup, and a
    second cleanup at the same time removes nothing. *)
Theorem cleanup_expired_sessions_spec (sessions : gmap Z UserSession) :
  let kept := fst (cleanup_expired_sessions cfg now sessions) in
  let removed := snd (cleanup_expired_sessions cfg now sessions) in
  (∀ uid s, kept !! uid = Some s ↔
            sessions !! uid = Some s ∧ is_expired cfg now s = false)
  ∧ (removed + size kept = size sessions)%nat
  ∧ size kept = get_active_sessions_count cfg now sessions
  ∧ get_active_sessions_count cfg now kept = size kept
  ∧ cleanup_expired_sessions cfg now kept = (kept, 0%nat).
Proof.
  unfold cleanup_expired_sessions. cbn [fst snd].
  assert (Hlook : ∀ uid s,
    filter (λ kv : Z * UserSession, is_expired cfg now kv.2 = false) sessions !! uid
      = Some s ↔ sessions !! uid = Some s ∧ is_expired cfg now s = false).
  { intros uid s. apply map_lookup_filter_Some. }
  assert (Hkept : size (filter (λ kv : Z * UserSession,
                                  is_expired cfg now kv.2 = false) sessions)
                  = get_active_sessions_count cfg now sessions).
  { rewrite filter_expired_ext.
    apply (count_values (λ s, negb (is_expired cfg now s))). }
  assert (Hidem :
    filter (λ kv : Z * UserSession, is_expired cfg now kv.2 = false)
      (filter (λ kv : Z * UserSession, is_expired cfg now kv.2 = false) sessions)
    = filter (λ kv : Z * UserSession, is_expired cfg now kv.2 = false) sessions).
  { apply map_filter_id. intros uid s [_ H]%map_lookup_filter_Some. exact H. }
  split; [exact Hlook | ]. split; [ | split; [exact Hkept | split]].
  - rewrite Hkept, (count_values (is_expired cfg now)).
    unfold get_active_sessions_count.
    rewrite <- (length_values sessions).
    apply List.filter_length.
  - unfold get_active_sessions_count.
    rewrite <- (count_values (λ s, negb (is_expired cfg now s))).
    rewrite <- filter_expired_ext. by rewrite Hidem.
  - rewrite Hidem. f_equal.
    apply map_size_empty_iff, map_empty. intros uid.
    apply map_lookup_filter_None. right.
    intros s [_ Hs]%map_lookup_filter_Some. cbn in *. congruence.
Qed.

(** X13. The sessions that [get_sessions_by_state] lists for the eleven
    states are a partition of the sessions that [get_all_sessions]
    lists: the lengths add up, every session listed for a state is in
    that state and not expired, and the number of sessions listed by
    [get_all_sessions] is [get_active_sessions_count]. *)
Theorem sessions_by_state_partition (sessions : gmap Z UserSession) :
  list_sum (List.map (λ st, List.length (get_sessions_by_state cfg now st sessions))
              all_states)
  = List.length (get_all_sessions cfg now sessions)
  ∧ List.length (get_all_sessions cfg now sessions)
    = get_active_sessions_count cfg now sessions
  ∧ ∀ st s, In s (get_sessions_by_state cfg now st sessions) →
      state s = st ∧ is_expired cfg now s = false
      ∧ In s (get_all_sessions cfg now sessions).
Proof.
  split; [ | split; [reflexivity | ]].
  - unfold get_sessions_by_state, get_all_sessions.
    induction (values sessions) as [ | s l IH]; [reflexivity | ].
    cbn [all_states List.map list_sum] in *.
    cbn [List.filter].
    destruct (is_expired cfg now s); cbn [negb andb];
      [rewrite ?andb_false_r; exact IH | ].
    rewrite !andb_true_r.
    destruct (state s);
      repeat match goal with
      | |- context [bool_decide (?a = ?b)] =>
          let v := eval vm_compute in (bool_decide (a = b)) in
          change (bool_decide (a = b)) with v
      end;
      unfold list_sum in *; cbn [fold_right List.length] in *; lia.
  - intros st s [Hs H]%filter_In.
    apply andb_true_iff in H as [H1%bool_decide_eq_true H2%negb_true_iff].
    split; [exact H1 | ]. split; [exact H2 | ].
    apply filter_In. split; [exact Hs | by rewrite H2].
Qed.

Hypothesis timeout_not_negative : (0 ≤ SESSION_TIMEOUT_MINUTES cfg)%Z.

Lemma new_session_not_expired (uid : Z) :
  is_expired cfg now (new_session now uid) = false.
Proof using timeout_not_negative.
  unfold is_expired. cbn. apply Z.ltb_ge. unfold session_timeout. lia.
Qed.

(** What [get_session] answers and stores. *)
Lemma get_session_cases (uid : Z) (sessions : gmap Z UserSession) :
  (∃ s, sessions !! uid = Some s ∧ is_expired cfg now s = false
        ∧ get_session cfg now uid sessions = (sessions, s))
  ∨ get_session cfg now uid sessions
    = (<[uid := new_session now uid]> sessions, new_session now uid).
Proof using timeout_not_negative.
  unfold get_session.
  destruct (sessions !! uid) as [s | ] eqn:Hs; cbv zeta.
  - rewrite Hs. cbn [default]. unfold id.
    destruct (is_expired cfg now s) eqn:He; [right; reflexivity | ].
    left. exists s. auto.
  - rewrite lookup_insert_eq. cbn [default]. unfold id.
    rewrite new_session_not_expired. right. reflexivity.
Qed.

(** X14. The manager files every session under its own user id, and
    its methods keep it so.  [get_session] answers the session that is
    then stored under the user id, a session of that user that is not
    expired, and touches no other user's entry; [reset_session] answers
    and stores a session in the state [IDLE] with no record, one
    interaction and no error counted; [clear_session] removes the
    user's entry and no other. *)
Theorem session_manager_keeps_keys (uid : Z) (sessions : gmap Z UserSession) :
  keyed sessions →
  (let '(sessions', s) := get_session cfg now uid sessions in
   sessions' !! uid = Some s ∧ user_id s = uid
   ∧ is_expired cfg now s = false
   ∧ (∀ other, other ≠ uid → sessions' !! other = sessions !! other)
   ∧ keyed sessions')
  ∧ (let '(sessions', s) := manager_reset_session cfg now uid sessions in
     sessions' !! uid = Some s ∧ user_id s = uid
     ∧ state s = IDLE ∧ document_data s = None
     ∧ total_interactions s = 1%Z ∧ error_count s = 0%Z
     ∧ (∀ other, other ≠ uid → sessions' !! other = sessions !! other)
     ∧ keyed sessions')
  ∧ (clear_session uid sessions !! uid = None
     ∧ (∀ other, other ≠ uid →
          clear_session uid sessions !! other = sessions !! other)
     ∧ keyed (clear_session uid sessions))
  ∧ keyed (fst (cleanup_expired_sessions cfg now sessions)).
Proof using timeout_not_negative.
  intros Hk.
  assert (Hget : let '(sessions', s) := get_session cfg now uid sessions in
    sessions' !! uid = Some s ∧ user_id s = uid
    ∧ is_expired cfg now s = false
    ∧ (∀ other, other ≠ uid → sessions' !! other = sessions !! other)
    ∧ keyed sessions').
  { destruct (get_session_cases uid sessions) as [(s & Hs & He & ->) | ->].
    - repeat split; auto.
    - split; [apply lookup_insert_eq | ]. split; [reflexivity | ].
      split; [apply new_session_not_expired | ].
      split; [intros other Ho; by rewrite lookup_insert_ne | ].
      intros u s. destruct (decide (u = uid)) as [-> | Hne].
      + rewrite lookup_insert_eq. by intros [= <-].
      + rewrite lookup_insert_ne by congruence. apply Hk. }
  split; [exact Hget | ]. split; [ | split].
  - unfold manager_reset_session.
    destruct (get_session cfg now uid sessions) as [sessions' s].
    destruct Hget as (Hs & Hu & _ & Ho & Hk').
    split; [apply lookup_insert_eq | ]. split; [exact Hu | ].
    do 4 (split; [reflexivity | ]).
    split; [intros other Hne; rewrite lookup_insert_ne by congruence; auto | ].
    intros u s'. destruct (decide (u = uid)) as [-> | Hne].
    + rewrite lookup_insert_eq. intros [= <-]. exact Hu.
    + rewrite lookup_insert_ne by congruence. apply Hk'.
  - unfold clear_session. split; [apply lookup_delete_eq | ].
    split; [intros other Hne; by rewrite lookup_delete_ne | ].
    intros u s [_ Hs]%lookup_delete_Some. by apply Hk.
  - unfold cleanup_expired_sessions. cbn [fst].
    intros u s [Hs _]%map_lookup_filter_Some. by apply Hk.
Qed.

End Manager.

Lemma session_manager_keeps_keys_witness :
  keyed (fst (Session.get_session default_settings 1800001001 42
                (<[42%Z := stale_session]> ∅))).
Proof.
  assert (Ht : (0 ≤ SESSION_TIMEOUT_MINUTES default_settings)%Z) by (simpl; lia).
  assert (Hk : keyed (<[42%Z := stale_session]> ∅)).
  { intros u s. destruct (decide (u = 42%Z)) as [-> | Hne].
    - rewrite lookup_insert_eq. by intros [= <-].
    - rewrite lookup_insert_ne by congruence. by rewrite lookup_empty. }
  destruct (session_manager_keeps_keys default_settings 1800001001%Z Ht 42%Z
              (<[42%Z := stale_session]> ∅) Hk) as [H _].
  destruct (Session.get_session default_settings 1800001001 42
              (<[42%Z := stale_session]> ∅)) as [m s].
  by destruct H as (_ & _ & _ & _ & H).
Defined.

(** ** The session record *)

Section SessionRecord.
Import Session.

Lemma perform_counters (t : datetime) (op : Operation) (s : UserSession) :
  (0 ≤ error_count s < total_interactions s)%Z →
  (0 ≤ error_count (perform t op s) < total_interactions (perform t op s))%Z
  ∧ user_id (perform t op s) = user_id s.
Proof. intros H. destruct op; cbn; split; (lia || reflexivity). Qed.

(** X15. Starting from a new session and applying any sequence of its
    methods ([update_activity], [set_state], [set_workflow],
    [clear_workflow_data], [reset_session], [increment_error_count]) at
    any times, the session stays the session of the same user, its
    error count is never negative and stays below its count of
    interactions, which is at least 1. *)
Theorem session_counters (ops : list (datetime * Operation)) (t0 : datetime) (uid : Z) :
  let s := after_operations ops (new_session t0 uid) in
  user_id s = uid
  ∧ (0 ≤ error_count s < total_interactions s)%Z.
Proof.
  cbv zeta. unfold after_operations.
  assert (H : ∀ s0, user_id s0 = uid →
    (0 ≤ error_count s0 < total_interactions s0)%Z →
    user_id (fold_left (λ s op, perform op.1 op.2 s) ops s0) = uid
    ∧ (0 ≤ error_count (fold_left (λ s op, perform op.1 op.2 s) ops s0)
       < total_interactions (fold_left (λ s op, perform op.1 op.2 s) ops s0))%Z).
  { induction ops as [ | [t op] ops IH]; intros s0 Hu Hc; [auto | ].
    cbn [fold_left fst snd].
    destruct (perform_counters t op s0 Hc) as [Hc' Hu'].
    apply IH; congruence. }
  apply H; cbn; [reflexivity | lia].
Qed.

(** X16. Along the table of [can_transition_to] every state is
    reachable from [IDLE], and every row of the table but that of
    [IDLE] lists [IDLE] itself: the clause [or new_state == IDLE] adds
    only the transition from [IDLE] to [IDLE].  No row lists its own
    state. *)
Theorem transition_table_connected (s : SessionState) :
  rtc table_step IDLE s
  ∧ (s ≠ IDLE → table_step s IDLE)
  ∧ ¬ table_step s s
  ∧ ∀ session t,
      can_transition_to session t = true ↔
      table_step (state session) t ∨ (state session = IDLE ∧ t = IDLE).
Proof.
  assert (Hstep : ∀ a b, In b (valid_transitions a) → table_step a b).
  { intros a b H. by apply list_elem_of_In. }
  assert (H1 : rtc table_step IDLE AWAITING_BRANCH).
  { apply rtc_once, Hstep. simpl. auto. }
  assert (H2 : rtc table_step IDLE AWAITING_CONFIRMATION).
  { eapply rtc_r; [exact H1 | ]. apply Hstep. simpl. auto. }
  assert (H3 : rtc table_step IDLE SELECTING_EDIT_FIELD).
  { eapply rtc_r; [exact H2 | ]. apply Hstep. simpl. auto. }
  split; [ | split; [ | split]].
  - destruct s; try assumption; try reflexivity;
      first [ eapply rtc_r; [exact H1 | ]; apply Hstep; simpl; tauto
            | eapply rtc_r; [exact H2 | ]; apply Hstep; simpl; tauto
            | eapply rtc_r; [exact H3 | ]; apply Hstep; simpl; tauto ].
  - intros Hne. apply Hstep. destruct s; simpl; tauto.
  - intros H%list_elem_of_In. destruct s; simpl in H; intuition discriminate.
  - intros session t. unfold can_transition_to, table_step.
    rewrite orb_true_iff, !bool_decide_eq_true. split.
    + intros [H | ->]; [auto | ].
      destruct (decide (state session = IDLE)) as [E | Hne]; [auto | ].
      left. apply list_elem_of_In. destruct (state session); simpl; tauto.
    + intros [H | [_ ->]]; auto.
Qed.

End SessionRecord.

(** ** The persistence orchestrator *)

Section Storage.

Variable cfg : Settings.
Variable env : GoogleEnv.

Lemma initialize_step (st : GState) :
  (if initialised st then Done tt st else initialize env st)
  = match initialize_error env with
    | Some text =>
        if initialised st then Done tt st
        else Raised (GoogleServiceError
                       ("Failed to initialize Google services: " +:+ text)) st
    | None => Done tt (ready st)
    end.
Proof.
  unfold initialize. destruct st as [[ | ] c e]; cbn;
    destruct (initialize_error env); reflexivity.
Qed.

Lemma initialize_step_effects (st : GState) :
  match (if initialised st then Done tt st else initialize env st) with
  | Done _ st' | Raised _ st' => effects st' = effects st
  | Untyped => False
  end.
Proof.
  rewrite initialize_step.
  destruct (initialize_error env); [destruct (initialised st) | ]; reflexivity.
Qed.

(** X17. [save_photo_and_data] lets no exception through: whatever
    the session and the store, it answers.  When the session holds no
    record ([document_data] missing or [None]), or names a branch that
    is not configured, the answer is [Error] and nothing is appended or
    uploaded, with the duplicate check bypassed or not. *)
Theorem save_photo_and_data_answers (user_data : gmap string Value)
    (bypass : bool) (st : GState) :
  (∀ e st', save_photo_and_data cfg env user_data bypass st ≠ Raised e st')
  ∧ (user_data !! "document_data" = None
     ∨ user_data !! "document_data" = Some VNone →
     ∃ message st',
       save_photo_and_data cfg env user_data bypass st = Done (Error message) st'
       ∧ effects st' = effects st)
  ∧ (∀ d branch,
       user_data !! "document_data" = Some (VDoc d) →
       user_data !! "branch" = Some (VStr branch) →
       is_valid_branch cfg branch = false →
       ∃ message st',
         save_photo_and_data cfg env user_data bypass st = Done (Error message) st'
         ∧ effects st' = effects st).
Proof.
  split; [ | split].
  - intros e st'. unfold save_photo_and_data, catch.
    match goal with
    | |- match ?body with _ => _ end ≠ _ =>
        destruct body as [r s1 | e1 s1 | ]
    end; [discriminate | destruct e1; discriminate | discriminate].
  - intros Hdoc.
    assert (Hbody : save_photo_and_data cfg env user_data bypass st
                    = catch (save_body cfg env user_data bypass)
                        (λ e, match e with
                              | DuplicateDataError _ => ret DuplicateFound
                              | _ => ret (Error (exn_str e))
                              end) st).
    { unfold save_photo_and_data. by destruct Hdoc as [-> | ->]. }
    rewrite Hbody. unfold catch, save_body, mbind, Prog_bind.
    unfold bind at 1. rewrite initialize_step.
    destruct (initialize_error env) as [text | ];
      [destruct (initialised st) | ]; try (cbn; eauto; fail);
      unfold bind at 1; destruct Hdoc as [-> | ->]; cbn; eauto.
  - intros d branch Hdoc Hbranch Hvalid.
    rewrite (save_photo_and_data_record cfg env _ _ _ Hdoc).
    unfold catch, save_body, mbind, Prog_bind.
    unfold bind at 1. rewrite initialize_step.
    destruct (initialize_error env) as [text | ];
      [destruct (initialised st) | ]; try (cbn; eauto; fail);
      unfold bind at 1; rewrite Hdoc; unfold ret at 1;
      unfold bind at 1; rewrite Hbranch, Hvalid, andb_false_r; cbn; eauto.
Qed.

Lemma find_or_create_subfolder_one_folder (parent_id subfolder_name : string)
    (st st' : GState) (folder_id : string) :
  _find_or_create_subfolder env parent_id subfolder_name st = Done folder_id st' →
  effects st' = effects st
  ∨ effects st'
    = (effects st ++ [FolderCreated parent_id subfolder_name folder_id])%list.
Proof.
  unfold _find_or_create_subfolder.
  destruct (_folder_cache st !! (parent_id +:+ ":" +:+ subfolder_name));
    [intros [= <- <-]; by left | ].
  destruct (list_folders env parent_id subfolder_name) as [[ | f fs] | status msg | msg];
    try discriminate.
  - destruct (create_folder env parent_id subfolder_name) as [f | status msg | msg];
      try discriminate.
    cbn. intros [= <- <-]. by right.
  - intros [= <- <-]. by left.
Qed.

(** X18. Once [_find_or_create_subfolder] has answered a folder, the
    answer is cached: a second call for the same parent and name
    answers the same folder without consulting Drive (whatever Drive
    would say then) and changes nothing.  A call creates at most one
    folder, and none when the folder is cached or found. *)
Theorem find_or_create_subfolder_cached (parent_id subfolder_name : string)
    (st st' : GState) (folder_id : string) :
  _find_or_create_subfolder env parent_id subfolder_name st = Done folder_id st' →
  _folder_cache st' !! (parent_id +:+ ":" +:+ subfolder_name) = Some folder_id
  ∧ (∀ env' : GoogleEnv,
       _find_or_create_subfolder env' parent_id subfolder_name st'
       = Done folder_id st')
  ∧ (effects st' = effects st
     ∨ effects st'
       = (effects st ++ [FolderCreated parent_id subfolder_name folder_id])%list
       ∧ list_folders env parent_id subfolder_name = Returns []
       ∧ _folder_cache st !! (parent_id +:+ ":" +:+ subfolder_name) = None).
Proof.
  unfold _find_or_create_subfolder.
  destruct (_folder_cache st !! (parent_id +:+ ":" +:+ subfolder_name))
    as [cached | ] eqn:Hc.
  { intros [= <- <-]. split; [exact Hc | ]. split; [ | by left].
    intros env'. by rewrite Hc. }
  destruct (list_folders env parent_id subfolder_name) as [[ | f fs] | status msg | msg];
    try discriminate.
  - destruct (create_folder env parent_id subfolder_name) as [f | status msg | msg];
      try discriminate.
    cbn. intros [= <- <-]. cbn.
    split; [apply lookup_insert_eq | ]. split; [ | right; auto].
    intros env'. by rewrite lookup_insert_eq.
  - intros [= <- <-]. cbn.
    split; [apply lookup_insert_eq | ]. split; [ | by left].
    intros env'. by rewrite lookup_insert_eq.
Qed.

(** X19. [save_pdf_to_drive] never answers success: every call on a
    typed session answers [Error].  It appends no row and uploads no
    file; the only mutation it can leave behind is the creation of the
    "PDF" folder of the branch.  For a session with a file id and a
    configured branch, on a service whose credentials load: when
    [original_filename] is a [str] (as for every document that carries
    a name) or is not stored, and Drive answers the folder, the message
    is the one of the function's own last statement; when
    [original_filename] is [None], the message is that of the
    [TypeError] of [Path(None)], and Drive is not consulted. *)
Theorem save_pdf_to_drive_never_succeeds (user_data : gmap string Value)
    (st : GState) :
  match save_pdf_to_drive cfg env user_data st with
  | Done (Error _) st' =>
      effects st' = effects st
      ∨ ∃ parent_id folder_id,
          effects st' = (effects st ++ [FolderCreated parent_id "PDF" folder_id])%list
  | Done _ _ | Raised _ _ => False
  | Untyped => True
  end
  ∧ (∀ file_id branch parent_id,
       user_data !! "file_id" = Some (VStr file_id) → file_id ≠ "" →
       user_data !! "branch" = Some (VStr branch) → branch ≠ "" →
       is_valid_branch cfg branch = true →
       FOLDER_MAP cfg !! branch = Some parent_id →
       initialize_error env = None →
       match user_data !! "original_filename" with
       | None | Some (VStr _) =>
           ∀ folder_id st1,
             _find_or_create_subfolder env parent_id "PDF" (ready st)
               = Done folder_id st1 →
             save_pdf_to_drive cfg env user_data st
             = Done (Error "[GOOGLE_ERROR] PDF upload requires bot instance - implement in handler")
                 st1
       | Some VNone =>
           save_pdf_to_drive cfg env user_data st
           = Done (Error "expected str, bytes or os.PathLike object, not NoneType")
               (ready st)
       | Some _ => True
       end).
Proof.
  split.
  - unfold save_pdf_to_drive, catch, mbind, Prog_bind.
    unfold bind at 1. pose proof (initialize_step_effects st) as Hi.
    destruct (if initialised st then Done tt st else initialize env st)
      as [[] s1 | e1 s1 | ]; [ | by left | contradiction].
    rewrite <- Hi. clear Hi.
    unfold bind at 1.
    destruct (user_data !! "file_id") as [v | ]; [ | by left].
    destruct (value_truthy v); [ | by left]. unfold ret at 1.
    unfold bind at 1.
    destruct (user_data !! "branch") as [[ | branch | | | | | ] | ];
      try exact I; try (by left).
    destruct (negb (String.eqb branch "") && is_valid_branch cfg branch);
      [ | by left].
    unfold ret at 1. unfold bind at 1.
    destruct (user_data !! "original_filename") as [[ | name | | | | | ] | ];
      try exact I; try (by left).
    + unfold ret at 1. unfold bind at 1.
      destruct (FOLDER_MAP cfg !! branch) as [parent | ]; [ | by left].
      unfold ret at 1. unfold bind at 1.
      destruct (_find_or_create_subfolder env parent "PDF" s1)
        as [folder s2 | e2 s2 | ] eqn:Hf.
      * destruct (find_or_create_subfolder_one_folder _ _ _ _ _ Hf) as [He | He];
          [by left | right; eauto].
      * pose proof (find_or_create_subfolder_effects env parent "PDF" s1 _ Hf) as He.
        cbn in He. destruct He as [more He].
        unfold _find_or_create_subfolder in Hf.
        destruct (_folder_cache s1 !! _); [discriminate Hf | ].
        destruct (list_folders env parent "PDF") as [[ | f fs] | status msg | msg];
          try discriminate Hf.
        -- destruct (create_folder env parent "PDF"); try discriminate Hf;
             injection Hf as <- <-; by left.
        -- injection Hf as <- <-; by left.
        -- injection Hf as <- <-; by left.
      * by pose proof (find_or_create_subfolder_effects env parent "PDF" s1 _ Hf).
    + unfold ret at 1. unfold bind at 1.
      destruct (FOLDER_MAP cfg !! branch) as [parent | ]; [ | by left].
      unfold ret at 1. unfold bind at 1.
      destruct (_find_or_create_subfolder env parent "PDF" s1)
        as [folder s2 | e2 s2 | ] eqn:Hf.
      * destruct (find_or_create_subfolder_one_folder _ _ _ _ _ Hf) as [He | He];
          [by left | right; eauto].
      * unfold _find_or_create_subfolder in Hf.
        destruct (_folder_cache s1 !! _); [discriminate Hf | ].
        destruct (list_folders env parent "PDF") as [[ | f fs] | status msg | msg];
          try discriminate Hf.
        -- destruct (create_folder env parent "PDF"); try discriminate Hf;
             injection Hf as <- <-; by left.
        -- injection Hf as <- <-; by left.
        -- injection Hf as <- <-; by left.
      * by pose proof (find_or_create_subfolder_effects env parent "PDF" s1 _ Hf).
  - intros file_id branch parent Hfile Hne Hbranch Hbne Hvalid Hparent Hinit.
    assert (Ht : value_truthy (VStr file_id) = true).
    { cbn. apply negb_true_iff. by apply String.eqb_neq. }
    unfold save_pdf_to_drive, mbind, Prog_bind.
    rewrite Hbranch, Hvalid, (proj2 (String.eqb_neq _ _) Hbne). cbn [negb andb].
    destruct (user_data !! "original_filename") as [[ | name | | | | | ] | ] eqn:Horig;
      try exact I.
    + unfold catch. unfold bind at 1. rewrite initialize_step, Hinit.
      unfold bind at 1. rewrite Hfile, Ht. unfold ret at 1.
      unfold bind at 1. unfold ret at 1.
      unfold bind at 1. reflexivity.
    + intros folder st1 Hf.
      unfold catch. unfold bind at 1. rewrite initialize_step, Hinit.
      unfold bind at 1. rewrite Hfile, Ht. unfold ret at 1.
      unfold bind at 1. unfold ret at 1.
      unfold bind at 1. unfold ret at 1.
      unfold bind at 1. rewrite Hparent. unfold ret at 1.
      unfold bind at 1. rewrite Hf. reflexivity.
    + intros folder st1 Hf.
      unfold catch. unfold bind at 1. rewrite initialize_step, Hinit.
      unfold bind at 1. rewrite Hfile, Ht. unfold ret at 1.
      unfold bind at 1. unfold ret at 1.
      unfold bind at 1. unfold ret at 1.
      unfold bind at 1. rewrite Hparent. unfold ret at 1.
      unfold bind at 1. rewrite Hf. reflexivity.
Qed.

End Storage.

Lemma find_or_create_subfolder_cached_witness :
  _find_or_create_subfolder store_lookup_down "1B8-vxVXYjcG5m7aqnqFHjuShphvfjMo4" "PDF"
    {| initialised := true;
       _folder_cache := <["1B8-vxVXYjcG5m7aqnqFHjuShphvfjMo4:PDF" := "folder-1"]> ∅;
       effects := [] |}
  = Done "folder-1"
      {| initialised := true;
         _folder_cache := <["1B8-vxVXYjcG5m7aqnqFHjuShphvfjMo4:PDF" := "folder-1"]> ∅;
         effects := [] |}.
Proof.
  destruct (find_or_create_subfolder_cached sample_store
              "1B8-vxVXYjcG5m7aqnqFHjuShphvfjMo4" "PDF"
              {| initialised := true; _folder_cache := ∅; effects := [] |}
              {| initialised := true;
                 _folder_cache :=
                   <["1B8-vxVXYjcG5m7aqnqFHjuShphvfjMo4:PDF" := "folder-1"]> ∅;
                 effects := [FolderCreated "1B8-vxVXYjcG5m7aqnqFHjuShphvfjMo4"
                               "PDF" "folder-1"] |}
              "folder-1") as (_ & H & _).
  - vm_compute. reflexivity.
  - pose proof (H store_lookup_down) as H'. vm_compute in H'. vm_compute.
    congruence.
Defined.

Lemma save_pdf_to_drive_never_succeeds_witness :
  ∃ st1,
    save_pdf_to_drive default_settings sample_store pdf_user_data new_GoogleService
    = Done (Error "[GOOGLE_ERROR] PDF upload requires bot instance - implement in handler")
        st1
    ∧ effects st1
      = [FolderCreated "1B8-vxVXYjcG5m7aqnqFHjuShphvfjMo4" "PDF" "folder-1"].
Proof.
  eexists. split.
  - pose proof (proj2 (save_pdf_to_drive_never_succeeds default_settings sample_store
                         pdf_user_data new_GoogleService)
                  "BQACAgUAAxkBAAIC" "BJ" "1B8-vxVXYjcG5m7aqnqFHjuShphvfjMo4"
                  eq_refl ltac:(discriminate) eq_refl ltac:(discriminate)
                  eq_refl eq_refl eq_refl) as H.
    change (pdf_user_data !! "original_filename") with (Some (VStr "scan.pdf")) in H.
    apply (H "folder-1"
             {| initialised := true;
                _folder_cache :=
                  <["1B8-vxVXYjcG5m7aqnqFHjuShphvfjMo4:PDF" := "folder-1"]> ∅;
                effects := [FolderCreated "1B8-vxVXYjcG5m7aqnqFHjuShphvfjMo4"
                              "PDF" "folder-1"] |}).
    vm_compute. reflexivity.
  - reflexivity.
Defined.

(** ** Text messages and the edit buttons *)

Section TextMessages.

Variable cfg : Settings.
Variable now : datetime.
Variable current_year : Z.

Lemma handle_error_returns (via_callback : bool) (e : Exn) (ctx : Context) :
  ∃ ctx', handle_error via_callback e ctx = Done tt ctx'.
Proof.
  unfold handle_error, mbind, Prog_bind, bind, send, _clear_user_session,
    put_user_data, ret.
  destruct (is_BotException e); eexists; reflexivity.
Qed.

Lemma guarded_never_raises (via_callback : bool) (body : Handler unit)
    (ctx : Context) (e : Exn) (ctx' : Context) :
  guarded via_callback body ctx ≠ Raised e ctx'.
Proof.
  unfold guarded, catch.
  destruct (body ctx) as [[] c | e1 c | ]; try discriminate.
  destruct (handle_error_returns via_callback e1 c) as [c' ->]. discriminate.
Qed.

Lemma get_user_session_expired (ctx : Context) :
  _is_session_expired cfg now (user_data ctx) = Some true →
  _get_user_session cfg now ctx
  = Raised SessionExpiredError {| user_data := ∅; outbox := outbox ctx |}.
Proof.
  intros H. unfold _get_user_session, bind, get_user_data. by rewrite H.
Qed.

Lemma text_message_enters (update : Update) (ctx : Context) :
  _is_session_expired cfg now (user_data ctx) = Some false →
  handle_text_message cfg now current_year update ctx
  = guarded false
      match user_data ctx !! "state" with
      | None => _handle_no_active_session
      | Some v =>
        if negb (value_truthy v) then _handle_no_active_session
        else
          match v with
          | VStr state =>
              if String.eqb state "awaiting_pdf_name"
              then _handle_pdf_naming cfg now update
              else if String.eqb state "awaiting_edit_input"
              then _handle_data_edit cfg now current_year update
              else _handle_unexpected_text cfg now
          | _ => _handle_unexpected_text cfg now
          end
      end ctx.
Proof.
  intros Hfresh. unfold handle_text_message, guarded, catch.
  unfold bind at 1. unfold _get_session_state, bind at 1.
  rewrite (get_user_session_fresh _ _ _ Hfresh). reflexivity.
Qed.

Lemma unexpected_text_run (ctx : Context) :
  _is_session_expired cfg now (user_data ctx) = Some false →
  _handle_unexpected_text cfg now ctx
  = Done tt {| user_data := user_data ctx;
               outbox := outbox ctx
                 ++ [ReplyText (TUnexpectedText (user_data ctx !! "workflow_type")
                                  (user_data ctx !! "state"))] |}.
Proof.
  intros Hfresh. unfold _handle_unexpected_text, _get_session_state.
  rewrite bind_assoc.
  unfold bind at 1. rewrite (get_user_session_fresh _ _ _ Hfresh).
  unfold bind at 1. unfold ret at 1.
  rewrite (bind_done _ _ _ _ _ (get_session_data_fresh _ _ "workflow_type" ctx Hfresh)).
  reflexivity.
Qed.

(** X20. [handle_text_message] never lets an exception out.  On a
    session that has expired it answers the text of
    [SessionExpiredError] and leaves [user_data] empty, whatever the
    state was.  On a live session without a state (or with a state that
    is not truthy) it answers the guidance text; in a state other than
    [awaiting_pdf_name] and [awaiting_edit_input] it answers that the
    message is not understood, naming the workflow and the state; in
    both cases [user_data] is left as it was. *)
Theorem handle_text_message_dispatch (update : Update) (ctx : Context) :
  (∀ e ctx', handle_text_message cfg now current_year update ctx ≠ Raised e ctx')
  ∧ (_is_session_expired cfg now (user_data ctx) = Some true →
     handle_text_message cfg now current_year update ctx
     = Done tt {| user_data := ∅;
                  outbox := outbox ctx
                    ++ [ReplyText (TUserError SessionExpiredError)] |})
  ∧ (_is_session_expired cfg now (user_data ctx) = Some false →
     (∀ v, user_data ctx !! "state" = Some v → value_truthy v = false) →
     handle_text_message cfg now current_year update ctx
     = Done tt {| user_data := user_data ctx;
                  outbox := outbox ctx ++ [ReplyText TGuidance] |})
  ∧ (∀ v, _is_session_expired cfg now (user_data ctx) = Some false →
     user_data ctx !! "state" = Some v → value_truthy v = true →
     v ≠ VStr "awaiting_pdf_name" → v ≠ VStr "awaiting_edit_input" →
     handle_text_message cfg now current_year update ctx
     = Done tt {| user_data := user_data ctx;
                  outbox := outbox ctx
                    ++ [ReplyText (TUnexpectedText (user_data ctx !! "workflow_type")
                                     (Some v))] |}).
Proof.
  split; [ | split; [ | split]].
  - intros e ctx'. apply guarded_never_raises.
  - intros Hexp. unfold handle_text_message, guarded, catch.
    unfold bind at 1. unfold _get_session_state, bind at 1.
    by rewrite (get_user_session_expired _ Hexp).
  - intros Hfresh Hstate. rewrite (text_message_enters _ _ Hfresh).
    unfold guarded. apply catch_returns.
    destruct (user_data ctx !! "state") as [v | ]; [ | reflexivity].
    by rewrite (Hstate v eq_refl).
  - intros v Hfresh Hstate Htruthy Hpdf Hedit.
    rewrite (text_message_enters _ _ Hfresh).
    unfold guarded. apply catch_returns.
    rewrite Hstate, Htruthy. cbn [negb].
    rewrite <- Hstate.
    destruct v as [ | state | | | | | ]; try apply (unexpected_text_run _ Hfresh).
    destruct (String.eqb_spec state "awaiting_pdf_name") as [-> | _];
      [contradiction | ].
    destruct (String.eqb_spec state "awaiting_edit_input") as [-> | _];
      [contradiction | ].
    apply (unexpected_text_run _ Hfresh).
Qed.

Hypothesis timeout_not_negative : (0 ≤ SESSION_TIMEOUT_MINUTES cfg)%Z.

Lemma field_edit_run (field : string) (press : Update) (ctx : Context) :
  _is_session_expired cfg now (user_data ctx) = Some false →
  text press = "edit_" +:+ field →
  field ≠ "location" →
  _handle_field_edit cfg now press ctx
  = Done tt
      {| user_data :=
           <["last_activity" := VTime now]>
           (<["state" := VStr "awaiting_edit_input"]>
           (<["last_activity" := VTime now]>
           (<["last_bot_message_id" := VInt (answer_message_id press)]>
           (<["last_activity" := VTime now]>
           (<["edit_field" := VStr field]> (user_data ctx))))));
         outbox := outbox ctx
           ++ [EditMessageText (TEditPrompt (display_name_of field))] |}.
Proof using timeout_not_negative.
  intros Hfresh Htext Hfield. unfold _handle_field_edit. rewrite Htext.
  destruct (String.eqb_spec ("edit_" +:+ field) "edit_location") as [Heq | _].
  { cbv [String.append] in Heq. by injection Heq. }
  assert (after_first_underscore ("edit_" +:+ field) = Some field) as ->
    by reflexivity.
  unfold mbind, Prog_bind.
  erewrite bind_done by reflexivity. cbn [user_data outbox].
  erewrite bind_done by (by apply set_session_data_fresh).
  cbn [user_data outbox].
  erewrite bind_done
    by (apply set_session_data_fresh, (stamped_fresh _ _ timeout_not_negative);
        apply lookup_insert_eq).
  cbn [user_data outbox].
  rewrite set_session_state_fresh
    by (apply (stamped_fresh _ _ timeout_not_negative); apply lookup_insert_eq).
  reflexivity.
Qed.

(** X21. The press of an edit button and the message that follows it.
    The callback data [edit_<field>] of a field other than [location]
    (the field may itself contain underscores) makes
    [_handle_field_edit], on a live session, ask for the new value,
    record [<field>] as the field being edited and the id of the prompt,
    and move to [awaiting_edit_input]; no other entry of [user_data]
    but the activity stamp changes.  The text message that comes next is
    judged by the validator of that very field: a value it refuses is
    answered with the validator's message and changes nothing, so the
    same field is still pending. *)
Theorem edit_button_then_text (field : string) (press message : Update)
    (ctx : Context) :
  _is_session_expired cfg now (user_data ctx) = Some false →
  text press = "edit_" +:+ field →
  field ≠ "location" →
  ∃ ctx',
    _handle_field_edit cfg now press ctx = Done tt ctx'
    ∧ outbox ctx'
      = (outbox ctx ++ [EditMessageText (TEditPrompt (display_name_of field))])%list
    ∧ user_data ctx' !! "edit_field" = Some (VStr field)
    ∧ user_data ctx' !! "state" = Some (VStr "awaiting_edit_input")
    ∧ user_data ctx' !! "last_bot_message_id"
      = Some (VInt (answer_message_id press))
    ∧ (∀ key, ¬ In key ["edit_field"; "state"; "last_bot_message_id";
                         "last_activity"] →
         user_data ctx' !! key = user_data ctx !! key)
    ∧ (∀ error, field ≠ "" →
         _validate_edit_value current_year field (Py.strip (text message))
           = Some error →
         handle_text_message cfg now current_year message ctx'
         = Done tt {| user_data := user_data ctx';
                      outbox := outbox ctx'
                        ++ [ReplyText (TValidationError error)] |}).
Proof using timeout_not_negative.
  intros Hfresh Htext Hfield.
  eexists. split; [by apply field_edit_run | ].
  cbn [user_data outbox].
  split; [reflexivity | ].
  split.
  { repeat (rewrite lookup_insert_ne by discriminate). apply lookup_insert_eq. }
  split.
  { repeat (rewrite lookup_insert_ne by discriminate). apply lookup_insert_eq. }
  split.
  { repeat (rewrite lookup_insert_ne by discriminate). apply lookup_insert_eq. }
  split.
  { intros key Hkey. simpl in Hkey.
    rewrite !lookup_insert_ne; [reflexivity | intros <-; apply Hkey; auto 10 ..]. }
  intros error Hne Hrefused.
  match goal with
  | |- handle_text_message _ _ _ _ ?c = _ =>
      assert (Hlive : _is_session_expired cfg now (user_data c) = Some false)
        by (apply (stamped_fresh _ _ timeout_not_negative); apply lookup_insert_eq);
      rewrite (text_message_enters message c Hlive);
      assert (Hstate : user_data c !! "state" = Some (VStr "awaiting_edit_input"))
        by (cbn [user_data]; repeat (rewrite lookup_insert_ne by discriminate);
            apply lookup_insert_eq);
      assert (Hpending : user_data c !! "edit_field" = Some (VStr field))
        by (cbn [user_data]; repeat (rewrite lookup_insert_ne by discriminate);
            apply lookup_insert_eq);
      rewrite Hstate; cbv beta iota;
      change (negb (value_truthy (VStr "awaiting_edit_input"))) with false;
      change ("awaiting_edit_input" =? "awaiting_pdf_name")%string with false;
      change ("awaiting_edit_input" =? "awaiting_edit_input")%string with true;
      cbv beta iota;
      unfold guarded; apply catch_returns;
      unfold _handle_data_edit;
      rewrite (bind_done _ _ _ _ _ (get_session_data_fresh _ _ "edit_field" c Hlive));
      rewrite Hpending
  end.
  destruct field as [ | c f]; [contradiction | ].
  cbv beta iota. rewrite Hrefused. reflexivity.
Qed.

End TextMessages.

Lemma handle_text_message_dispatch_witness :
  handle_text_message default_settings 1800001001 2025 edit_message edit_ctx
  = Done tt {| user_data := ∅;
               outbox := [ReplyText (TUserError SessionExpiredError)] |}
  ∧ handle_text_message default_settings 2000 2025 edit_message awaiting_branch_ctx
    = Done tt {| user_data := user_data awaiting_branch_ctx;
                 outbox := [ReplyText (TUnexpectedText (Some (VStr "photo"))
                                         (Some (VStr "awaiting_branch")))] |}.
Proof.
  split.
  - apply (proj1 (proj2 (handle_text_message_dispatch default_settings
                           1800001001%Z 2025%Z edit_message edit_ctx))).
    reflexivity.
  - apply (proj2 (proj2 (proj2 (handle_text_message_dispatch default_settings
                           2000%Z 2025%Z edit_message awaiting_branch_ctx)))
             (VStr "awaiting_branch"));
      [reflexivity | reflexivity | reflexivity | discriminate | discriminate].
Defined.

Lemma edit_button_then_text_witness :
  ∃ ctx',
    _handle_field_edit default_settings 2000
      {| text := "edit_npwp_15"; message_id := 7; shown_text := "preview";
         answer_message_id := 8 |} awaiting_branch_ctx = Done tt ctx'
    ∧ user_data ctx' !! "edit_field" = Some (VStr "npwp_15")
    ∧ handle_text_message default_settings 2000 2025
        {| text := "12345"; message_id := 9; shown_text := "";
           answer_message_id := 10 |} ctx'
      = Done tt {| user_data := user_data ctx';
                   outbox := outbox ctx'
                     ++ [ReplyText (TValidationError
                           "NPWP harus 15 digit, ditemukan 5 digit")] |}.
Proof.
  assert (Ht : (0 ≤ SESSION_TIMEOUT_MINUTES default_settings)%Z) by (simpl; lia).
  destruct (edit_button_then_text default_settings 2000%Z 2025%Z Ht "npwp_15"
              {| text := "edit_npwp_15"; message_id := 7; shown_text := "preview";
                 answer_message_id := 8 |}
              {| text := "12345"; message_id := 9; shown_text := "";
                 answer_message_id := 10 |}
              awaiting_branch_ctx eq_refl eq_refl ltac:(discriminate))
    as (ctx' & Hrun & _ & Hfield & _ & _ & _ & Hnext).
  exists ctx'. split; [exact Hrun | ]. split; [exact Hfield | ].
  apply Hnext; [discriminate | vm_compute; reflexivity].
Defined.

(** ** A session written to a dictionary and read back *)

Section SessionRoundTrip.

Variable isoformat : datetime → string.
Variable fromisoformat : string → option datetime.
Variable cfg : Settings.

Local Ltac lookup_session_dict :=
  match goal with data := _ |- _ => unfold data end;
  unfold Session.to_dict;
  repeat (rewrite lookup_insert_ne by discriminate);
  apply lookup_insert_eq.

Lemma field_ostr_of_ostr (data : gmap string Session.SessionVal) (key : string)
    (o : option string) :
  data !! key = Some (Session.SessionVal_of_ostr o) → Session.field_ostr data key = Some o.
Proof. unfold Session.field_ostr. intros ->. by destruct o. Qed.

Lemma field_oint_of_oint (data : gmap string Session.SessionVal) (key : string)
    (o : option Z) :
  data !! key = Some (Session.SessionVal_of_oint o) → Session.field_oint data key = Some o.
Proof. unfold Session.field_oint. intros ->. by destruct o. Qed.

Lemma SessionState_of_value_value (st : Session.SessionState) :
  Session.SessionState_of_value (Session.SessionState_value st) = Some st.
Proof. by destruct st. Qed.

Lemma document_dict_truthy (d : DocumentData) :
  Session.SessionVal_truthy (Session.SDict (to_dict isoformat d)) = true.
Proof.
  unfold Session.SessionVal_truthy. apply negb_true_iff, bool_decide_eq_false.
  unfold to_dict. apply insert_non_empty.
Qed.

(** X22. A session written by [to_dict] and read back by [from_dict]
    is not the session that was written: the constructor runs
    [update_activity], so what comes back is the stored session with
    [last_activity] moved to the time of reading and one more
    interaction counted; everything else, the record included, is as
    stored.  A session that had expired when it was stored is therefore
    live again once it is read back. *)
Theorem session_from_dict_to_dict (now_document now : datetime) (s : Session.UserSession) :
  fromisoformat (isoformat (Session.created_at s)) = Some (Session.created_at s) →
  is_Some (fromisoformat (isoformat (Session.last_activity s))) →
  (∀ d, Session.document_data s = Some d →
     constructed d
     ∧ fromisoformat (isoformat (extraction_timestamp d))
       = Some (extraction_timestamp d)) →
  let restored := Session.update_activity now s in
  Session.from_dict fromisoformat now_document now (Session.to_dict isoformat s)
  = Ok (Some restored)
  ∧ Session.last_activity restored = now
  ∧ Session.total_interactions restored = (Session.total_interactions s + 1)%Z
  ∧ ((0 ≤ SESSION_TIMEOUT_MINUTES cfg)%Z → Session.is_expired cfg now restored = false).
Proof.
  intros Hcreated [t Hlast] Hdoc restored.
  split; [ | split; [reflexivity | split; [reflexivity | ]]].
  - pose (data := Session.to_dict isoformat s).
    assert (L1 : data !! "created_at" = Some (Session.SStr (isoformat (Session.created_at s))))
      by lookup_session_dict.
    assert (L2 : data !! "last_activity" = Some (Session.SStr (isoformat (Session.last_activity s))))
      by lookup_session_dict.
    assert (L3 : data !! "state" = Some (Session.SStr (Session.SessionState_value (Session.state s))))
      by lookup_session_dict.
    assert (L4 : data !! "workflow_type"
                 = Some (Session.SessionVal_of_ostr
                           (option_map Session.WorkflowType_value (Session.workflow_type s))))
      by lookup_session_dict.
    assert (L5 : data !! "document_data"
                 = Some match Session.document_data s with
                        | Some d => Session.SDict (to_dict isoformat d)
                        | None => Session.SNone
                        end)
      by lookup_session_dict.
    assert (L6 : data !! "user_id" = Some (Session.SInt (Session.user_id s)))
      by lookup_session_dict.
    assert (L7 : data !! "total_interactions" = Some (Session.SInt (Session.total_interactions s)))
      by lookup_session_dict.
    assert (L8 : data !! "file_id" = Some (Session.SessionVal_of_ostr (Session.file_id s)))
      by lookup_session_dict.
    assert (L9 : data !! "file_size" = Some (Session.SessionVal_of_oint (Session.file_size s)))
      by lookup_session_dict.
    assert (L10 : data !! "original_filename"
                  = Some (Session.SessionVal_of_ostr (Session.original_filename s)))
      by lookup_session_dict.
    assert (L11 : data !! "custom_filename"
                  = Some (Session.SessionVal_of_ostr (Session.custom_filename s)))
      by lookup_session_dict.
    assert (L12 : data !! "branch" = Some (Session.SessionVal_of_ostr (Session.branch s)))
      by lookup_session_dict.
    assert (L13 : data !! "sheet_name" = Some (Session.SessionVal_of_ostr (Session.sheet_name s)))
      by lookup_session_dict.
    assert (L14 : data !! "nama_toko" = Some (Session.SessionVal_of_ostr (Session.nama_toko s)))
      by lookup_session_dict.
    assert (L15 : data !! "extracted_data" = Some (Session.SDict (Session.extracted_data s)))
      by lookup_session_dict.
    assert (L16 : data !! "npwp_type" = Some (Session.SessionVal_of_ostr (Session.npwp_type s)))
      by lookup_session_dict.
    assert (L17 : data !! "edit_field" = Some (Session.SessionVal_of_ostr (Session.edit_field s)))
      by lookup_session_dict.
    assert (L18 : data !! "last_bot_message_id"
                  = Some (Session.SessionVal_of_oint (Session.last_bot_message_id s)))
      by lookup_session_dict.
    assert (L19 : data !! "custom_data" = Some (Session.SDict (Session.custom_data s)))
      by lookup_session_dict.
    assert (L20 : data !! "error_count" = Some (Session.SInt (Session.error_count s)))
      by lookup_session_dict.
    change (Session.to_dict isoformat s) with data. clearbody data.
    unfold Session.from_dict, Session.parse_time, Session.field_int, Session.field_dict.
    rewrite L1, L2, L3, L4, L5, L6, L7, L15, L19, L20, Hcreated, Hlast,
      SessionState_of_value_value.
    rewrite (field_ostr_of_ostr _ _ _ L8), (field_oint_of_oint _ _ _ L9),
      (field_ostr_of_ostr _ _ _ L10), (field_ostr_of_ostr _ _ _ L11),
      (field_ostr_of_ostr _ _ _ L12), (field_ostr_of_ostr _ _ _ L13),
      (field_ostr_of_ostr _ _ _ L14), (field_ostr_of_ostr _ _ _ L16),
      (field_ostr_of_ostr _ _ _ L17), (field_oint_of_oint _ _ _ L18).
    assert (Hw : match
                   (if negb (Session.SessionVal_truthy
                               (Session.SessionVal_of_ostr
                                  (option_map Session.WorkflowType_value (Session.workflow_type s))))
                    then Ok None
                    else
                      match Session.SessionVal_of_ostr
                              (option_map Session.WorkflowType_value (Session.workflow_type s)) with
                      | Session.SStr v =>
                          match Session.WorkflowType_of_value v with
                          | Some w => Ok (Some w)
                          | None =>
                              Raise (OtherError
                                       ("ValueError: '" +:+ v
                                        +:+ "' is not a valid WorkflowType"))
                          end
                      | _ => Raise (OtherError "ValueError: not a valid WorkflowType")
                      end)
                 with
                 | Ok w => w = Session.workflow_type s
                 | Raise _ => False
                 end).
    { by destruct (Session.workflow_type s) as [[] | ]. }
    destruct (if negb _ then _ else _) as [w | e] in Hw |- *; [ | contradiction].
    subst w.
    assert (Hd : match Session.document_data s with
                 | Some d =>
                     from_dict fromisoformat now_document (to_dict isoformat d) = Ok d
                 | None => True
                 end).
    { destruct (Session.document_data s) as [d | ] eqn:Hs; [ | exact I].
      destruct (Hdoc d eq_refl) as [Hc%constructed_post_init Hts].
      rewrite (from_dict_to_dict_normalises isoformat fromisoformat _ _ Hts).
      by rewrite Hc. }
    unfold restored. destruct s as [uid st wf ca la fid fsz ofn cfn br sn nt dd ed
                                      npt ef lb cd ti ec].
    cbn [Session.document_data] in Hd |- *.
    destruct dd as [d | ].
    + rewrite document_dict_truthy. cbn [negb]. rewrite Hd. reflexivity.
    + reflexivity.
  - intros Htimeout. unfold Session.is_expired, restored, Session.update_activity. cbn [Session.last_activity].
    apply Z.ltb_ge. unfold session_timeout. lia.
Qed.

End SessionRoundTrip.

Lemma session_from_dict_to_dict_witness :
  Session.from_dict Py.int 5000 1800002000
    (Session.to_dict Py.str_of_Z stored_session)
  = Ok (Some (Session.update_activity 1800002000 stored_session))
  ∧ Session.is_expired default_settings 1800002000 stored_session = true
  ∧ Session.is_expired default_settings 1800002000
      (Session.update_activity 1800002000 stored_session) = false.
Proof.
  destruct (session_from_dict_to_dict Py.str_of_Z Py.int default_settings
              5000%Z 1800002000%Z stored_session) as (Hread & _ & _ & Hlive).
  - vm_compute. reflexivity.
  - eexists. vm_compute. reflexivity.
  - intros d [= <-]. split; [ | vm_compute; reflexivity].
    unfold sample_company, constructed. eauto 20.
  - split; [exact Hread | ]. split; [vm_compute; reflexivity | ].
    apply Hlive. simpl. lia.
Defined.
